(** * Truck listing scraper: the extraction engine, embedded and verified

    Source: [truck_listing_scraper.py] (classes [CraigslistScraper] and
    [FacebookMarketplaceScraper]).  The browser is the environment: every
    Selenium call is an oracle whose answer may also be an exception, and the
    Python code's [try]/[except] blocks are written out on that answer.

    A [str] is held as its UTF-8 bytes.  Where Python works on characters
    ([len], [strip], [isdigit], the classes of [re]) the model does too: a
    character is a lead byte with its continuation bytes, and what the
    interpreter's Unicode database says about the characters beyond ASCII is
    a parameter ([Unicode]) of everything that asks it. *)

From Stdlib Require Import String Ascii List Bool Arith Lia.
Import ListNotations.
Local Open Scope string_scope.
Local Open Scope list_scope.

(** ** Python values, dictionaries and the [str] methods the scraper calls *)
Module Py.

(** A call either returns or raises; the scraper never inspects the
    exception it catches, so one [Raises] is enough. *)
Inductive outcome (A : Type) : Type :=
| Returns (a : A)
| Raises.
Arguments Returns {A} a.
Arguments Raises {A}.

(** The values a record holds: [str], or [None] (what
    [WebElement.get_attribute] answers for a missing attribute). *)
Inductive value : Type :=
| PyNone
| PyStr (s : string).

Definition value_eqb (a b : value) : bool :=
  match a, b with
  | PyNone, PyNone => true
  | PyStr s, PyStr t => String.eqb s t
  | _, _ => false
  end.

(** Truth value of a string and of a [str]-or-[None]. *)
Definition nonempty (s : string) : bool :=
  match s with
  | EmptyString => false
  | String _ _ => true
  end.

Definition truthy (v : value) : bool :=
  match v with
  | PyNone => false
  | PyStr s => nonempty s
  end.

(** [x or ''] *)
Definition or_empty (v : value) : string :=
  match v with
  | PyNone => EmptyString
  | PyStr s => s
  end.

(** A [dict] keeps insertion order; [d[k] = v] overwrites in place. *)
Definition dict : Type := list (string * value).

Fixpoint dict_get (d : dict) (k : string) : option value :=
  match d with
  | [] => None
  | (k', v) :: r => if String.eqb k' k then Some v else dict_get r k
  end.

Fixpoint dict_set (d : dict) (k : string) (v : value) : dict :=
  match d with
  | [] => [(k, v)]
  | (k', v') :: r =>
      if String.eqb k' k then (k', v) :: r else (k', v') :: dict_set r k v
  end.

Definition keys (d : dict) : list string := map fst d.

(** [d[k]] read as a string for a truth test; a key the literal always
    creates is never missing. *)
Definition item (d : dict) (k : string) : value :=
  match dict_get d k with
  | Some v => v
  | None => PyNone
  end.

(** *** Character classes (code points below 128) *)
Definition code (c : ascii) : nat := nat_of_ascii c.

Definition between (lo hi : nat) (c : ascii) : bool :=
  ((lo <=? code c)%nat && (code c <=? hi)%nat)%bool.

(** Below 128, [str.isspace] holds of TAB..CR, FS..US and SPACE, and
    [str.isdigit] of 0..9. *)
Definition isspace (c : ascii) : bool := between 9 13 c || between 28 32 c.
Definition isdigit (c : ascii) : bool := between 48 57 c.
Definition isupper (c : ascii) : bool := between 65 90 c.
Definition islower (c : ascii) : bool := between 97 122 c.
Definition isalpha (c : ascii) : bool := isupper c || islower c.

Definition to_lower (c : ascii) : ascii :=
  if isupper c then ascii_of_nat (code c + 32) else c.
Definition to_upper (c : ascii) : ascii :=
  if islower c then ascii_of_nat (code c - 32) else c.

(** *** Characters of a [str]

    In UTF-8 the bytes 128..191 continue the character begun before them;
    every other byte begins one.  [chars] cuts a text into its characters,
    [glue] puts them together again, and [len] is Python's [len]. *)
Definition is_continuation (c : ascii) : bool := between 128 191 c.

Definition starts_inside (s : string) : bool :=
  match s with
  | EmptyString => false
  | String c _ => is_continuation c
  end.

Fixpoint chars (s : string) : list string :=
  match s with
  | EmptyString => []
  | String c r =>
      if starts_inside r then
        match chars r with
        | ch :: rest => String c ch :: rest
        | [] => [String c EmptyString]
        end
      else String c EmptyString :: chars r
  end.

Fixpoint glue (cs : list string) : string :=
  match cs with
  | [] => EmptyString
  | ch :: rest => ch ++ glue rest
  end.

Definition len (s : string) : nat := List.length (chars s).

(** What [chars] yields: each piece is a byte followed by continuation
    bytes only, and each piece after the first begins with a byte that is
    not one. *)
Fixpoint continuation_only (s : string) : bool :=
  match s with
  | EmptyString => true
  | String c r => is_continuation c && continuation_only r
  end.

Definition is_char (ch : string) : bool :=
  match ch with
  | EmptyString => false
  | String _ r => continuation_only r
  end.

Definition well_cut (cs : list string) : Prop :=
  Forall (fun ch => is_char ch = true) cs /\
  Forall (fun ch => starts_inside ch = false) (tl cs).

(** The character when it is one of the first 128. *)
Definition below_128 (ch : string) : option ascii :=
  match ch with
  | String c EmptyString => if (code c <? 128)%nat then Some c else None
  | _ => None
  end.

(** What the Unicode database of the interpreter says about a character
    beyond ASCII: whether [str.isspace] holds of it (the class [\s] of [re]
    is the same), whether [str.isdigit] does, and whether it is a decimal
    digit (the class [\d] of [re]). *)
Class Unicode : Type := {
  isspace_beyond_ascii : string -> bool;
  isdigit_beyond_ascii : string -> bool;
  isdecimal_beyond_ascii : string -> bool
}.

Section Characters.
Context `{U : Unicode}.

Definition char_isspace (ch : string) : bool :=
  match below_128 ch with
  | Some c => isspace c
  | None => isspace_beyond_ascii ch
  end.

Definition char_isdigit (ch : string) : bool :=
  match below_128 ch with
  | Some c => isdigit c
  | None => isdigit_beyond_ascii ch
  end.

Definition char_isdecimal (ch : string) : bool :=
  match below_128 ch with
  | Some c => isdigit c
  | None => isdecimal_beyond_ascii ch
  end.

(** *** [str] methods *)

(** [str.strip]: the white space at both ends is dropped, character by
    character. *)
Fixpoint lstrip_chars (cs : list string) : list string :=
  match cs with
  | [] => []
  | ch :: rest => if char_isspace ch then lstrip_chars rest else cs
  end.

Definition rstrip_chars (cs : list string) : list string :=
  rev (lstrip_chars (rev cs)).

Definition strip (s : string) : string :=
  glue (rstrip_chars (lstrip_chars (chars s))).

(** [any(char.isdigit() for char in s)] *)
Definition any_digit (s : string) : bool := existsb char_isdigit (chars s).

End Characters.

(** [str.lower] on the letters A..Z.  The scraper asks of a lowered text
    only whether it contains [mile] (a text with [k mile] has [mile]); the
    one character beyond ASCII that lowers to a letter of that word gives an
    [i] followed by a combining dot, never [il], so the answer is the one
    Python gives. *)
Fixpoint lower (s : string) : string :=
  match s with
  | EmptyString => EmptyString
  | String c r => String (to_lower c) (lower r)
  end.

Definition startswith (s p : string) : bool := String.prefix p s.

(** [needle in hay]; on UTF-8 a text occurs in another as bytes exactly
    when it does as characters, and likewise for a prefix. *)
Fixpoint contains (needle hay : string) : bool :=
  String.prefix needle hay ||
  match hay with
  | EmptyString => false
  | String _ r => contains needle r
  end.

(** [s.replace(old, new)] for a non-empty [old]: occurrences are replaced
    left to right without overlap; [skip] counts the characters of an
    occurrence still to be dropped. *)
Fixpoint replace_from (old new : string) (skip : nat) (s : string) : string :=
  match s with
  | EmptyString => EmptyString
  | String c r =>
      match skip with
      | S k => replace_from old new k r
      | O =>
          if String.prefix old s
          then new ++ replace_from old new (String.length old - 1) r
          else String c (replace_from old new 0 r)
      end
  end.

Definition replace (s old new : string) : string := replace_from old new 0 s.

(** [s.split(sep)] for a one-character separator. *)
Fixpoint split (sep : ascii) (s : string) : list string :=
  match s with
  | EmptyString => [EmptyString]
  | String c r =>
      if Ascii.eqb c sep then EmptyString :: split sep r
      else match split sep r with
           | h :: t => String c h :: t
           | [] => [String c EmptyString]
           end
  end.

(** [xs[-1]] of a list that [split] returned (never empty). *)
Definition last_item (xs : list string) : string := last xs EmptyString.

(** [str.title]: a cased character is upper-cased when the character
    before it is not cased, lower-cased otherwise.  The cased characters are
    the letters A..Z and a..z: the text is the last segment of a URL. *)
Fixpoint title_from (previous_is_cased : bool) (s : string) : string :=
  match s with
  | EmptyString => EmptyString
  | String c r =>
      if islower c then
        String (if previous_is_cased then c else to_upper c) (title_from true r)
      else if isupper c then
        String (if previous_is_cased then to_lower c else c) (title_from true r)
      else String c (title_from false r)
  end.

Definition title (s : string) : string := title_from false s.

(** [sep.join(parts)] *)
Fixpoint join (sep : string) (parts : list string) : string :=
  match parts with
  | [] => EmptyString
  | [p] => p
  | p :: rest => p ++ sep ++ join sep rest
  end.

Definition in_list (s : string) (xs : list string) : bool :=
  existsb (String.eqb s) xs.

Fixpoint take (n : nat) (s : string) : string :=
  match n, s with
  | S k, String c r => String c (take k r)
  | _, _ => EmptyString
  end.

Fixpoint drop (n : nat) (s : string) : string :=
  match n, s with
  | S k, String _ r => drop k r
  | _, _ => s
  end.

End Py.
Export Py.

(** ** The [re] patterns of the scraper

    The title pattern is a concatenation of quantified character classes,
    so its matcher is the backtracking one of [re] restricted to that shape:
    each class takes the longest run it can and gives characters back one at
    a time while the rest fails.  The two [re.sub] calls of the location
    clean-up are written out directly. *)
Module Re.

Record atom : Type := mkAtom {
  cls : string -> bool;
  lo : nat;
  hi : option nat
}.

Fixpoint span (p : string -> bool) (s : list string) : nat :=
  match s with
  | [] => 0
  | ch :: r => if p ch then S (span p r) else 0
  end.

Fixpoint backoff (least k : nat) (s : list string)
    (rest : list string -> option (list (list string))) {struct k}
    : option (list (list string)) :=
  if (k <? least)%nat then None
  else match rest (skipn k s) with
       | Some gs => Some (firstn k s :: gs)
       | None =>
           match k with
           | O => None
           | S k' => backoff least k' s rest
           end
       end.

(** [re.match] on the characters of a text: anchored at the start, free at
    the end; the answer is the characters each atom consumed. *)
Fixpoint match_atoms (items : list atom) (s : list string)
    : option (list (list string)) :=
  match items with
  | [] => Some []
  | a :: rest =>
      let n := span (cls a) s in
      let k := match hi a with
               | Some h => Nat.min h n
               | None => n
               end in
      backoff (lo a) k s (match_atoms rest)
  end.

Definition plus (p : string -> bool) : atom := mkAtom p 1 None.
Definition exactly (n : nat) (p : string -> bool) : atom := mkAtom p n (Some n).

(** [[A-Za-z]] *)
Definition letter (ch : string) : bool :=
  match ch with
  | String c EmptyString => isalpha c
  | _ => false
  end.

Section Patterns.
Context `{U : Unicode}.

(** [[A-Za-z0-9\-\s]] *)
Definition model_char (ch : string) : bool :=
  match ch with
  | String c EmptyString => isalpha c || isdigit c || Ascii.eqb c "-"%char
  | _ => false
  end
  || char_isspace ch.

(** [r'(\d{4})\s+([A-Za-z]+)\s+([A-Za-z0-9\-\s]+)'] *)
Definition title_pattern : list atom :=
  [exactly 4 char_isdecimal; plus char_isspace; plus letter; plus char_isspace;
   plus model_char].

(** [re.match(title_pattern, title)] with [group(1)], [group(2)], [group(3)]. *)
Definition title_match (title : string) : option (string * string * string) :=
  match match_atoms title_pattern (chars title) with
  | Some [g1; _; g2; _; g3] => Some (glue g1, glue g2, glue g3)
  | _ => None
  end.

End Patterns.

(** [re.sub(r'[()]', '', s)] *)
Fixpoint sub_parens (s : string) : string :=
  match s with
  | EmptyString => EmptyString
  | String c r =>
      if Ascii.eqb c "("%char || Ascii.eqb c ")"%char
      then sub_parens r else String c (sub_parens r)
  end.

Definition newline : ascii := ascii_of_nat 10.

(** [.*$] from here: no line break before the end of the string, a single
    final line break apart (which [$] leaves unconsumed). *)
Fixpoint runs_to_end (s : string) : option string :=
  match s with
  | EmptyString => Some EmptyString
  | String c r =>
      if Ascii.eqb c newline
      then match r with
           | EmptyString => Some s
           | String _ _ => None
           end
      else runs_to_end r
  end.

(** [re.sub(r'google map.*$', '', s, flags=re.IGNORECASE)]: the leftmost
    place where the pattern matches is cut off up to the end. *)
Fixpoint sub_google_map (s : string) : string :=
  match s with
  | EmptyString => EmptyString
  | String c r =>
      if String.prefix "google map" (lower s) then
        match runs_to_end (drop 10 s) with
        | Some kept => kept
        | None => String c (sub_google_map r)
        end
      else String c (sub_google_map r)
  end.

End Re.

(** ** The browser as the scraper sees it *)
Module Selenium.

Inductive By : Type := CSS_SELECTOR | CLASS_NAME | ID | XPATH | TAG_NAME.

(** An element handle: its [text], its attributes and the elements a query
    scoped to it finds.  Each read can raise (stale handle, bad selector). *)
#[warnings="-register-all"] Inductive WebElement : Type :=
| mkWebElement
    (text : outcome string)
    (get_attribute : string -> outcome value)
    (find_elements : By -> string -> outcome (list WebElement)).

Definition text (e : WebElement) : outcome string :=
  match e with mkWebElement t _ _ => t end.
Definition get_attribute (e : WebElement) (name : string) : outcome value :=
  match e with mkWebElement _ a _ => a name end.
Definition find_elements (e : WebElement) (by_ : By) (sel : string)
    : outcome (list WebElement) :=
  match e with mkWebElement _ _ f => f by_ sel end.

(** A loaded page answers the same queries at document level. *)
Definition Page : Type := By -> string -> outcome (list WebElement).

(** [find_element]: the first match, [NoSuchElementException] when none. *)
Definition first_of (found : outcome (list WebElement)) : outcome WebElement :=
  match found with
  | Returns (e :: _) => Returns e
  | _ => Raises
  end.

Definition page_find_element (driver : Page) (by_ : By) (sel : string)
    : outcome WebElement := first_of (driver by_ sel).

Definition find_element (e : WebElement) (by_ : By) (sel : string)
    : outcome WebElement := first_of (find_elements e by_ sel).

End Selenium.
Export Selenium.

(** ** [CraigslistScraper]: enumerate, then visit *)
Module CraigslistScraper.

(** A container query the discoverer sends to the driver. *)
Definition Query : Type := (By * string)%type.

Section Scraper.

(** [urllib.parse.urljoin], the page the browser shows after
    [driver.get(url)] (or the exception it raises), the clock behind
    [datetime.now().strftime(...)] at the i-th visit, and whether Chrome
    starts in [setup_driver]. *)
Variable urljoin : string -> string -> string.
Variable browse : string -> outcome Page.
Variable now : nat -> string.
Variable chrome_starts : bool.
Context `{U : Unicode}.

(** *** [extract_listing_urls] *)

(** [for link in link_elements] inside one result node: the first anchor
    whose URL is new is appended and the loop is left; a raising
    [get_attribute] leaves the node through [except: continue]. *)
Fixpoint scan_links (search_url : string) (link_elements : list WebElement)
    (listing_urls : list string) : list string :=
  match link_elements with
  | [] => listing_urls
  | link :: rest =>
      match get_attribute link "href" with
      | Raises => listing_urls
      | Returns (PyStr href) =>
          if nonempty href && contains "/d/" href then
            let full_url := urljoin search_url href in
            if in_list full_url listing_urls
            then scan_links search_url rest listing_urls
            else listing_urls ++ [full_url]
          else scan_links search_url rest listing_urls
      | Returns PyNone => scan_links search_url rest listing_urls
      end
  end.

Definition visit_result_node (search_url : string) (listing_urls : list string)
    (node : WebElement) : list string :=
  match find_elements node CSS_SELECTOR "a.cl-app-anchor" with
  | Raises => listing_urls
  | Returns link_elements => scan_links search_url link_elements listing_urls
  end.

(** Body of the loops over [.cl-search-result] and [[data-pid]] containers. *)
Definition visit_container (search_url : string) (listing_urls : list string)
    (container : WebElement) : list string :=
  match find_element container CSS_SELECTOR "a" with
  | Raises => listing_urls
  | Returns link =>
      match get_attribute link "href" with
      | Raises => listing_urls
      | Returns (PyStr href) =>
          if nonempty href && contains "/d/" href then
            let full_url := urljoin search_url href in
            if in_list full_url listing_urls then listing_urls
            else listing_urls ++ [full_url]
          else listing_urls
      | Returns PyNone => listing_urls
      end
  end.

Definition q_result_node : Query := (CLASS_NAME, "result-node").
Definition q_search_result : Query := (CSS_SELECTOR, ".cl-search-result").
Definition q_data_pid : Query := (CSS_SELECTOR, "[data-pid]").

Definition ask (driver : Page) (q : Query) : outcome (list WebElement) :=
  driver (fst q) (snd q).

(** The extraction part of [extract_listing_urls], on the page as it stands
    after the load and the readiness wait.  The second component lists the
    container queries sent to the driver, in order. *)
Definition extract_listing_urls (search_url : string) (driver : Page)
    : list string * list Query :=
  match ask driver q_result_node with
  | Raises => ([], [q_result_node])
  | Returns result_nodes =>
      let listing_urls := fold_left (visit_result_node search_url) result_nodes [] in
      if (List.length listing_urls =? 0)%nat then
        match ask driver q_search_result with
        | Raises => ([], [q_result_node; q_search_result])
        | Returns search_results =>
            let listing_urls :=
              fold_left (visit_container search_url) search_results listing_urls in
            if (List.length listing_urls =? 0)%nat then
              match ask driver q_data_pid with
              | Raises => ([], [q_result_node; q_search_result; q_data_pid])
              | Returns pid_elements =>
                  (fold_left (visit_container search_url) pid_elements listing_urls,
                   [q_result_node; q_search_result; q_data_pid])
              end
            else (listing_urls, [q_result_node; q_search_result])
        end
      else (listing_urls, [q_result_node])
  end.

(** *** The field-extraction primitives *)

Definition safe_find_element_text (driver : Page) (selector method : string)
    : string :=
  let found :=
    if method =? "css" then page_find_element driver CSS_SELECTOR selector
    else if method =? "class" then page_find_element driver CLASS_NAME selector
    else if method =? "id" then page_find_element driver ID selector
    else if method =? "xpath" then page_find_element driver XPATH selector
    else page_find_element driver CSS_SELECTOR selector in
  match found with
  | Raises => EmptyString
  | Returns element =>
      match text element with
      | Raises => EmptyString
      | Returns t => strip t
      end
  end.

Definition safe_find_element_attribute (driver : Page)
    (selector attribute method : string) : string :=
  let found :=
    if method =? "css" then page_find_element driver CSS_SELECTOR selector
    else if method =? "class" then page_find_element driver CLASS_NAME selector
    else if method =? "id" then page_find_element driver ID selector
    else if method =? "xpath" then page_find_element driver XPATH selector
    else page_find_element driver CSS_SELECTOR selector in
  match found with
  | Raises => EmptyString
  | Returns element =>
      match get_attribute element attribute with
      | Raises => EmptyString
      | Returns v => or_empty v
      end
  end.

(** *** [extract_listing_details] *)

(** The dictionary literal the builder starts from. *)
Definition blank_listing (listing_url date_scraped : string) : dict :=
  [ ("url", PyStr listing_url);
    ("title", PyStr EmptyString);
    ("price", PyStr EmptyString);
    ("year", PyStr EmptyString);
    ("make", PyStr EmptyString);
    ("model", PyStr EmptyString);
    ("vin", PyStr EmptyString);
    ("mileage", PyStr EmptyString);
    ("cylinders", PyStr EmptyString);
    ("drive", PyStr EmptyString);
    ("fuel", PyStr EmptyString);
    ("color", PyStr EmptyString);
    ("transmission", PyStr EmptyString);
    ("type", PyStr EmptyString);
    ("location", PyStr EmptyString);
    ("google_maps_link", PyStr EmptyString);
    ("date_posted", PyStr EmptyString);
    ("date_scraped", PyStr date_scraped);
    ("source", PyStr "Craigslist") ].

(** The title as the page gives it: four selectors, each tried only while
    the ones before gave the empty string. *)
Definition find_title (driver : Page) : string :=
  let title := safe_find_element_text driver "#titletextonly" "id" in
  let title := if nonempty title then title
    else safe_find_element_text driver ".postingtitletext .titletextonly" "css" in
  let title := if nonempty title then title
    else safe_find_element_text driver "h1 .titletextonly" "css" in
  let title := if nonempty title then title
    else safe_find_element_text driver ".postingtitle" "css" in
  title.

(** [listing_url.split('/')[-1].replace('.html', '').replace('-', ' ').title()] *)
Definition url_title (listing_url : string) : string :=
  Py.title
    (replace (replace (last_item (split "/"%char listing_url)) ".html" EmptyString)
       "-" " ").

(** The [if title: ... else: ...] block. *)
Definition set_title (listing_url title : string) (listing_data : dict) : dict :=
  if nonempty title then
    let listing_data := dict_set listing_data "title" (PyStr title) in
    match Re.title_match title with
    | Some (g1, g2, g3) =>
        let listing_data := dict_set listing_data "year" (PyStr g1) in
        let listing_data := dict_set listing_data "make" (PyStr g2) in
        dict_set listing_data "model" (PyStr (strip g3))
    | None => listing_data
    end
  else dict_set listing_data "title" (PyStr (url_title listing_url)).

(** The one-selector attribute fields, in the order the builder fills them. *)
Definition simple_fields : list (string * string) :=
  [ ("price", ".price");
    ("vin", ".attr.auto_vin .valu");
    ("mileage", ".attr.auto_miles .valu");
    ("cylinders", ".attr.auto_cylinders .valu");
    ("drive", ".attr.auto_drivetrain .valu");
    ("fuel", ".attr.auto_fuel_type .valu");
    ("color", ".attr.auto_paint .valu");
    ("transmission", ".attr.auto_transmission .valu");
    ("type", ".attr.auto_bodytype .valu") ].

Definition set_simple_fields (driver : Page) (listing_data : dict) : dict :=
  fold_left
    (fun d f => dict_set d (fst f) (PyStr (safe_find_element_text driver (snd f) "css")))
    simple_fields listing_data.

Definition find_location_parts (driver : Page) : list string :=
  let location_parts := [] in
  let primary_location := safe_find_element_text driver ".postingtitletext small" "css" in
  let location_parts :=
    if nonempty primary_location
    then location_parts ++ [strip (Re.sub_parens primary_location)]
    else location_parts in
  let address := safe_find_element_text driver ".mapaddress" "css" in
  if nonempty address then
    let address_clean := strip (Re.sub_google_map address) in
    if nonempty address_clean && negb (in_list address_clean location_parts)
    then location_parts ++ [address_clean]
    else location_parts
  else location_parts.

Definition set_location (driver : Page) (listing_data : dict) : dict :=
  match find_location_parts driver with
  | [] => listing_data
  | location_parts => dict_set listing_data "location" (PyStr (join " - " location_parts))
  end.

Definition find_date_posted (driver : Page) : string :=
  let date_posted := safe_find_element_attribute driver "time.date.timeago" "datetime" "css" in
  let date_posted := if nonempty date_posted then date_posted
    else safe_find_element_attribute driver "time.date.timeago" "title" "css" in
  let date_posted := if nonempty date_posted then date_posted
    else safe_find_element_text driver "time.date.timeago" "css" in
  let date_posted := if nonempty date_posted then date_posted
    else safe_find_element_text driver ".postinginfos .postinginfo:first-child .date" "css" in
  date_posted.

Definition set_date_posted (driver : Page) (listing_data : dict) : dict :=
  let date_posted := find_date_posted driver in
  if nonempty date_posted
  then dict_set listing_data "date_posted" (PyStr date_posted)
  else listing_data.

(** [None] is the [except] branch: only [driver.get] can raise here, every
    lookup below it swallows its own failure. *)
Definition extract_listing_details (listing_url : string) (index : nat)
    : option dict :=
  match browse listing_url with
  | Raises => None
  | Returns driver =>
      let listing_data := blank_listing listing_url (now index) in
      let listing_data := set_title listing_url (find_title driver) listing_data in
      let listing_data := set_simple_fields driver listing_data in
      let listing_data := set_location driver listing_data in
      let listing_data :=
        dict_set listing_data "google_maps_link"
          (PyStr (safe_find_element_attribute driver ".mapaddress a" "href" "css")) in
      let listing_data := set_date_posted driver listing_data in
      Some listing_data
  end.

(** *** [scrape_craigslist] *)

(** [listing_data and (listing_data['title'] or listing_data['price'] or
    listing_data['vin'])] *)
Definition worth_keeping (listing_data : option dict) : bool :=
  match listing_data with
  | None => false
  | Some d =>
      negb (Nat.eqb (List.length d) 0) &&
      (truthy (item d "title") || truthy (item d "price") || truthy (item d "vin"))
  end.

(** One turn of [for i, url in enumerate(listing_urls)]. *)
Definition visit (all_listings : list dict) (i : nat) (url : string) : list dict :=
  let listing_data := extract_listing_details url i in
  if worth_keeping listing_data then
    match listing_data with
    | Some d => all_listings ++ [d]
    | None => all_listings
    end
  else all_listings.

Fixpoint visit_all (listing_urls : list string) (i : nat)
    (all_listings : list dict) : list dict :=
  match listing_urls with
  | [] => all_listings
  | url :: rest => visit_all rest (S i) (visit all_listings i url)
  end.

(** [if max_listings and len(listing_urls) > max_listings] *)
Definition limit (max_listings : option nat) (listing_urls : list string)
    : list string :=
  match max_listings with
  | Some m =>
      if negb (Nat.eqb m 0) && (m <? List.length listing_urls)%nat
      then firstn m listing_urls else listing_urls
  | None => listing_urls
  end.

Definition scrape_craigslist (search_url : string) (max_listings : option nat)
    : list dict :=
  if negb chrome_starts then []
  else
    match browse search_url with
    | Raises => []
    | Returns driver =>
        let listing_urls := fst (extract_listing_urls search_url driver) in
        match listing_urls with
        | [] => []
        | _ :: _ => visit_all (limit max_listings listing_urls) 0 []
        end
    end.

End Scraper.
End CraigslistScraper.

(** ** [FacebookMarketplaceScraper]: scroll, then extract in bulk *)
Module FacebookMarketplaceScraper.

Definition item_links : string := "a[href*='/marketplace/item/']".

(** *** [get_listing_count] *)

Definition container_selectors : list string :=
  [ item_links;
    "[data-testid*='marketplace']";
    "div[data-testid='marketplace-grid'] a";
    "div[role='main'] a[href*='/marketplace/item/']" ].

(** [self.driver] is [None] before a browser is started and after [quit];
    a method called on it raises, which the outer [except] turns into 0. *)
Definition get_listing_count (driver : option Page) : nat :=
  match driver with
  | None => 0
  | Some page =>
      match page CSS_SELECTOR item_links with
      | Raises => 0
      | Returns marketplace_links =>
          fold_left
            (fun max_count selector =>
               match page CSS_SELECTOR selector with
               | Raises => max_count
               | Returns elements => Nat.max max_count (List.length elements)
               end)
            container_selectors 0
      end
  end.

(** *** [wait_and_scroll] *)

(** The loop's counters, with the bookkeeping the statements need: turns of
    the loop entered, scroll commands sent, calls of the count function made,
    and whether the loop was left through [break]. *)
Record ScrollProgress : Type := mkScroll {
  last_count : nat;
  no_change_count : nat;
  attempts : nat;
  scrolls : nat;
  polls : nat;
  stalled : bool
}.

Definition scroll_start : ScrollProgress := mkScroll 0 0 0 0 0 false.

(** [for attempt in range(scroll_attempts)] on a browser whose scroll
    command returns; [count k] is what the k-th call of
    [self.get_listing_count()] of this scroll session returns. *)
Fixpoint scroll_loop (count : nat -> nat) (remaining : nat) (p : ScrollProgress)
    : ScrollProgress :=
  match remaining with
  | O => p
  | S remaining' =>
      let current_listings := count (polls p) in
      if (current_listings =? last_count p)%nat then
        let no_change := S (no_change_count p) in
        if (3 <=? no_change)%nat then
          mkScroll (last_count p) no_change (S (attempts p)) (scrolls p)
            (S (polls p)) true
        else
          scroll_loop count remaining'
            (mkScroll current_listings no_change (S (attempts p))
               (S (scrolls p)) (S (polls p)) false)
      else
        scroll_loop count remaining'
          (mkScroll current_listings 0 (S (attempts p))
             (S (scrolls p)) (S (polls p)) false)
  end.

(** The value returned is a fresh call of the count function after the
    loop; the second component is the state the loop ended in. *)
Definition wait_and_scroll (count : nat -> nat) (scroll_attempts : nat)
    : nat * ScrollProgress :=
  let p := scroll_loop count scroll_attempts scroll_start in
  let final_count := count (polls p) in
  (final_count, p).

(** The method on a browser whose scroll command can fail: [scroll_ok k]
    tells whether the k-th [execute_script] of the session returns.  The
    call stands in no [try], so its exception leaves the method;
    [wait_and_scroll] above is the method on a browser whose scroll command
    always returns. *)
Fixpoint scroll_loop_raising (scroll_ok : nat -> bool) (count : nat -> nat)
    (remaining : nat) (p : ScrollProgress) : outcome ScrollProgress :=
  match remaining with
  | O => Returns p
  | S remaining' =>
      let current_listings := count (polls p) in
      if (current_listings =? last_count p)%nat then
        let no_change := S (no_change_count p) in
        if (3 <=? no_change)%nat then
          Returns (mkScroll (last_count p) no_change (S (attempts p)) (scrolls p)
                     (S (polls p)) true)
        else if scroll_ok (scrolls p) then
          scroll_loop_raising scroll_ok count remaining'
            (mkScroll current_listings no_change (S (attempts p))
               (S (scrolls p)) (S (polls p)) false)
        else Raises
      else if scroll_ok (scrolls p) then
        scroll_loop_raising scroll_ok count remaining'
          (mkScroll current_listings 0 (S (attempts p))
             (S (scrolls p)) (S (polls p)) false)
      else Raises
  end.

Definition wait_and_scroll_raising (scroll_ok : nat -> bool) (count : nat -> nat)
    (scroll_attempts : nat) : outcome (nat * ScrollProgress) :=
  match scroll_loop_raising scroll_ok count scroll_attempts scroll_start with
  | Raises => Raises
  | Returns p =>
      let final_count := count (polls p) in
      Returns (final_count, p)
  end.

(** *** [extract_all_listings] *)

Section Marketplace.
Context `{U : Unicode}.

Definition price_xpath_1 : string :=
  ".//span[@dir='auto' and contains(@class, 'x193iq5w') and contains(text(), '$')]".
Definition price_xpath_2 : string :=
  ".//span[@dir='auto'][contains(text(), '$')]".
Definition price_xpath_3 : string := ".//*[contains(text(), '$')]".
Definition location_xpath : string :=
  ".//*[contains(text(), ', ') and (contains(text(), 'OR') or contains(text(), 'WA') or contains(text(), 'CA') or contains(text(), 'ID') or contains(text(), 'NV'))]".
Definition mileage_xpath : string :=
  ".//*[contains(text(), 'mile') or contains(text(), 'Mile') or contains(text(), 'K mile')]".

Definition not_available : value := PyStr "N/A".

Definition unknown_listing (url : value) : dict :=
  [ ("url", url);
    ("title", not_available);
    ("price", not_available);
    ("mileage", not_available);
    ("location", not_available) ].

(** The three price queries: the next one is sent only when the one before
    returned no element. *)
Definition find_price_elements (link : WebElement) : outcome (list WebElement) :=
  match find_elements link XPATH price_xpath_1 with
  | Raises => Raises
  | Returns (e :: es) => Returns (e :: es)
  | Returns [] =>
      match find_elements link XPATH price_xpath_2 with
      | Raises => Raises
      | Returns (e :: es) => Returns (e :: es)
      | Returns [] => find_elements link XPATH price_xpath_3
      end
  end.

Definition looks_like_price (price_text : string) : bool :=
  (contains "$" price_text && (len price_text <? 30)%nat
     && (1 <? len price_text)%nat)
  && (startswith price_text "$" && any_digit price_text).

Fixpoint pick_price (price_elements : list WebElement) (listing_data : dict)
    : dict :=
  match price_elements with
  | [] => listing_data
  | price_elem :: rest =>
      match text price_elem with
      | Raises => listing_data
      | Returns t =>
          let price_text := strip t in
          if looks_like_price price_text
          then dict_set listing_data "price" (PyStr price_text)
          else pick_price rest listing_data
      end
  end.

Definition set_price (link : WebElement) (listing_data : dict) : dict :=
  match find_price_elements link with
  | Raises => listing_data
  | Returns price_elements => pick_price price_elements listing_data
  end.

Definition set_image_title (link : WebElement) (listing_data : dict) : dict :=
  match find_elements link TAG_NAME "img" with
  | Returns (img :: _) =>
      match get_attribute img "alt" with
      | Returns (PyStr alt) =>
          if nonempty alt
          then dict_set listing_data "title" (PyStr (strip alt))
          else listing_data
      | _ => listing_data
      end
  | _ => listing_data
  end.

(** The first text with a comma that is short enough decides: it is the
    mileage when it mentions miles, the location otherwise.  [Raises] leaves
    the whole [try] block. *)
Fixpoint pick_location (text_elements : list WebElement) (listing_data : dict)
    : outcome dict :=
  match text_elements with
  | [] => Returns listing_data
  | elem :: rest =>
      match text elem with
      | Raises => Raises
      | Returns t =>
          let text := strip t in
          if contains ", " text && (len text <? 50)%nat then
            if contains "mile" (lower text) || contains "k mile" (lower text)
            then Returns (dict_set listing_data "mileage" (PyStr text))
            else Returns (dict_set listing_data "location" (PyStr text))
          else pick_location rest listing_data
      end
  end.

Fixpoint pick_mileage (mileage_elements : list WebElement) (listing_data : dict)
    : dict :=
  match mileage_elements with
  | [] => listing_data
  | elem :: rest =>
      match text elem with
      | Raises => listing_data
      | Returns t =>
          let mileage_text := strip t in
          if contains "mile" (lower mileage_text)
             && (len mileage_text <? 30)%nat
          then dict_set listing_data "mileage" (PyStr mileage_text)
          else pick_mileage rest listing_data
      end
  end.

Definition set_location_and_mileage (link : WebElement) (listing_data : dict)
    : dict :=
  match find_elements link XPATH location_xpath with
  | Raises => listing_data
  | Returns text_elements =>
      match pick_location text_elements listing_data with
      | Raises => listing_data
      | Returns listing_data =>
          if value_eqb (item listing_data "mileage") not_available then
            match find_elements link XPATH mileage_xpath with
            | Raises => listing_data
            | Returns mileage_elements => pick_mileage mileage_elements listing_data
            end
          else listing_data
      end
  end.

(** The record built for one link once its URL is known to be new. *)
Definition build_listing (link : WebElement) (url : value) : dict :=
  set_location_and_mileage link (set_image_title link (set_price link (unknown_listing url))).

(** [for i, link in enumerate(marketplace_links)]; [seen_urls] is only ever
    asked for membership and extended. *)
Fixpoint walk_links (marketplace_links : list WebElement)
    (seen_urls : list value) (listings : list dict) : list dict :=
  match marketplace_links with
  | [] => listings
  | link :: rest =>
      match get_attribute link "href" with
      | Raises => walk_links rest seen_urls listings
      | Returns url =>
          if existsb (value_eqb url) seen_urls
          then walk_links rest seen_urls listings
          else walk_links rest (url :: seen_urls)
                 (listings ++ [build_listing link url])
      end
  end.

Definition extract_all_listings (driver : option Page) : list dict :=
  match driver with
  | None => []
  | Some page =>
      match page CSS_SELECTOR item_links with
      | Raises => []
      | Returns marketplace_links => walk_links marketplace_links [] []
      end
  end.

(** *** [scrape_facebook_marketplace] *)

Inductive Mode : Type := Headless | Visible.

(** What [setup_facebook_driver] can do: return the driver; fail before a
    driver exists; or fail in its last step, returning [None] with
    [self.driver] already assigned. *)
Inductive Startup : Type := Started | NotStarted | StartedThenFailed.

(** Everything outside the scraper that one call depends on. *)
Record World : Type := mkWorld {
  session_file : option (outcome (list string));
  chrome : Mode -> Startup;
  reachable : string -> bool;
  feed : nat -> Page;
  login_clicked : bool;
  continue_clicked : bool;
  fb_driver_ready : bool;
  fb_driver_instance : option Mode
}.

(** The steps of a run that the statements count. *)
Inductive event : Type :=
| StartChrome (m : Mode)
| LoadSession (m : Mode)
| Get (url : string)
| CountListings
| QuitDriver
| LoginRequired
| SaveSession.

Definition facebook_home : string := "https://www.facebook.com".

(** [load_session]: [False] when the file is missing or unreadable or the
    home page cannot be opened; a cookie the browser refuses is skipped. *)
Definition load_session (w : World) : bool :=
  match session_file w with
  | Some (Returns cookies) => reachable w facebook_home
  | _ => false
  end.

(** The [if session_exists:] block.  It answers [headless_success],
    [self.driver] and the number of page observations made; [Raises] is an
    exception on its way to the outer [except]. *)
Definition headless_attempt (w : World) (marketplace_url : string)
    : outcome (bool * option Mode * nat) * list event :=
  match session_file w with
  | None => (Returns (false, None, 0), [])
  | Some _ =>
      match chrome w Headless with
      | Started =>
          if load_session w then
            if reachable w marketplace_url then
              let test_count := get_listing_count (Some (feed w 0)) in
              if (0 <? test_count)%nat then
                (Returns (true, Some Headless, 1),
                 [StartChrome Headless; LoadSession Headless;
                  Get marketplace_url; CountListings])
              else
                (Returns (false, None, 1),
                 [StartChrome Headless; LoadSession Headless;
                  Get marketplace_url; CountListings; QuitDriver])
            else
              (Raises,
               [StartChrome Headless; LoadSession Headless; Get marketplace_url])
          else
            (Returns (false, None, 0),
             [StartChrome Headless; LoadSession Headless; QuitDriver])
      | StartedThenFailed =>
          (Returns (false, None, 0), [StartChrome Headless; QuitDriver])
      | NotStarted => (Returns (false, None, 0), [StartChrome Headless])
      end
  end.

(** The [if st.button("Open Facebook for Login")] block: [self.driver] and
    the two session-state entries after it. *)
Definition open_for_login (w : World)
    : outcome (option Mode * bool * option Mode) * list event :=
  if login_clicked w then
    match chrome w Visible with
    | Started =>
        if reachable w facebook_home then
          (Returns (Some Visible, true, Some Visible),
           [StartChrome Visible; LoadSession Visible; Get facebook_home])
        else (Raises, [StartChrome Visible; LoadSession Visible; Get facebook_home])
    | StartedThenFailed =>
        (Returns (Some Visible, fb_driver_ready w, fb_driver_instance w),
         [StartChrome Visible])
    | NotStarted =>
        (Returns (None, fb_driver_ready w, fb_driver_instance w),
         [StartChrome Visible])
    end
  else (Returns (None, fb_driver_ready w, fb_driver_instance w), []).

(** The [if not headless_success:] block.  [Returns None] is one of its two
    [return []]; [Returns (Some driver)] goes on to the scroll phase. *)
Definition visible_mode (w : World) (marketplace_url : string)
    : outcome (option (option Mode)) * list event :=
  match open_for_login w with
  | (Raises, l) => (Raises, LoginRequired :: l)
  | (Returns (driver, ready, instance), l) =>
      if ready then
        if continue_clicked w then
          match instance with
          | Some d =>
              if reachable w marketplace_url
              then (Returns (Some (Some d)),
                    LoginRequired :: l ++ [SaveSession; Get marketplace_url])
              else (Raises, LoginRequired :: l ++ [SaveSession; Get marketplace_url])
          | None => (Returns None, LoginRequired :: l)
          end
        else (Returns (Some driver), LoginRequired :: l)
      else (Returns None, LoginRequired :: l)
  end.

(** From [initial_count = self.get_listing_count()] to the end.  Without a
    driver the first scroll command raises (and with no scroll at all the
    extraction finds nothing), so the answer is the outer [return []]. *)
Definition scroll_and_extract (w : World) (driver : option Mode)
    (observed max_scroll_attempts : nat) : list dict :=
  match driver with
  | None => []
  | Some _ =>
      let initial_count := get_listing_count (Some (feed w observed)) in
      let observed :=
        if (initial_count =? 0)%nat then S (S observed) else S observed in
      let '(final_count, p) :=
        wait_and_scroll
          (fun k => get_listing_count (Some (feed w (observed + k))))
          max_scroll_attempts in
      extract_all_listings (Some (feed w (observed + S (polls p))))
  end.

Definition scrape_facebook_marketplace (w : World) (marketplace_url : string)
    (max_scroll_attempts : nat) : list dict * list event :=
  match headless_attempt w marketplace_url with
  | (Raises, l) => ([], l)
  | (Returns (headless_success, driver, observed), l) =>
      if headless_success then
        (scroll_and_extract w driver observed max_scroll_attempts, l)
      else
        match visible_mode w marketplace_url with
        | (Raises, l') => ([], l ++ l')
        | (Returns None, l') => ([], l ++ l')
        | (Returns (Some driver), l') =>
            (scroll_and_extract w driver observed max_scroll_attempts, l ++ l')
        end
  end.

End Marketplace.

End FacebookMarketplaceScraper.

(** ** [GoogleSheetsManager] and the table it uploads *)
Module GoogleSheetsManager.

(** A [pandas.DataFrame] as the manager uses it: the column labels and the
    rows of cells; a cell is a string or missing ([None]/[NaN]). *)
Record Table : Type := mkTable {
  columns : list string;
  rows : list (list value)
}.

(** [pd.DataFrame(listings)] for a list of dictionaries: the columns are the
    keys in the order of their first appearance, and a record without a key
    has a missing cell in that column. *)
Definition add_column (cols : list string) (k : string) : list string :=
  if in_list k cols then cols else cols ++ [k].

Definition all_columns (listings : list dict) : list string :=
  fold_left (fun cols d => fold_left add_column (keys d) cols) listings [].

Definition DataFrame (listings : list dict) : Table :=
  let cols := all_columns listings in
  mkTable cols (map (fun d => map (item d) cols) listings).

(** [df.fillna('N/A').astype(str)], cell by cell. *)
Definition fill (cell : value) : string :=
  match cell with
  | PyNone => "N/A"
  | PyStr s => s
  end.

(** [[df.columns.tolist()] + df.values.tolist()] after the clean-up. *)
Definition sheet_data (df : Table) : list (list string) :=
  columns df :: map (map fill) (rows df).

(** One call of [spreadsheet.share]. *)
Record ShareCall : Type := mkShare {
  email : value;
  perm_type : string;
  role : string;
  notify : option bool
}.

(** The Sheets service as one run sees it: whether authentication left a
    client, which calls succeed, and what the new spreadsheet is called. *)
Record Service : Type := mkService {
  has_client : bool;
  create_ok : string -> bool;
  clear_ok : bool;
  update_ok : list (list string) -> bool;
  format_ok : bool;
  share_ok : ShareCall -> bool;
  url : string;
  id : string
}.

(** The calls the manager sends, in order. *)
Inductive call : Type :=
| Create (sheet_name : string)
| Clear
| Update (data : list (list string))
| Format (range : string)
| Share (c : ShareCall).

Definition share_attempts : list ShareCall :=
  [ mkShare PyNone "anyone" "editor" (Some false);
    mkShare PyNone "anyone" "writer" (Some false);
    mkShare (PyStr EmptyString) "anyone" "editor" None ].

(** The nested [try] blocks of [_share_with_anyone]: the next call is made
    only when the one before raised. *)
Fixpoint try_shares (s : Service) (attempts : list ShareCall) : bool * list call :=
  match attempts with
  | [] => (false, [])
  | c :: rest =>
      if share_ok s c then (true, [Share c])
      else let '(ok, calls) := try_shares s rest in (ok, Share c :: calls)
  end.

Definition _share_with_anyone (s : Service) : bool * list call :=
  try_shares s share_attempts.

(** [create_sheet_from_dataframe]: the answer is [(sheet_url, id)] or
    [(None, None)], written [None]; the second component lists the calls
    sent to the service. *)
Definition create_sheet_from_dataframe (s : Service) (df : option Table)
    (sheet_name : string) (share_with_anyone : bool)
    : option (string * string) * list call :=
  match df with
  | None => (None, [])
  | Some df =>
      if (List.length (rows df) =? 0)%nat then (None, [])
      else if negb (has_client s) then (None, [])
      else if negb (create_ok s sheet_name) then (None, [Create sheet_name])
      else if negb (clear_ok s) then (None, [Create sheet_name; Clear])
      else
        let data := sheet_data df in
        if negb (update_ok s data)
        then (None, [Create sheet_name; Clear; Update data])
        else
          let calls := [Create sheet_name; Clear; Update data; Format "1:1"] in
          if share_with_anyone then
            let '(sharing_success, shares) := _share_with_anyone s in
            (Some (url s, id s), calls ++ shares)
          else (Some (url s, id s), calls)
  end.

(** What [main] does with the listings of a run: nothing without
    listings, otherwise a sheet from their data frame. *)
Definition publish (s : Service) (listings : list dict) (sheet_name : string)
    : option (string * string) * list call :=
  match listings with
  | [] => (None, [])
  | _ :: _ => create_sheet_from_dataframe s (Some (DataFrame listings)) sheet_name true
  end.

End GoogleSheetsManager.

(** ** Notions the properties are stated with *)

Section Notions.
Context `{U : Unicode}.

(** The locator a method name selects in both primitives. *)
Definition locator (method : string) : By :=
  if method =? "class" then CLASS_NAME
  else if method =? "id" then ID
  else if method =? "xpath" then XPATH
  else CSS_SELECTOR.

(** The fixed schema, under the names the code gives the fields
    ([type], [google_maps_link], [date_posted] and [date_scraped] are the
    design's bodyType, mapLink, datePosted and dateScraped). *)
Definition listing_fields : list string :=
  [ "url"; "title"; "price"; "year"; "make"; "model"; "vin"; "mileage";
    "cylinders"; "drive"; "fuel"; "color"; "transmission"; "type";
    "location"; "google_maps_link"; "date_posted"; "date_scraped"; "source" ].

Definition facebook_fields : list string :=
  [ "url"; "title"; "price"; "mileage"; "location" ].

(** Order-preserving selection: [subseq xs ys] when [xs] is [ys] with some
    elements left out. *)
Inductive subseq {A : Type} : list A -> list A -> Prop :=
| subseq_nil : subseq [] []
| subseq_skip : forall x xs ys, subseq xs ys -> subseq xs (x :: ys)
| subseq_keep : forall x xs ys, subseq xs ys -> subseq (x :: xs) (x :: ys).

(** What a pass adds to the list built so far: some of the URLs it meets,
    in the order it meets them, none of them listed before. *)
Definition adds (before after candidates : list string) : Prop :=
  exists picked,
    after = before ++ picked /\
    subseq picked candidates /\
    (NoDup before -> NoDup after).

(** The URL an anchor answers with when it qualifies as a detail link. *)
Definition detail_url (urljoin : string -> string -> string)
    (search_url : string) (link : WebElement) : list string :=
  match get_attribute link "href" with
  | Returns (PyStr href) =>
      if nonempty href && contains "/d/" href
      then [urljoin search_url href] else []
  | _ => []
  end.

(** Every detail URL below a result node, and the one below a container of
    the two fallback families, in document order. *)
Definition node_urls (urljoin : string -> string -> string)
    (search_url : string) (node : WebElement) : list string :=
  match find_elements node CSS_SELECTOR "a.cl-app-anchor" with
  | Returns link_elements => flat_map (detail_url urljoin search_url) link_elements
  | Raises => []
  end.

Definition container_urls (urljoin : string -> string -> string)
    (search_url : string) (container : WebElement) : list string :=
  match find_element container CSS_SELECTOR "a" with
  | Returns link => detail_url urljoin search_url link
  | Raises => []
  end.

(** What a result node offers to the loop over its anchors: the detail
    URLs of its anchors in document order, up to the first anchor whose
    [href] cannot be read. *)
Fixpoint offered (urljoin : string -> string -> string)
    (search_url : string) (links : list WebElement) : list string :=
  match links with
  | [] => []
  | link :: rest =>
      match get_attribute link "href" with
      | Raises => []
      | Returns _ =>
          detail_url urljoin search_url link ++ offered urljoin search_url rest
      end
  end.

Definition node_offers (urljoin : string -> string -> string)
    (search_url : string) (node : WebElement) : list string :=
  match find_elements node CSS_SELECTOR "a.cl-app-anchor" with
  | Returns link_elements => offered urljoin search_url link_elements
  | Raises => []
  end.

(** First-seen selection.  A container adds to the URLs listed so far the
    first URL it offers that is not among them, and nothing when it offers
    none; the containers are gone through in document order. *)
Definition first_new (listed offers : list string) : list string :=
  match find (fun u => negb (in_list u listed)) offers with
  | Some u => listed ++ [u]
  | None => listed
  end.

Definition first_seen_urls (offers : list (list string)) : list string :=
  fold_left first_new offers [].

(** The discoverer as first-seen selection over what the containers of
    the three families offer; a family is asked only when the one before
    gave nothing, and a query that raises ends the discovery empty-handed. *)
Definition first_seen_discovery (urljoin : string -> string -> string)
    (search_url : string) (driver : Page) : list string :=
  match CraigslistScraper.ask driver CraigslistScraper.q_result_node with
  | Raises => []
  | Returns result_nodes =>
      match first_seen_urls (map (node_offers urljoin search_url) result_nodes) with
      | u :: us => u :: us
      | [] =>
          match CraigslistScraper.ask driver CraigslistScraper.q_search_result with
          | Raises => []
          | Returns search_results =>
              match first_seen_urls
                      (map (container_urls urljoin search_url) search_results) with
              | u :: us => u :: us
              | [] =>
                  match CraigslistScraper.ask driver CraigslistScraper.q_data_pid with
                  | Raises => []
                  | Returns pid_elements =>
                      first_seen_urls
                        (map (container_urls urljoin search_url) pid_elements)
                  end
              end
          end
      end
  end.

(** Two pages that answer every query alike. *)
Definition same_page (p q : Page) : Prop := forall by_ sel, p by_ sel = q by_ sel.

(** What the record builder leaves in the title, year, make, model,
    location and date fields, as functions of what the page gave. *)
Definition shown_title (listing_url title : string) : string :=
  if nonempty title then title else CraigslistScraper.url_title listing_url.

Definition parsed_title (title : string) : string * string * string :=
  if nonempty title then
    match Re.title_match title with
    | Some (g1, g2, g3) => (g1, g2, strip g3)
    | None => (EmptyString, EmptyString, EmptyString)
    end
  else (EmptyString, EmptyString, EmptyString).

Definition shown_location (driver : Page) : string :=
  match CraigslistScraper.find_location_parts driver with
  | [] => EmptyString
  | location_parts => join " - " location_parts
  end.

(** The record a visit builds, field by field. *)
Definition built_record (now : nat -> string) (listing_url : string)
    (index : nat) (driver : Page) : dict :=
  let field := fun sel => PyStr (CraigslistScraper.safe_find_element_text driver sel "css") in
  let title := CraigslistScraper.find_title driver in
  [ ("url", PyStr listing_url);
    ("title", PyStr (shown_title listing_url title));
    ("price", field ".price");
    ("year", PyStr (fst (fst (parsed_title title))));
    ("make", PyStr (snd (fst (parsed_title title))));
    ("model", PyStr (snd (parsed_title title)));
    ("vin", field ".attr.auto_vin .valu");
    ("mileage", field ".attr.auto_miles .valu");
    ("cylinders", field ".attr.auto_cylinders .valu");
    ("drive", field ".attr.auto_drivetrain .valu");
    ("fuel", field ".attr.auto_fuel_type .valu");
    ("color", field ".attr.auto_paint .valu");
    ("transmission", field ".attr.auto_transmission .valu");
    ("type", field ".attr.auto_bodytype .valu");
    ("location", PyStr (shown_location driver));
    ("google_maps_link",
     PyStr (CraigslistScraper.safe_find_element_attribute driver ".mapaddress a" "href" "css"));
    ("date_posted", PyStr (CraigslistScraper.find_date_posted driver));
    ("date_scraped", PyStr (now index));
    ("source", PyStr "Craigslist") ].

(** What each container strategy of the discoverer yields when it is run
    on the page, starting from no URL. *)
Definition first_strategy (urljoin : string -> string -> string)
    (search_url : string) (driver : Page) : outcome (list string) :=
  match CraigslistScraper.ask driver CraigslistScraper.q_result_node with
  | Returns result_nodes =>
      Returns (fold_left (CraigslistScraper.visit_result_node urljoin search_url)
                 result_nodes [])
  | Raises => Raises
  end.

Definition fallback_strategy (urljoin : string -> string -> string)
    (search_url : string) (driver : Page) (q : CraigslistScraper.Query)
    : outcome (list string) :=
  match CraigslistScraper.ask driver q with
  | Returns containers =>
      Returns (fold_left (CraigslistScraper.visit_container urljoin search_url)
                 containers [])
  | Raises => Raises
  end.

(** Every detail URL the three container families lead to, in the order
    the discoverer would meet them. *)
Definition found_or_none (found : outcome (list WebElement)) : list WebElement :=
  match found with
  | Returns es => es
  | Raises => []
  end.

Definition document_urls (urljoin : string -> string -> string)
    (search_url : string) (driver : Page) : list string :=
  flat_map (node_urls urljoin search_url)
    (found_or_none (CraigslistScraper.ask driver CraigslistScraper.q_result_node))
  ++ flat_map (container_urls urljoin search_url)
       (found_or_none (CraigslistScraper.ask driver CraigslistScraper.q_search_result))
  ++ flat_map (container_urls urljoin search_url)
       (found_or_none (CraigslistScraper.ask driver CraigslistScraper.q_data_pid)).

(** The shape of a record of the bulk pass. *)
Definition fb_record (url : value) (title price mileage location : string) : dict :=
  [ ("url", url);
    ("title", PyStr title);
    ("price", PyStr price);
    ("mileage", PyStr mileage);
    ("location", PyStr location) ].

(** What a card gives for each text field of its record, [None] when it
    gives nothing.  Elements are read in order and the first whose stripped
    text is accepted decides; [Raises] when an element before it cannot be
    read. *)
Fixpoint first_accepted (accept : string -> bool) (elements : list WebElement)
    : outcome (option string) :=
  match elements with
  | [] => Returns None
  | e :: rest =>
      match text e with
      | Raises => Raises
      | Returns t =>
          if accept (strip t) then Returns (Some (strip t))
          else first_accepted accept rest
      end
  end.

Definition found (x : outcome (option string)) : option string :=
  match x with
  | Returns (Some t) => Some t
  | _ => None
  end.

Definition is_location_text (t : string) : bool :=
  contains ", " t && (len t <? 50)%nat.

Definition mentions_miles (t : string) : bool :=
  contains "mile" (lower t) || contains "k mile" (lower t).

Definition is_mileage_text (t : string) : bool :=
  contains "mile" (lower t) && (len t <? 30)%nat.

(** The price: from the first price query that finds any element. *)
Definition price_of (link : WebElement) : option string :=
  match FacebookMarketplaceScraper.find_price_elements link with
  | Returns price_elements =>
      found (first_accepted FacebookMarketplaceScraper.looks_like_price price_elements)
  | Raises => None
  end.

(** The title: the [alt] of the first image, when it is not empty. *)
Definition title_of (link : WebElement) : option string :=
  match find_elements link TAG_NAME "img" with
  | Returns (img :: _) =>
      match get_attribute img "alt" with
      | Returns (PyStr alt) => if nonempty alt then Some (strip alt) else None
      | _ => None
      end
  | _ => None
  end.

(** The location: the first short text with a comma, unless it mentions
    miles. *)
Definition location_of (link : WebElement) : option string :=
  match find_elements link XPATH FacebookMarketplaceScraper.location_xpath with
  | Returns text_elements =>
      match first_accepted is_location_text text_elements with
      | Returns (Some t) => if mentions_miles t then None else Some t
      | _ => None
      end
  | Raises => None
  end.

(** The mileage: that text when it mentions miles; otherwise, provided the
    location texts could be read, the first short text of the mileage query
    that mentions miles. *)
Definition mileage_search (link : WebElement) : option string :=
  match find_elements link XPATH FacebookMarketplaceScraper.mileage_xpath with
  | Returns mileage_elements => found (first_accepted is_mileage_text mileage_elements)
  | Raises => None
  end.

Definition mileage_of (link : WebElement) : option string :=
  match find_elements link XPATH FacebookMarketplaceScraper.location_xpath with
  | Returns text_elements =>
      match first_accepted is_location_text text_elements with
      | Returns (Some t) => if mentions_miles t then Some t else mileage_search link
      | Returns None => mileage_search link
      | Raises => None
      end
  | Raises => None
  end.

(** The sentinel of the bulk pass for a field the card gives nothing for. *)
Definition or_not_available (x : option string) : string :=
  match x with
  | Some t => t
  | None => "N/A"
  end.

(** The links whose [href] could be read, each with that [href], and among
    them the first one for every URL not in [seen]. *)
Fixpoint readable (links : list WebElement) : list (WebElement * value) :=
  match links with
  | [] => []
  | link :: rest =>
      match get_attribute link "href" with
      | Returns url => (link, url) :: readable rest
      | Raises => readable rest
      end
  end.

Fixpoint first_seen (seen : list value) (links : list (WebElement * value))
    : list (WebElement * value) :=
  match links with
  | [] => []
  | (link, url) :: rest =>
      if existsb (value_eqb url) seen then first_seen seen rest
      else (link, url) :: first_seen (url :: seen) rest
  end.

Definition listing_of (lu : WebElement * value) : dict :=
  FacebookMarketplaceScraper.build_listing (fst lu) (snd lu).

Definition url_of (d : dict) : value := item d "url".

(** Counting the steps of a run. *)
Definition occurrences (p : FacebookMarketplaceScraper.event -> bool)
    (log : list FacebookMarketplaceScraper.event) : nat :=
  List.length (filter p log).

Definition is_login_required (e : FacebookMarketplaceScraper.event) : bool :=
  match e with
  | FacebookMarketplaceScraper.LoginRequired => true
  | _ => false
  end.

Definition is_headless_replay (e : FacebookMarketplaceScraper.event) : bool :=
  match e with
  | FacebookMarketplaceScraper.LoadSession FacebookMarketplaceScraper.Headless => true
  | _ => false
  end.

Definition is_replay (e : FacebookMarketplaceScraper.event) : bool :=
  match e with
  | FacebookMarketplaceScraper.LoadSession _ => true
  | _ => false
  end.

Definition is_quit (e : FacebookMarketplaceScraper.event) : bool :=
  match e with
  | FacebookMarketplaceScraper.QuitDriver => true
  | _ => false
  end.

(** The count the k-th poll of a scroll session is compared with: 0 for
    the first poll, the answer of the poll before for the others; and a
    window of three polls ending before [m] each of which repeats it. *)
Definition seen_before (count : nat -> nat) (k : nat) : nat :=
  match k with
  | O => 0
  | S j => count j
  end.

Definition three_repeats (count : nat -> nat) (m : nat) : Prop :=
  3 <= m /\ forall j, m - 3 <= j < m -> count j = seen_before count j.

(** The meaning of the scroll loop's counters at the head of a turn:
    [last_count] is what the next poll is compared with, [no_change_count]
    is the exact length of the run of repeating polls that ends here, and no
    window of three repeats has been completed so far. *)
Definition scroll_consistent (count : nat -> nat)
    (p : FacebookMarketplaceScraper.ScrollProgress) : Prop :=
  FacebookMarketplaceScraper.stalled p = false /\
  FacebookMarketplaceScraper.no_change_count p < 3 /\
  FacebookMarketplaceScraper.no_change_count p <= FacebookMarketplaceScraper.polls p /\
  FacebookMarketplaceScraper.last_count p
  = seen_before count (FacebookMarketplaceScraper.polls p) /\
  (forall j,
      FacebookMarketplaceScraper.polls p - FacebookMarketplaceScraper.no_change_count p
      <= j < FacebookMarketplaceScraper.polls p ->
      count j = seen_before count j) /\
  (FacebookMarketplaceScraper.no_change_count p < FacebookMarketplaceScraper.polls p ->
   count (FacebookMarketplaceScraper.polls p
          - FacebookMarketplaceScraper.no_change_count p - 1)
   <> seen_before count
        (FacebookMarketplaceScraper.polls p
         - FacebookMarketplaceScraper.no_change_count p - 1)) /\
  (forall m, m <= FacebookMarketplaceScraper.polls p -> ~ three_repeats count m).

(** The URLs a run of [scrape_craigslist] has to visit: what the
    discoverer returns on the search page, nothing when that page cannot be
    opened. *)
Definition discovered (urljoin : string -> string -> string)
    (browse : string -> outcome Page) (search_url : string) : list string :=
  match browse search_url with
  | Returns page => fst (CraigslistScraper.extract_listing_urls urljoin search_url page)
  | Raises => []
  end.

(** Every character of a text is in a class. *)
Definition all_chars (p : string -> bool) (s : string) : bool :=
  forallb p (chars s).

(** A title begins with a year: four decimal digits, then white space. *)
Definition begins_with_year (title : string) : bool :=
  match chars title with
  | a :: b :: c :: d :: e :: _ =>
      char_isdecimal a && char_isdecimal b && char_isdecimal c
      && char_isdecimal d && char_isspace e
  | _ => false
  end.

(** The lookups behind the title and the posting date, in the order the
    builder tries them. *)
Definition title_lookups (driver : Page) : list string :=
  [ CraigslistScraper.safe_find_element_text driver "#titletextonly" "id";
    CraigslistScraper.safe_find_element_text driver
      ".postingtitletext .titletextonly" "css";
    CraigslistScraper.safe_find_element_text driver "h1 .titletextonly" "css";
    CraigslistScraper.safe_find_element_text driver ".postingtitle" "css" ].

Definition date_lookups (driver : Page) : list string :=
  [ CraigslistScraper.safe_find_element_attribute driver
      "time.date.timeago" "datetime" "css";
    CraigslistScraper.safe_find_element_attribute driver
      "time.date.timeago" "title" "css";
    CraigslistScraper.safe_find_element_text driver "time.date.timeago" "css";
    CraigslistScraper.safe_find_element_text driver
      ".postinginfos .postinginfo:first-child .date" "css" ].

Definition is_save (e : FacebookMarketplaceScraper.event) : bool :=
  match e with
  | FacebookMarketplaceScraper.SaveSession => true
  | _ => false
  end.

Definition is_headless_start (e : FacebookMarketplaceScraper.event) : bool :=
  match e with
  | FacebookMarketplaceScraper.StartChrome FacebookMarketplaceScraper.Headless => true
  | _ => false
  end.

(** The row of a sheet that shows a record under the given columns. *)
Definition sheet_row (cols : list string) (d : dict) : list string :=
  map (fun k => GoogleSheetsManager.fill (item d k)) cols.

End Notions.

(** ** Pages used as concrete inputs *)
Module Fixture.

Definition no_attribute : string -> outcome value := fun _ => Returns PyNone.
Definition no_children : By -> string -> outcome (list WebElement) :=
  fun _ _ => Returns [].

(** An element that only carries text. *)
Definition text_node (t : string) : WebElement :=
  mkWebElement (Returns t) no_attribute no_children.

(** An anchor with the given [href] and nothing below it. *)
Definition anchor (href : string) : WebElement :=
  mkWebElement (Returns EmptyString)
    (fun name => if name =? "href" then Returns (PyStr href) else Returns PyNone)
    no_children.

(** A page on which no query finds anything. *)
Definition empty_page : Page := fun _ _ => Returns [].

(** A detail page whose only content is the title element. *)
Definition titled_page (t : string) : Page :=
  fun by_ sel =>
    match by_ with
    | ID => if sel =? "#titletextonly" then Returns [text_node t] else Returns []
    | _ => Returns []
    end.

Definition listing_url : string :=
  "https://bend.craigslist.org/cto/d/bend-2021-ford-f150/7712345678.html".

Definition item_url : string := "https://www.facebook.com/marketplace/item/1/".

(** A marketplace feed in which two cards link to the same item. *)
Definition priced_card (href price : string) : WebElement :=
  mkWebElement (Returns price)
    (fun name => if name =? "href" then Returns (PyStr href) else Returns PyNone)
    (fun by_ sel =>
       match by_ with
       | XPATH => if sel =? FacebookMarketplaceScraper.price_xpath_1
                  then Returns [text_node price] else Returns []
       | _ => Returns []
       end).

Definition twin_feed : Page :=
  fun by_ sel =>
    if sel =? FacebookMarketplaceScraper.item_links
    then Returns [priced_card item_url "$25,000"; priced_card item_url "$1"]
    else Returns [].

(** A search page with two result nodes that lead to the same listing and a
    fallback container that leads elsewhere. *)
Definition result_node (href : string) : WebElement :=
  mkWebElement (Returns EmptyString) no_attribute
    (fun by_ sel => Returns [anchor href]).

Definition search_page : Page :=
  fun by_ sel =>
    match by_ with
    | CLASS_NAME => Returns [result_node listing_url; result_node listing_url]
    | _ => Returns [result_node "https://bend.craigslist.org/cto/d/other/1.html"]
    end.

Definition absolute (base href : string) : string := href.

(** A site whose search page is [search_page] and whose every other page
    is a detail page titled [2021 Ford F-150 XLT]. *)
Definition search_url : string :=
  "https://bend.craigslist.org/search/pickups-trucks".

Definition site (url : string) : outcome Page :=
  if url =? search_url then Returns search_page
  else Returns (titled_page "2021 Ford F-150 XLT").

Definition clock (i : nat) : string := "2025-01-01 00:00:00".

(** A run with a saved session that still works, on the feed above; and a
    run whose saved session loads but shows no listing, with the user
    pressing the login button. *)
Definition logged_in_world : FacebookMarketplaceScraper.World :=
  FacebookMarketplaceScraper.mkWorld (Some (Returns ["c_user"]))
    (fun _ => FacebookMarketplaceScraper.Started) (fun _ => true)
    (fun _ => twin_feed) false false false None.

Definition stale_world : FacebookMarketplaceScraper.World :=
  FacebookMarketplaceScraper.mkWorld (Some (Returns ["c_user"]))
    (fun _ => FacebookMarketplaceScraper.Started) (fun _ => true)
    (fun _ => empty_page) true false false None.

Definition marketplace_url : string :=
  "https://www.facebook.com/marketplace/108137335874390/search/?query=trucks&exact=false".

(** A card whose first price query finds a text that is no price while the
    other price queries would find one, with a location and a mileage. *)
Definition detailed_card (href : string) : WebElement :=
  mkWebElement (Returns EmptyString)
    (fun name => if name =? "href" then Returns (PyStr href) else Returns PyNone)
    (fun by_ sel =>
       match by_ with
       | XPATH =>
           if sel =? FacebookMarketplaceScraper.price_xpath_1
           then Returns [text_node "$ call"; text_node "$12,500"; text_node "$9"]
           else if sel =? FacebookMarketplaceScraper.location_xpath
           then Returns [text_node "Bend, OR"]
           else if sel =? FacebookMarketplaceScraper.mileage_xpath
           then Returns [text_node " 45K miles "]
           else Returns [text_node "$500"]
       | _ => Returns []
       end).


Definition detailed_feed : Page :=
  fun by_ sel =>
    if sel =? FacebookMarketplaceScraper.item_links
    then Returns [detailed_card item_url]
    else Returns [].

(** Texts beyond ASCII, given by their UTF-8 bytes. *)
Definition utf8 (bytes : list nat) : string :=
  fold_right (fun b s => String (ascii_of_nat b) s) EmptyString bytes.

Definition nbsp : string := utf8 [194; 160].
Definition em_space : string := utf8 [226; 128; 131].
Definition arabic_three : string := utf8 [217; 163].
Definition superscript_two : string := utf8 [194; 178].
Definition e_acute : string := utf8 [195; 169].

(** A character database: the white space Python knows beyond ASCII; the
    Arabic-Indic digits as decimal digits; these and the superscript digits
    of Latin-1 as digits. *)
Definition spaces_beyond_ascii : list string :=
  map utf8
    [ [194; 133]; [194; 160]; [225; 154; 128];
      [226; 128; 128]; [226; 128; 129]; [226; 128; 130]; [226; 128; 131];
      [226; 128; 132]; [226; 128; 133]; [226; 128; 134]; [226; 128; 135];
      [226; 128; 136]; [226; 128; 137]; [226; 128; 138];
      [226; 128; 168]; [226; 128; 169]; [226; 128; 175]; [226; 129; 159];
      [227; 128; 128] ].

Definition arabic_indic_digits : list string :=
  map (fun b => utf8 [217; b]) [160; 161; 162; 163; 164; 165; 166; 167; 168; 169].

Definition unicode_sample : Unicode :=
  {| isspace_beyond_ascii := fun ch => in_list ch spaces_beyond_ascii;
     isdigit_beyond_ascii := fun ch =>
       in_list ch (arabic_indic_digits ++ map utf8 [[194; 178]; [194; 179]; [194; 185]]);
     isdecimal_beyond_ascii := fun ch => in_list ch arabic_indic_digits |}.

(** A price in Arabic-Indic digits: 16 characters in 31 bytes. *)
Definition long_price : string :=
  "$" ++ utf8 (flat_map (fun _ => [217; 163])
                 [1; 2; 3; 4; 5; 6; 7; 8; 9; 10; 11; 12; 13; 14; 15]).

(** A card with an image whose [alt] is white space only, and a price
    padded with no-break spaces. *)
Definition blank_alt_card (href : string) : WebElement :=
  mkWebElement (Returns EmptyString)
    (fun name => if name =? "href" then Returns (PyStr href) else Returns PyNone)
    (fun by_ sel =>
       match by_ with
       | TAG_NAME =>
           Returns [mkWebElement (Returns EmptyString)
                      (fun name => if name =? "alt" then Returns (PyStr "  ")
                                   else Returns PyNone)
                      no_children]
       | XPATH =>
           if sel =? FacebookMarketplaceScraper.price_xpath_1
           then Returns [text_node (nbsp ++ "$25,000" ++ nbsp)]
           else Returns []
       | _ => Returns []
       end).

Definition other_item_url : string := "https://www.facebook.com/marketplace/item/2/".

Definition mixed_feed : Page :=
  fun by_ sel =>
    if sel =? FacebookMarketplaceScraper.item_links
    then Returns [detailed_card item_url; blank_alt_card other_item_url]
    else Returns [].

Definition mixed_world : FacebookMarketplaceScraper.World :=
  FacebookMarketplaceScraper.mkWorld (Some (Returns ["c_user"]))
    (fun _ => FacebookMarketplaceScraper.Started) (fun _ => true)
    (fun _ => mixed_feed) false false false None.

(** A Sheets service on which every call succeeds. *)
Definition good_service : GoogleSheetsManager.Service :=
  GoogleSheetsManager.mkService true (fun _ => true) true (fun _ => true) true
    (fun _ => true) "https://docs.google.com/spreadsheets/d/1" "1".

End Fixture.

(** * Properties *)

(** ** Dictionaries *)

Lemma dict_get_set_same (d : dict) (k : string) (v : value) :
  dict_get (dict_set d k v) k = Some v.
Proof.
  induction d as [|[k' v'] r IH]; simpl.
  - now rewrite String.eqb_refl.
  - destruct (String.eqb k' k) eqn:E; simpl; rewrite E; auto.
Qed.

Lemma dict_get_set_other (d : dict) (k k' : string) (v : value) :
  k <> k' -> dict_get (dict_set d k v) k' = dict_get d k'.
Proof.
  intros Hne. induction d as [|[k0 v0] r IH]; simpl.
  - destruct (String.eqb k k') eqn:E; auto.
    apply String.eqb_eq in E. contradiction.
  - destruct (String.eqb k0 k) eqn:E; simpl.
    + apply String.eqb_eq in E. subst k0.
      destruct (String.eqb k k') eqn:E'; auto.
      apply String.eqb_eq in E'. contradiction.
    + now rewrite IH.
Qed.

Lemma item_set_same (d : dict) (k : string) (v : value) :
  item (dict_set d k v) k = v.
Proof. unfold item. now rewrite dict_get_set_same. Qed.

Lemma item_set_other (d : dict) (k k' : string) (v : value) :
  k <> k' -> item (dict_set d k v) k' = item d k'.
Proof. intros H. unfold item. now rewrite dict_get_set_other. Qed.

Lemma keys_set_present (d : dict) (k : string) (v : value) :
  In k (keys d) -> keys (dict_set d k v) = keys d.
Proof.
  unfold keys. induction d as [|[k' v'] r IH]; simpl; intros H.
  - contradiction.
  - destruct (String.eqb k' k) eqn:E; simpl; auto.
    destruct H as [H|H].
    + subst k'. now rewrite String.eqb_refl in E.
    + now rewrite IH.
Qed.

Module CL := CraigslistScraper.
Module FB := FacebookMarketplaceScraper.
Module GS := GoogleSheetsManager.

(** Everything in this section holds whatever the Unicode database [U]
    says about the characters beyond ASCII. *)
Section Properties.
Context `{U : Unicode}.

(** ** Characters and the title pattern *)

Lemma append_assoc (a b c : string) : ((a ++ b) ++ c = a ++ (b ++ c))%string.
Proof. induction a as [|x a IH]; cbn; [reflexivity|now rewrite IH]. Qed.

Lemma glue_app (a b : list string) : glue (a ++ b) = (glue a ++ glue b)%string.
Proof.
  induction a as [|ch a IH]; cbn [glue app]; [reflexivity|].
  now rewrite IH, append_assoc.
Qed.

Lemma glue_chars (s : string) : glue (chars s) = s.
Proof.
  induction s as [|c r IH]; cbn [chars glue]; [reflexivity|].
  destruct (starts_inside r).
  - destruct (chars r) as [|ch rest]; cbn [glue] in *.
    + now rewrite <- IH.
    + cbn [append]. now rewrite IH.
  - cbn [glue append]. now rewrite IH.
Qed.

Lemma chars_well_cut (s : string) : well_cut (chars s).
Proof.
  unfold well_cut.
  induction s as [|c r [IH1 IH2]]; cbn [chars]; [split; constructor|].
  destruct (starts_inside r) eqn:Er.
  - destruct (chars r) as [|ch rest] eqn:Ec.
    + split; repeat constructor.
    + assert (Hch : r = (ch ++ glue rest)%string)
        by (rewrite <- (glue_chars r), Ec; reflexivity).
      inversion IH1 as [|? ? Hc Hrest]; subst.
      split; [constructor; [|exact Hrest]|exact IH2].
      destruct ch as [|c' ch']; [discriminate Hc|].
      cbn [append starts_inside] in Er. cbn [is_char continuation_only] in *.
      now rewrite Er, Hc.
  - split; [constructor; [reflexivity|exact IH1]|].
    cbn [tl]. destruct (chars r) as [|ch rest] eqn:Ec; [constructor|].
    constructor; [|exact IH2].
    assert (Hch : r = (ch ++ glue rest)%string)
      by (rewrite <- (glue_chars r), Ec; reflexivity).
    inversion IH1 as [|? ? Hc Hrest]; subst.
    destruct ch as [|c' ch']; [discriminate Hc|exact Er].
Qed.

Lemma chars_cons (c : ascii) (r : string) :
  chars (String c r) =
  if starts_inside r then
    match chars r with
    | ch :: rest => String c ch :: rest
    | [] => [String c EmptyString]
    end
  else String c EmptyString :: chars r.
Proof. reflexivity. Qed.

Lemma chars_one (c : ascii) (r rest : string) :
  continuation_only r = true ->
  starts_inside rest = false ->
  chars (String c r ++ rest) = String c r :: chars rest.
Proof.
  revert c. induction r as [|c' r IH]; intros c Hr Hrest.
  - cbn [append]. rewrite chars_cons. now rewrite Hrest.
  - cbn [continuation_only] in Hr. apply andb_prop in Hr as [Hc' Hr].
    change (String c (String c' r) ++ rest)%string
      with (String c (String c' r ++ rest)).
    rewrite chars_cons. cbn [append starts_inside]. rewrite Hc'.
    change (String c' (r ++ rest)) with (String c' r ++ rest)%string.
    now rewrite (IH c' Hr Hrest).
Qed.

Lemma chars_glue (cs : list string) : well_cut cs -> chars (glue cs) = cs.
Proof.
  unfold well_cut. induction cs as [|ch rest IH]; intros [H1 H2]; [reflexivity|].
  inversion H1 as [|? ? Hch Hrest]; subst. cbn [tl] in H2.
  destruct ch as [|c r]; [discriminate Hch|]. cbn [is_char] in Hch.
  cbn [glue]. rewrite (chars_one c r (glue rest) Hch).
  - f_equal. apply IH. split; [exact Hrest|].
    destruct rest; [constructor|]. inversion H2; assumption.
  - destruct rest as [|ch' rest']; [reflexivity|].
    inversion H2 as [|? ? Hl _]; subst.
    inversion Hrest as [|? ? Hc' _]; subst.
    destruct ch' as [|c' r']; [discriminate Hc'|exact Hl].
Qed.

Lemma well_cut_app (a b : list string) :
  well_cut (a ++ b) -> well_cut a /\ well_cut b.
Proof.
  unfold well_cut. intros [H1 H2]. apply Forall_app in H1 as [Ha Hb].
  destruct a as [|x a]; cbn [app tl] in *.
  - repeat split; auto.
  - apply Forall_app in H2 as [H2a H2b]. repeat split; auto.
    destruct b; [constructor|]. inversion H2b; assumption.
Qed.

Lemma len_glue (cs : list string) : well_cut cs -> len (glue cs) = List.length cs.
Proof. intros H. unfold len. now rewrite chars_glue. Qed.

Lemma span_firstn (p : string -> bool) (k : nat) :
  forall s, k <= Re.span p s ->
            forallb p (firstn k s) = true /\ List.length (firstn k s) = k.
Proof.
  induction k as [|k IH]; intros s Hk.
  - destruct s; cbn; auto.
  - destruct s as [|c r]; cbn [Re.span] in Hk; [lia|].
    destruct (p c) eqn:Ep; [|lia].
    destruct (IH r) as [H1 H2]; [lia|].
    cbn [firstn forallb List.length]. rewrite Ep, H1, H2. auto.
Qed.

Lemma backoff_some (least : nat) (s : list string)
    (rest : list string -> option (list (list string))) :
  forall k gs,
    Re.backoff least k s rest = Some gs ->
    exists j gs', least <= j <= k /\ gs = firstn j s :: gs' /\
                  rest (skipn j s) = Some gs'.
Proof.
  induction k as [|k IH]; intros gs; cbn [Re.backoff].
  - destruct (0 <? least)%nat eqn:E; [discriminate|].
    apply Nat.ltb_ge in E.
    destruct (rest (skipn 0 s)) as [gs'|] eqn:Er; [|discriminate].
    intros H. injection H as <-. exists 0, gs'. repeat split; auto; lia.
  - destruct (S k <? least)%nat eqn:E; [discriminate|].
    apply Nat.ltb_ge in E.
    destruct (rest (skipn (S k) s)) as [gs'|] eqn:Er.
    + intros H. injection H as <-. exists (S k), gs'. repeat split; auto; lia.
    + intros H. apply IH in H as (j & gs' & Hj & Hg & Hr).
      exists j, gs'. repeat split; auto; lia.
Qed.

Lemma match_atoms_cons (a : Re.atom) (items : list Re.atom) (s : list string)
    (gs : list (list string)) :
  Re.match_atoms (a :: items) s = Some gs ->
  exists j gs',
    Re.lo a <= j /\
    (forall h, Re.hi a = Some h -> j <= h) /\
    gs = firstn j s :: gs' /\
    forallb (Re.cls a) (firstn j s) = true /\
    List.length (firstn j s) = j /\
    Re.match_atoms items (skipn j s) = Some gs'.
Proof.
  cbn [Re.match_atoms]. intros H.
  apply backoff_some in H as (j & gs' & Hj & Hg & Hr).
  assert (Hspan : j <= Re.span (Re.cls a) s)
    by (destruct (Re.hi a); lia).
  destruct (span_firstn (Re.cls a) j s Hspan) as [H1 H2].
  exists j, gs'. repeat split; auto; try lia.
  intros h Hh. rewrite Hh in Hj. lia.
Qed.

(** What a match of the title pattern says about the title: its
    characters are four decimal digits, white space, letters, white space
    and a run of model characters, in this order, and the three groups are
    the first, third and fifth of these runs. *)
Lemma title_match_groups (t y mk md : string) :
  Re.title_match t = Some (y, mk, md) ->
  exists ys ws1 mks ws2 mds rest,
    chars t = ys ++ ws1 ++ mks ++ ws2 ++ mds ++ rest /\
    y = glue ys /\ mk = glue mks /\ md = glue mds /\
    List.length ys = 4 /\ forallb char_isdecimal ys = true /\
    0 < List.length ws1 /\ forallb char_isspace ws1 = true /\
    0 < List.length mks /\ forallb Re.letter mks = true /\
    0 < List.length ws2 /\ forallb char_isspace ws2 = true /\
    0 < List.length mds /\ forallb Re.model_char mds = true.
Proof.
  unfold Re.title_match, Re.title_pattern. intros H.
  destruct (Re.match_atoms _ (chars t)) as [gs|] eqn:E; [|discriminate].
  apply match_atoms_cons in E
    as (j1 & gs1 & Hlo1 & Hhi1 & -> & Hc1 & Hl1 & E).
  apply match_atoms_cons in E
    as (j2 & gs2 & Hlo2 & _ & -> & Hc2 & Hl2 & E).
  apply match_atoms_cons in E
    as (j3 & gs3 & Hlo3 & _ & -> & Hc3 & Hl3 & E).
  apply match_atoms_cons in E
    as (j4 & gs4 & Hlo4 & _ & -> & Hc4 & Hl4 & E).
  apply match_atoms_cons in E
    as (j5 & gs5 & Hlo5 & _ & -> & Hc5 & Hl5 & E).
  cbn [Re.match_atoms] in E. injection E as <-.
  injection H as <- <- <-.
  cbn [Re.lo Re.hi Re.cls Re.exactly Re.plus] in *.
  specialize (Hhi1 4 eq_refl).
  eexists _, _, _, _, _, (skipn j5 _).
  split; [now rewrite !firstn_skipn|].
  repeat split; try assumption; try lia.
Qed.

Lemma title_match_year (t y mk md : string) :
  Re.title_match t = Some (y, mk, md) ->
  begins_with_year t = true /\
  y = glue (firstn 4 (chars t)) /\
  len y = 4 /\ all_chars char_isdecimal y = true /\
  0 < len mk /\ all_chars Re.letter mk = true /\
  exists rest, t = (y ++ rest)%string.
Proof.
  intros H. apply title_match_groups in H
    as (ys & ws1 & mks & ws2 & mds & rest & Ht & -> & -> & -> &
        Hys & Hd & Hw1 & Hs1 & Hmk & Hl & _).
  pose proof (chars_well_cut t) as Hcut. rewrite Ht in Hcut.
  apply well_cut_app in Hcut as [Hcy Hcut].
  apply well_cut_app in Hcut as [_ Hcut].
  apply well_cut_app in Hcut as [Hcm _].
  unfold begins_with_year, all_chars.
  rewrite (len_glue ys Hcy), (len_glue mks Hcm), !chars_glue by assumption.
  rewrite Ht.
  destruct ys as [|a [|b [|c [|d [|]]]]]; cbn [List.length] in Hys; try lia.
  destruct ws1 as [|e ws1]; cbn [List.length] in Hw1; [lia|].
  cbn [app firstn forallb] in *.
  apply andb_prop in Hd as [Ha Hd]. apply andb_prop in Hd as [Hb Hd].
  apply andb_prop in Hd as [Hc Hd]. apply andb_prop in Hd as [Hd _].
  apply andb_prop in Hs1 as [He _].
  rewrite Ha, Hb, Hc, Hd, He.
  repeat split; try assumption; try lia.
  exists (glue (e :: ws1 ++ mks ++ ws2 ++ mds ++ rest)).
  rewrite <- (glue_chars t), Ht.
  change (a :: b :: c :: d :: e :: ws1 ++ mks ++ ws2 ++ mds ++ rest)
    with ([a; b; c; d] ++ (e :: ws1 ++ mks ++ ws2 ++ mds ++ rest)).
  now rewrite glue_app.
Qed.

(** ** The field-extraction primitives *)

Lemma method_chain (A : Type) (f : By -> A) (method : string) :
  (if method =? "css" then f CSS_SELECTOR
   else if method =? "class" then f CLASS_NAME
   else if method =? "id" then f ID
   else if method =? "xpath" then f XPATH
   else f CSS_SELECTOR) = f (locator method).
Proof.
  unfold locator.
  destruct (method =? "css") eqn:Ecss.
  - apply String.eqb_eq in Ecss. subst method. reflexivity.
  - destruct (method =? "class"); [reflexivity|].
    destruct (method =? "id"); [reflexivity|].
    destruct (method =? "xpath"); reflexivity.
Qed.

Lemma safe_find_element_text_eq (driver : Page) (selector method : string) :
  CL.safe_find_element_text driver selector method =
  match page_find_element driver (locator method) selector with
  | Raises => EmptyString
  | Returns element =>
      match text element with
      | Raises => EmptyString
      | Returns t => strip t
      end
  end.
Proof.
  unfold CL.safe_find_element_text.
  now rewrite (method_chain _ (fun b => page_find_element driver b selector)).
Qed.

Lemma safe_find_element_attribute_eq (driver : Page)
    (selector attribute method : string) :
  CL.safe_find_element_attribute driver selector attribute method =
  match page_find_element driver (locator method) selector with
  | Raises => EmptyString
  | Returns element =>
      match get_attribute element attribute with
      | Raises => EmptyString
      | Returns v => or_empty v
      end
  end.
Proof.
  unfold CL.safe_find_element_attribute.
  now rewrite (method_chain _ (fun b => page_find_element driver b selector)).
Qed.

(** C6. Whatever the selector, the selection method and the attribute name:
    when the query finds elements, the text primitive answers the stripped
    text of the first one and the attribute primitive the value of its
    attribute; when the query finds nothing or raises, when reading the
    element raises, or when the attribute is missing, the answer is the
    empty string.  Both primitives are total functions into strings, so no
    exception reaches the caller. *)
Theorem safe_find_first_match_or_empty
    (driver : Page) (selector method attribute : string) :
  (forall e others t,
      driver (locator method) selector = Returns (e :: others) ->
      text e = Returns t ->
      CL.safe_find_element_text driver selector method = strip t) /\
  (forall e others v,
      driver (locator method) selector = Returns (e :: others) ->
      get_attribute e attribute = Returns (PyStr v) ->
      CL.safe_find_element_attribute driver selector attribute method = v) /\
  (driver (locator method) selector = Returns [] \/
   driver (locator method) selector = Raises ->
      CL.safe_find_element_text driver selector method = EmptyString /\
      CL.safe_find_element_attribute driver selector attribute method = EmptyString) /\
  (forall e others,
      driver (locator method) selector = Returns (e :: others) ->
      text e = Raises ->
      CL.safe_find_element_text driver selector method = EmptyString) /\
  (forall e others,
      driver (locator method) selector = Returns (e :: others) ->
      get_attribute e attribute = Returns PyNone \/
      get_attribute e attribute = Raises ->
      CL.safe_find_element_attribute driver selector attribute method = EmptyString).
Proof.
  rewrite safe_find_element_text_eq, safe_find_element_attribute_eq.
  unfold page_find_element, first_of.
  repeat split.
  - intros e others t Hq Ht. now rewrite Hq, Ht.
  - intros e others v Hq Hv. now rewrite Hq, Hv.
  - destruct H as [H|H]; now rewrite H.
  - destruct H as [H|H]; now rewrite H.
  - intros e others Hq Ht. now rewrite Hq, Ht.
  - intros e others Hq [Hv|Hv]; now rewrite Hq, Hv.
Qed.

(** ** The scroll convergence controller *)

(** C3. With a count function that always answers 5 and at most 10
    attempts, the controller sends exactly 3 scroll commands: the first
    poll differs from the initial 0, the next three repeat it, and the
    third repeat (in the fourth turn of the loop, before its scroll) reaches
    the stall limit.  The value returned is 5. *)
Theorem constant_feed_stops_after_three_scrolls :
  let '(final_count, p) := FB.wait_and_scroll (fun _ => 5) 10 in
  final_count = 5 /\
  FB.scrolls p = 3 /\
  FB.stalled p = true /\
  FB.no_change_count p = 3 /\
  FB.attempts p = 4.
Proof. cbv. repeat split. Qed.

(** One turn of the loop, as an equation. *)
Lemma scroll_loop_turn (count : nat -> nat) (remaining : nat) (p : FB.ScrollProgress) :
  FB.scroll_loop count (S remaining) p =
  if (count (FB.polls p) =? FB.last_count p)%nat then
    if (3 <=? S (FB.no_change_count p))%nat then
      FB.mkScroll (FB.last_count p) (S (FB.no_change_count p))
        (S (FB.attempts p)) (FB.scrolls p) (S (FB.polls p)) true
    else
      FB.scroll_loop count remaining
        (FB.mkScroll (count (FB.polls p)) (S (FB.no_change_count p))
           (S (FB.attempts p)) (S (FB.scrolls p)) (S (FB.polls p)) false)
  else
    FB.scroll_loop count remaining
      (FB.mkScroll (count (FB.polls p)) 0 (S (FB.attempts p))
         (S (FB.scrolls p)) (S (FB.polls p)) false).
Proof. reflexivity. Qed.

(** The loop invariant: from a state that has not stalled, the loop either
    leaves through [break] with a streak of exactly 3, one scroll short of
    the turns it entered, or uses up all its turns. *)
Lemma scroll_loop_outcome (count : nat -> nat) (remaining : nat) :
  forall p,
    FB.stalled p = false ->
    FB.no_change_count p < 3 ->
    FB.polls p = FB.attempts p ->
    FB.scrolls p = FB.attempts p ->
    let q := FB.scroll_loop count remaining p in
    FB.polls q = FB.attempts q /\
    FB.attempts p <= FB.attempts q <= FB.attempts p + remaining /\
    ((FB.stalled q = true /\ FB.no_change_count q = 3 /\
      S (FB.scrolls q) = FB.attempts q) \/
     (FB.stalled q = false /\ FB.no_change_count q < 3 /\
      FB.attempts q = FB.attempts p + remaining /\
      FB.scrolls q = FB.attempts q)).
Proof.
  induction remaining as [|n IH]; intros p Hs Hn Hp Hsc; cbn zeta.
  - cbn [FB.scroll_loop].
    split; [assumption|]. split; [lia|]. right. repeat split; auto; lia.
  - rewrite scroll_loop_turn.
    destruct (count (FB.polls p) =? FB.last_count p)%nat eqn:Eq.
    + destruct (3 <=? S (FB.no_change_count p))%nat eqn:E3.
      * apply Nat.leb_le in E3. cbn [FB.polls FB.attempts FB.stalled
          FB.no_change_count FB.scrolls].
        split; [lia|]. split; [lia|]. left. repeat split; lia.
      * apply Nat.leb_gt in E3.
        specialize (IH (FB.mkScroll (count (FB.polls p))
                          (S (FB.no_change_count p)) (S (FB.attempts p))
                          (S (FB.scrolls p)) (S (FB.polls p)) false)).
        cbn zeta in IH.
        cbn [FB.polls FB.attempts FB.stalled FB.no_change_count FB.scrolls] in IH.
        destruct IH as (H1 & H2 & H3); try lia; auto.
        split; [assumption|]. split; [lia|].
        destruct H3 as [H3|H3]; [left|right]; intuition lia.
    + specialize (IH (FB.mkScroll (count (FB.polls p)) 0 (S (FB.attempts p))
                        (S (FB.scrolls p)) (S (FB.polls p)) false)).
      cbn zeta in IH.
      cbn [FB.polls FB.attempts FB.stalled FB.no_change_count FB.scrolls] in IH.
      destruct IH as (H1 & H2 & H3); try lia; auto.
      split; [assumption|]. split; [lia|].
      destruct H3 as [H3|H3]; [left|right]; intuition lia.
Qed.

Lemma scroll_start_consistent (count : nat -> nat) :
  scroll_consistent count FB.scroll_start.
Proof.
  unfold scroll_consistent, three_repeats, FB.scroll_start.
  cbn [FB.stalled FB.no_change_count FB.polls FB.last_count seen_before].
  repeat split; try lia; intros; lia.
Qed.

Lemma scroll_loop_stall (count : nat -> nat) (remaining : nat) :
  forall p,
    scroll_consistent count p ->
    (FB.stalled (FB.scroll_loop count remaining p) = true ->
     three_repeats count (FB.polls (FB.scroll_loop count remaining p)) /\
     FB.polls p < FB.polls (FB.scroll_loop count remaining p)
       <= FB.polls p + remaining /\
     forall m, m < FB.polls (FB.scroll_loop count remaining p) ->
               ~ three_repeats count m) /\
    (FB.stalled (FB.scroll_loop count remaining p) = false ->
     forall m, m <= FB.polls p + remaining -> ~ three_repeats count m).
Proof.
  induction remaining as [|n IH]; intros p Hc.
  - cbn [FB.scroll_loop].
    destruct Hc as (Hs & _ & _ & _ & _ & _ & Hno). split.
    + intros H. congruence.
    + intros _ m Hm. apply Hno. lia.
  - rewrite scroll_loop_turn.
    destruct Hc as (Hs & Hlt & Hle & Hlast & Hrun & Hmax & Hno).
    destruct (count (FB.polls p) =? FB.last_count p)%nat eqn:Eq.
    + apply Nat.eqb_eq in Eq. rewrite Hlast in Eq.
      destruct (3 <=? S (FB.no_change_count p))%nat eqn:E3.
      * apply Nat.leb_le in E3. cbn [FB.stalled FB.polls]. split.
        -- intros _. split; [|split].
           ++ split; [lia|]. intros j Hj.
              destruct (Nat.eq_dec j (FB.polls p)) as [->|Hne];
                [exact Eq|apply Hrun; lia].
           ++ lia.
           ++ intros m Hm. apply Hno. lia.
        -- intros H. discriminate H.
      * apply Nat.leb_gt in E3.
        assert (Hc' : scroll_consistent count
                  (FB.mkScroll (count (FB.polls p)) (S (FB.no_change_count p))
                     (S (FB.attempts p)) (S (FB.scrolls p)) (S (FB.polls p)) false)).
        { unfold scroll_consistent.
          cbn [FB.stalled FB.no_change_count FB.polls FB.last_count seen_before].
          split; [reflexivity|]. split; [lia|]. split; [lia|].
          split; [reflexivity|]. split; [|split].
          - intros j Hj.
            destruct (Nat.eq_dec j (FB.polls p)) as [->|Hne];
              [exact Eq|apply Hrun; lia].
          - intros Hlt'.
            replace (S (FB.polls p) - S (FB.no_change_count p) - 1)
              with (FB.polls p - FB.no_change_count p - 1) by lia.
            apply Hmax. lia.
          - intros m Hm [H3 Hwin].
            destruct (Nat.eq_dec m (S (FB.polls p))) as [->|Hne].
            + assert (Hin : FB.no_change_count p < FB.polls p) by lia.
              apply (Hmax Hin). apply Hwin. lia.
            + apply (Hno m); [lia|]. now split. }
        destruct (IH _ Hc') as [IH1 IH2]. cbn [FB.polls] in IH1, IH2.
        split.
        -- intros H. destruct (IH1 H) as (Hw & Hb & Hmin).
           split; [exact Hw|]. split; [lia|exact Hmin].
        -- intros H m Hm. apply (IH2 H). lia.
    + apply Nat.eqb_neq in Eq. rewrite Hlast in Eq.
      assert (Hc' : scroll_consistent count
                (FB.mkScroll (count (FB.polls p)) 0 (S (FB.attempts p))
                   (S (FB.scrolls p)) (S (FB.polls p)) false)).
      { unfold scroll_consistent.
        cbn [FB.stalled FB.no_change_count FB.polls FB.last_count seen_before].
        split; [reflexivity|]. split; [lia|]. split; [lia|].
        split; [reflexivity|]. split; [|split].
        - intros j Hj. lia.
        - intros _. replace (S (FB.polls p) - 0 - 1) with (FB.polls p) by lia.
          exact Eq.
        - intros m Hm [H3 Hwin].
          destruct (Nat.eq_dec m (S (FB.polls p))) as [->|Hne].
          + apply Eq. apply Hwin. lia.
          + apply (Hno m); [lia|]. now split. }
      destruct (IH _ Hc') as [IH1 IH2]. cbn [FB.polls] in IH1, IH2.
      split.
      * intros H. destruct (IH1 H) as (Hw & Hb & Hmin).
        split; [exact Hw|]. split; [lia|exact Hmin].
      * intros H m Hm. apply (IH2 H). lia.
Qed.

(** The two loops agree while the scroll commands return, and the first
    one that fails ends the run with its exception. *)
Lemma scroll_loop_scrolls_grow (count : nat -> nat) (remaining : nat) :
  forall p, FB.scrolls p <= FB.scrolls (FB.scroll_loop count remaining p).
Proof.
  induction remaining as [|n IH]; intros p; [cbn [FB.scroll_loop]; lia|].
  rewrite scroll_loop_turn.
  destruct (count (FB.polls p) =? FB.last_count p)%nat;
    [destruct (3 <=? S (FB.no_change_count p))%nat|];
    try (cbn [FB.scrolls]; lia);
    (eapply Nat.le_trans; [|apply IH]); cbn [FB.scrolls]; lia.
Qed.

Lemma scroll_loop_raising_turn (scroll_ok : nat -> bool) (count : nat -> nat)
    (remaining : nat) (p : FB.ScrollProgress) :
  FB.scroll_loop_raising scroll_ok count (S remaining) p =
  if (count (FB.polls p) =? FB.last_count p)%nat then
    if (3 <=? S (FB.no_change_count p))%nat then
      Returns (FB.mkScroll (FB.last_count p) (S (FB.no_change_count p))
                 (S (FB.attempts p)) (FB.scrolls p) (S (FB.polls p)) true)
    else if scroll_ok (FB.scrolls p) then
      FB.scroll_loop_raising scroll_ok count remaining
        (FB.mkScroll (count (FB.polls p)) (S (FB.no_change_count p))
           (S (FB.attempts p)) (S (FB.scrolls p)) (S (FB.polls p)) false)
    else Raises
  else if scroll_ok (FB.scrolls p) then
    FB.scroll_loop_raising scroll_ok count remaining
      (FB.mkScroll (count (FB.polls p)) 0 (S (FB.attempts p))
         (S (FB.scrolls p)) (S (FB.polls p)) false)
  else Raises.
Proof. reflexivity. Qed.

Lemma scroll_loop_raising_outcome (scroll_ok : nat -> bool) (count : nat -> nat)
    (remaining : nat) :
  forall p,
    ((forall k, FB.scrolls p <= k < FB.scrolls (FB.scroll_loop count remaining p) ->
                scroll_ok k = true) ->
     FB.scroll_loop_raising scroll_ok count remaining p
     = Returns (FB.scroll_loop count remaining p)) /\
    ((exists k, FB.scrolls p <= k < FB.scrolls (FB.scroll_loop count remaining p) /\
                scroll_ok k = false) ->
     FB.scroll_loop_raising scroll_ok count remaining p = Raises).
Proof.
  induction remaining as [|n IH]; intros p.
  - cbn [FB.scroll_loop FB.scroll_loop_raising]. split; [reflexivity|].
    intros (k & Hk & _). lia.
  - rewrite scroll_loop_turn, scroll_loop_raising_turn.
    destruct (count (FB.polls p) =? FB.last_count p)%nat;
      [destruct (3 <=? S (FB.no_change_count p))%nat|].
    + cbn [FB.scrolls]. split; [reflexivity|]. intros (k & Hk & _). lia.
    + match goal with
      | |- context [FB.scroll_loop count n ?q] =>
          pose proof (scroll_loop_scrolls_grow count n q) as Hgrow;
          destruct (IH q) as [IH1 IH2]
      end.
      cbn [FB.scrolls] in Hgrow, IH1, IH2. split.
      * intros Hok. rewrite (Hok (FB.scrolls p)) by lia.
        apply IH1. intros k Hk. apply Hok. lia.
      * intros (k & Hk & Hbad).
        destruct (scroll_ok (FB.scrolls p)) eqn:E0; [|reflexivity].
        apply IH2. exists k. split; [|exact Hbad].
        destruct (Nat.eq_dec k (FB.scrolls p)) as [->|Hne]; [congruence|lia].
    + match goal with
      | |- context [FB.scroll_loop count n ?q] =>
          pose proof (scroll_loop_scrolls_grow count n q) as Hgrow;
          destruct (IH q) as [IH1 IH2]
      end.
      cbn [FB.scrolls] in Hgrow, IH1, IH2. split.
      * intros Hok. rewrite (Hok (FB.scrolls p)) by lia.
        apply IH1. intros k Hk. apply Hok. lia.
      * intros (k & Hk & Hbad).
        destruct (scroll_ok (FB.scrolls p)) eqn:E0; [|reflexivity].
        apply IH2. exists k. split; [|exact Hbad].
        destruct (Nat.eq_dec k (FB.scrolls p)) as [->|Hne]; [congruence|lia].
Qed.

(** C4, refuted as stated: the controller does not return a count on
    every browser.  With a count function that always answers 5, at most 10
    attempts and a scroll command that raises, the first turn of the loop
    ends the call with that exception. *)
Lemma raising_scroll_leaves_the_controller :
  ~ (forall (scroll_ok : nat -> bool) (count : nat -> nat) (scroll_attempts : nat),
        exists final_count p,
          FB.wait_and_scroll_raising scroll_ok count scroll_attempts
          = Returns (final_count, p)).
Proof.
  intros H. destruct (H (fun _ => false) (fun _ => 5) 10) as (c & p & E).
  discriminate E.
Qed.

(** C4. For every count function and every bound on the attempts the
    controller's loop ends after at most that many turns: through the stall
    limit (a streak of 3) exactly when three consecutive polls within the
    bound each repeat the count before them, and then at the first such
    window, one scroll short of the turns entered; with all turns used
    otherwise.  When every scroll command the run sends returns, the
    controller returns a count in both cases, namely the answer of the last
    call of the count function, made after the loop.  When one of them
    raises, the controller raises. *)
Theorem wait_and_scroll_terminates_with_last_count
    (scroll_ok : nat -> bool) (count : nat -> nat) (scroll_attempts : nat) :
  let '(final_count, p) := FB.wait_and_scroll count scroll_attempts in
  (final_count = count (FB.polls p) /\
   FB.polls p = FB.attempts p /\
   FB.attempts p <= scroll_attempts /\
   ((FB.stalled p = true /\ FB.no_change_count p = 3 /\
     S (FB.scrolls p) = FB.attempts p) \/
    (FB.stalled p = false /\ FB.attempts p = scroll_attempts /\
     FB.scrolls p = FB.attempts p))) /\
  (FB.stalled p = true <->
   exists m, m <= scroll_attempts /\ three_repeats count m) /\
  (FB.stalled p = true ->
   three_repeats count (FB.polls p) /\
   forall m, m < FB.polls p -> ~ three_repeats count m) /\
  ((forall k, k < FB.scrolls p -> scroll_ok k = true) ->
   FB.wait_and_scroll_raising scroll_ok count scroll_attempts
   = Returns (final_count, p)) /\
  ((exists k, k < FB.scrolls p /\ scroll_ok k = false) ->
   FB.wait_and_scroll_raising scroll_ok count scroll_attempts = Raises).
Proof.
  unfold FB.wait_and_scroll, FB.wait_and_scroll_raising.
  pose proof (scroll_loop_outcome count scroll_attempts FB.scroll_start
                eq_refl (Nat.lt_0_succ 2) eq_refl eq_refl) as H.
  cbn zeta in H. cbn [FB.attempts FB.scroll_start] in H.
  destruct H as (H1 & H2 & H3).
  destruct (scroll_loop_stall count scroll_attempts FB.scroll_start
              (scroll_start_consistent count)) as [S1 S2].
  cbn [FB.polls FB.scroll_start] in S1, S2.
  destruct (scroll_loop_raising_outcome scroll_ok count scroll_attempts
              FB.scroll_start) as [R1 R2].
  cbn [FB.scrolls FB.scroll_start] in R1, R2.
  split; [|split; [|split; [|split]]].
  - split; [reflexivity|]. split; [assumption|]. split; [lia|].
    destruct H3 as [H3|H3]; [left|right]; intuition lia.
  - split.
    + intros H. destruct (S1 H) as (Hw & Hb & _).
      eexists. split; [|exact Hw]. lia.
    + intros (m & Hm & Hw).
      destruct (FB.stalled (FB.scroll_loop count scroll_attempts FB.scroll_start))
        eqn:E; [reflexivity|].
      exfalso. apply (S2 eq_refl m); [lia|exact Hw].
  - intros H. destruct (S1 H) as (Hw & _ & Hmin). now split.
  - intros Hok. rewrite R1; [reflexivity|]. intros k Hk. apply Hok. lia.
  - intros (k & Hk & Hbad). rewrite R2; [reflexivity|].
    exists k. split; [lia|exact Hbad].
Qed.

(** ** The detail record builder *)

(** The builder's sequence of assignments, collapsed: whatever the page,
    the dictionary has the literal's nineteen keys in the literal's order. *)
Lemma extract_listing_details_built
    (browse : string -> outcome Page) (now : nat -> string)
    (listing_url : string) (index : nat) (driver : Page) :
  browse listing_url = Returns driver ->
  CL.extract_listing_details browse now listing_url index
  = Some (built_record now listing_url index driver).
Proof.
  intros Hb. unfold CL.extract_listing_details. rewrite Hb.
  unfold built_record, shown_title, parsed_title, shown_location,
    CL.set_title, CL.set_location, CL.set_date_posted.
  destruct (nonempty (CL.find_title driver)) eqn:Et;
    [destruct (Re.title_match (CL.find_title driver)) as [[[g1 g2] g3]|]|];
    (destruct (CL.find_location_parts driver) as [|part parts];
     [|generalize (join " - " (part :: parts)); intros loc]);
    (destruct (CL.find_date_posted driver) as [|c date]; cbn [nonempty]);
    reflexivity.
Qed.

Lemma extract_listing_details_raises
    (browse : string -> outcome Page) (now : nat -> string)
    (listing_url : string) (index : nat) :
  browse listing_url = Raises ->
  CL.extract_listing_details browse now listing_url index = None.
Proof. intros Hb. unfold CL.extract_listing_details. now rewrite Hb. Qed.

(** C7. Year, make and model of a record come from the title pattern.  A
    title that does not begin with a year (four decimal digits, then white
    space) leaves year, make and model empty: so does [Great Deal Truck],
    and so does a title that begins with five digits.  The title
    [2021 Ford F-150 XLT] gives year [2021], make [Ford] and model
    [F-150 XLT].  A year that is not empty is the first four characters of
    the title.  In every case the title field is the title as found, when
    one was found. *)
Theorem title_parsing_examples
    (browse : string -> outcome Page) (now : nat -> string)
    (listing_url : string) (index : nat) (driver : Page) (title : string) :
  browse listing_url = Returns driver ->
  CL.find_title driver = title ->
  exists d,
    CL.extract_listing_details browse now listing_url index = Some d /\
    (nonempty title = true -> item d "title" = PyStr title) /\
    (begins_with_year title = false ->
     item d "year" = PyStr EmptyString /\
     item d "make" = PyStr EmptyString /\
     item d "model" = PyStr EmptyString) /\
    (forall y,
        item d "year" = PyStr y -> y <> EmptyString ->
        begins_with_year title = true /\
        y = glue (firstn 4 (chars title)) /\ len y = 4) /\
    (title = "2021 Ford F-150 XLT" ->
     item d "year" = PyStr "2021" /\
     item d "make" = PyStr "Ford" /\
     item d "model" = PyStr "F-150 XLT") /\
    (title = "Great Deal Truck" ->
     item d "year" = PyStr EmptyString /\
     item d "make" = PyStr EmptyString /\
     item d "model" = PyStr EmptyString).
Proof.
  intros Hb Ht.
  eexists; split; [apply extract_listing_details_built; exact Hb|].
  unfold built_record, parsed_title, shown_title. rewrite Ht.
  cbn [item dict_get String.eqb Ascii.eqb Bool.eqb].
  destruct (nonempty title) eqn:Hne.
  - split; [reflexivity|].
    destruct (Re.title_match title) as [[[g1 g2] g3]|] eqn:Em; cbn [fst snd].
    + destruct (title_match_year _ _ _ _ Em) as (Hy & Hg & Hl & _).
      split; [intros H; congruence|].
      split; [intros y Hy' _; injection Hy' as <-; auto|].
      split; intros ->; vm_compute in Em.
      * injection Em as <- <- <-. repeat split.
      * discriminate Em.
    + split; [intros _; repeat split|].
      split; [intros y Hy' Hn; injection Hy' as <-; contradiction|].
      split; intros ->; [vm_compute in Em; discriminate Em|repeat split].
  - cbn [fst snd]. split; [discriminate|].
    split; [intros _; repeat split|].
    split; [intros y Hy' Hn; injection Hy' as <-; contradiction|].
    split; intros ->; [discriminate Hne|repeat split].
Qed.

(** ** Minimum-signal rejection *)

Lemma worth_keeping_built (now : nat -> string) (listing_url : string)
    (index : nat) (driver : Page) :
  CL.worth_keeping (Some (built_record now listing_url index driver)) =
  nonempty (shown_title listing_url (CL.find_title driver))
  || nonempty (CL.safe_find_element_text driver ".price" "css")
  || nonempty (CL.safe_find_element_text driver ".attr.auto_vin .valu" "css").
Proof. reflexivity. Qed.

Lemma app_one_not_self (A : Type) (xs : list A) (x : A) : xs <> xs ++ [x].
Proof.
  intros H. apply (f_equal (@List.length A)) in H.
  rewrite length_app in H. simpl in H. lia.
Qed.

(** What one turn of the visiting loop does to the output list. *)
Lemma visit_cases (browse : string -> outcome Page) (now : nat -> string)
    (all_listings : list dict) (i : nat) (url : string) :
  match CL.extract_listing_details browse now url i with
  | Some d =>
      CL.visit browse now all_listings i url =
      if truthy (item d "title") || truthy (item d "price") || truthy (item d "vin")
      then all_listings ++ [d] else all_listings
  | None => CL.visit browse now all_listings i url = all_listings
  end.
Proof.
  unfold CL.visit.
  destruct (browse url) as [driver|] eqn:Hb.
  - rewrite (extract_listing_details_built browse now url i driver Hb).
    rewrite worth_keeping_built. reflexivity.
  - rewrite (extract_listing_details_raises browse now url i Hb). reflexivity.
Qed.

(** C2, amended.  For every URL the visiting loop processes, a record is
    appended exactly when the builder returned one whose title, price or
    vin field is non-empty, and nothing else is appended.  The title field
    is the page's title or, when the page gives none, the title made from
    the URL; so a page that gives no title, no price and no VIN yields no
    record only when the URL-made title is empty too. *)
Theorem record_kept_iff_signal
    (browse : string -> outcome Page) (now : nat -> string)
    (all_listings : list dict) (i : nat) (url : string) :
  (forall d,
      CL.visit browse now all_listings i url = all_listings ++ [d] <->
      CL.extract_listing_details browse now url i = Some d /\
      truthy (item d "title") || truthy (item d "price") || truthy (item d "vin")
        = true) /\
  (CL.visit browse now all_listings i url = all_listings \/
   exists d, CL.visit browse now all_listings i url = all_listings ++ [d]) /\
  (forall driver,
      browse url = Returns driver ->
      CL.find_title driver = EmptyString ->
      CL.safe_find_element_text driver ".price" "css" = EmptyString ->
      CL.safe_find_element_text driver ".attr.auto_vin .valu" "css" = EmptyString ->
      (CL.url_title url = EmptyString ->
       CL.visit browse now all_listings i url = all_listings) /\
      (CL.url_title url <> EmptyString ->
       exists d,
         CL.visit browse now all_listings i url = all_listings ++ [d] /\
         item d "title" = PyStr (CL.url_title url))).
Proof.
  pose proof (visit_cases browse now all_listings i url) as Hv.
  split; [|split].
  - intros d. destruct (CL.extract_listing_details browse now url i) as [d'|].
    + destruct (truthy (item d' "title") || truthy (item d' "price")
                || truthy (item d' "vin")) eqn:Ek; rewrite Hv; split.
      * intros H. apply app_inv_head in H. injection H as ->. now split.
      * intros [H _]. now injection H as ->.
      * intros H. now apply app_one_not_self in H.
      * intros [H Hk]. injection H as ->. congruence.
    + rewrite Hv. split.
      * intros H. now apply app_one_not_self in H.
      * intros [H _]. discriminate H.
  - destruct (CL.extract_listing_details browse now url i) as [d'|];
      [|now left].
    destruct (truthy (item d' "title") || truthy (item d' "price")
              || truthy (item d' "vin")); rewrite Hv;
      [right; now exists d' | now left].
  - intros driver Hb Ht Hp Hvin.
    rewrite (extract_listing_details_built browse now url i driver Hb) in Hv.
    change (truthy (item (built_record now url i driver) "title")
            || truthy (item (built_record now url i driver) "price")
            || truthy (item (built_record now url i driver) "vin"))
      with (nonempty (shown_title url (CL.find_title driver))
            || nonempty (CL.safe_find_element_text driver ".price" "css")
            || nonempty (CL.safe_find_element_text driver ".attr.auto_vin .valu" "css"))
      in Hv.
    rewrite Ht, Hp, Hvin in Hv. unfold shown_title in Hv. cbn [nonempty] in Hv.
    rewrite !orb_false_r in Hv.
    split.
    + intros Hu. rewrite Hu in Hv. exact Hv.
    + intros Hu. destruct (CL.url_title url) as [|c r] eqn:Eu; [contradiction|].
      cbn [nonempty] in Hv. eexists. split; [exact Hv|].
      unfold built_record. rewrite Ht. unfold shown_title. cbn [nonempty].
      now rewrite Eu.
Qed.

(** ** The listing URL discoverer: escalation *)

Lemma length_zero_nil (A : Type) (xs : list A) :
  (List.length xs =? 0)%nat = true -> xs = [].
Proof. destruct xs; [reflexivity|discriminate]. Qed.

(** The discoverer written over the yields of its three strategies. *)
Lemma extract_listing_urls_by_strategy
    (urljoin : string -> string -> string) (search_url : string) (driver : Page) :
  CL.extract_listing_urls urljoin search_url driver =
  match first_strategy urljoin search_url driver with
  | Raises => ([], [CL.q_result_node])
  | Returns (u :: us) => (u :: us, [CL.q_result_node])
  | Returns [] =>
      match fallback_strategy urljoin search_url driver CL.q_search_result with
      | Raises => ([], [CL.q_result_node; CL.q_search_result])
      | Returns (u :: us) => (u :: us, [CL.q_result_node; CL.q_search_result])
      | Returns [] =>
          match fallback_strategy urljoin search_url driver CL.q_data_pid with
          | Raises => ([], [CL.q_result_node; CL.q_search_result; CL.q_data_pid])
          | Returns urls =>
              (urls, [CL.q_result_node; CL.q_search_result; CL.q_data_pid])
          end
      end
  end.
Proof.
  unfold CL.extract_listing_urls, first_strategy, fallback_strategy.
  destruct (CL.ask driver CL.q_result_node) as [nodes|]; [|reflexivity].
  destruct (fold_left (CL.visit_result_node urljoin search_url) nodes [])
    as [|u us]; [|reflexivity].
  cbn [List.length Nat.eqb].
  destruct (CL.ask driver CL.q_search_result) as [results|]; [|reflexivity].
  destruct (fold_left (CL.visit_container urljoin search_url) results [])
    as [|u us]; [|reflexivity].
  cbn [List.length Nat.eqb].
  destruct (CL.ask driver CL.q_data_pid); reflexivity.
Qed.

(** C5. On every search page the second container query is sent exactly
    when the first strategy returned no URL, and the third exactly when the
    first and the second both returned none; when the first strategy yields
    at least one URL, the discoverer's result is that yield and no other
    container query is sent. *)
Theorem escalation_short_circuit
    (urljoin : string -> string -> string) (search_url : string) (driver : Page) :
  let '(urls, queries) := CL.extract_listing_urls urljoin search_url driver in
  (In CL.q_search_result queries <->
   first_strategy urljoin search_url driver = Returns []) /\
  (In CL.q_data_pid queries <->
   first_strategy urljoin search_url driver = Returns [] /\
   fallback_strategy urljoin search_url driver CL.q_search_result = Returns []) /\
  (forall u us,
      first_strategy urljoin search_url driver = Returns (u :: us) ->
      urls = u :: us /\ queries = [CL.q_result_node]) /\
  (forall u us,
      first_strategy urljoin search_url driver = Returns [] ->
      fallback_strategy urljoin search_url driver CL.q_search_result
        = Returns (u :: us) ->
      urls = u :: us /\ queries = [CL.q_result_node; CL.q_search_result]).
Proof.
  rewrite extract_listing_urls_by_strategy.
  unfold CL.q_result_node, CL.q_search_result, CL.q_data_pid.
  destruct (first_strategy urljoin search_url driver) as [[|u1 us1]|];
    [destruct (fallback_strategy urljoin search_url driver
                 (CSS_SELECTOR, ".cl-search-result")) as [[|u2 us2]|];
     [destruct (fallback_strategy urljoin search_url driver
                  (CSS_SELECTOR, "[data-pid]")) as [urls3|]| |]| |];
    (repeat split; intros; simpl in *;
     repeat match goal with
            | H : _ \/ _ |- _ => destruct H
            | H : _ /\ _ |- _ => destruct H
            | H : False |- _ => contradiction
            end;
     try discriminate; try congruence; auto).
Qed.

(** ** Records of the bulk pass *)

Lemma pick_price_shape (price_elements : list WebElement)
    (u : value) (t p m lo : string) :
  exists p',
    FB.pick_price price_elements (fb_record u t p m lo) = fb_record u t p' m lo /\
    (p' = p \/ FB.looks_like_price p' = true).
Proof.
  induction price_elements as [|e es IH]; cbn [FB.pick_price].
  - exists p. auto.
  - destruct (text e) as [s|]; [|exists p; auto].
    destruct (FB.looks_like_price (strip s)) eqn:Ep; [|exact IH].
    exists (strip s). split; [reflexivity|now right].
Qed.

Lemma set_price_shape (link : WebElement) (u : value) (t p m lo : string) :
  exists p',
    FB.set_price link (fb_record u t p m lo) = fb_record u t p' m lo /\
    (p' = p \/ FB.looks_like_price p' = true).
Proof.
  unfold FB.set_price.
  destruct (FB.find_price_elements link) as [es|]; [apply pick_price_shape|].
  exists p. auto.
Qed.

Lemma set_image_title_shape (link : WebElement) (u : value) (t p m lo : string) :
  exists t', FB.set_image_title link (fb_record u t p m lo) = fb_record u t' p m lo.
Proof.
  unfold FB.set_image_title.
  destruct (find_elements link TAG_NAME "img") as [[|img imgs]|];
    try (now exists t).
  destruct (get_attribute img "alt") as [[|alt]|]; try (now exists t).
  destruct (nonempty alt); [now exists (strip alt)|now exists t].
Qed.

Lemma pick_location_shape (text_elements : list WebElement)
    (u : value) (t p m lo : string) :
  match FB.pick_location text_elements (fb_record u t p m lo) with
  | Returns d => exists m' lo', d = fb_record u t p m' lo'
  | Raises => True
  end.
Proof.
  induction text_elements as [|e es IH]; cbn [FB.pick_location].
  - now exists m, lo.
  - destruct (text e) as [s|]; [|exact I].
    destruct (contains ", " (strip s) && (len (strip s) <? 50)%nat);
      [|exact IH].
    destruct (contains "mile" (lower (strip s))
              || contains "k mile" (lower (strip s))).
    + now exists (strip s), lo.
    + now exists m, (strip s).
Qed.

Lemma pick_mileage_shape (mileage_elements : list WebElement)
    (u : value) (t p m lo : string) :
  exists m', FB.pick_mileage mileage_elements (fb_record u t p m lo)
             = fb_record u t p m' lo.
Proof.
  induction mileage_elements as [|e es IH]; cbn [FB.pick_mileage].
  - now exists m.
  - destruct (text e) as [s|]; [|now exists m].
    destruct (contains "mile" (lower (strip s))
              && (len (strip s) <? 30)%nat); [|exact IH].
    now exists (strip s).
Qed.

Lemma set_location_and_mileage_shape (link : WebElement)
    (u : value) (t p m lo : string) :
  exists m' lo',
    FB.set_location_and_mileage link (fb_record u t p m lo) = fb_record u t p m' lo'.
Proof.
  unfold FB.set_location_and_mileage.
  destruct (find_elements link XPATH FB.location_xpath) as [es|];
    [|now exists m, lo].
  pose proof (pick_location_shape es u t p m lo) as H.
  destruct (FB.pick_location es (fb_record u t p m lo)) as [d|];
    [|now exists m, lo].
  destruct H as (m1 & lo1 & ->).
  destruct (value_eqb (item (fb_record u t p m1 lo1) "mileage") FB.not_available);
    [|now exists m1, lo1].
  destruct (find_elements link XPATH FB.mileage_xpath) as [ms|];
    [|now exists m1, lo1].
  destruct (pick_mileage_shape ms u t p m1 lo1) as (m2 & ->).
  now exists m2, lo1.
Qed.

(** Every record of the bulk pass has the five keys of its literal, strings
    in the four text fields, and a price that is the sentinel or passed the
    price test. *)
Lemma build_listing_shape (link : WebElement) (u : value) :
  exists t p m lo,
    FB.build_listing link u = fb_record u t p m lo /\
    (p = "N/A" \/ FB.looks_like_price p = true).
Proof.
  unfold FB.build_listing.
  change (FB.unknown_listing u) with (fb_record u "N/A" "N/A" "N/A" "N/A").
  destruct (set_price_shape link u "N/A" "N/A" "N/A" "N/A") as (p & -> & Hp).
  destruct (set_image_title_shape link u "N/A" p "N/A" "N/A") as (t & ->).
  destruct (set_location_and_mileage_shape link u t p "N/A" "N/A")
    as (m & lo & ->).
  now exists t, p, m, lo.
Qed.

Lemma url_of_listing (lu : WebElement * value) : url_of (listing_of lu) = snd lu.
Proof.
  unfold listing_of.
  destruct (build_listing_shape (fst lu) (snd lu)) as (t & p & m & lo & -> & _).
  reflexivity.
Qed.

(** The bulk loop, collapsed: one record per first-seen URL, in order. *)
Lemma walk_links_first_seen (links : list WebElement) :
  forall seen listings,
    FB.walk_links links seen listings =
    listings ++ map listing_of (first_seen seen (readable links)).
Proof.
  induction links as [|link rest IH]; intros seen listings;
    cbn [FB.walk_links readable].
  - cbn. now rewrite app_nil_r.
  - destruct (get_attribute link "href") as [url|]; [|apply IH].
    cbn [first_seen].
    destruct (existsb (value_eqb url) seen); [apply IH|].
    rewrite IH. cbn [map]. now rewrite <- app_assoc.
Qed.

(** ** Deduplication *)

Lemma value_eqb_eq (a b : value) : value_eqb a b = true <-> a = b.
Proof.
  destruct a as [|s], b as [|t]; simpl; split; intros H;
    try reflexivity; try discriminate.
  - apply String.eqb_eq in H. now subst.
  - injection H as ->. apply String.eqb_refl.
Qed.

Lemma seen_spec (u : value) (seen : list value) :
  existsb (value_eqb u) seen = true <-> In u seen.
Proof.
  rewrite existsb_exists. split.
  - intros (x & Hx & He). apply value_eqb_eq in He. now subst.
  - intros H. exists u. split; [assumption|now apply value_eqb_eq].
Qed.

Lemma in_list_spec (u : string) (xs : list string) :
  in_list u xs = true <-> In u xs.
Proof.
  unfold in_list. rewrite existsb_exists. split.
  - intros (x & Hx & He). apply String.eqb_eq in He. now subst.
  - intros H. exists u. split; [assumption|apply String.eqb_refl].
Qed.

Lemma NoDup_snoc (A : Type) (xs : list A) (x : A) :
  NoDup xs -> ~ In x xs -> NoDup (xs ++ [x]).
Proof.
  induction xs as [|y ys IH]; intros Hn Hx; simpl.
  - constructor; [intros []|constructor].
  - inversion Hn as [|? ? Hy Hys]; subst. constructor.
    + rewrite in_app_iff. intros [H|[H|[]]]; [contradiction|].
      subst. apply Hx. now left.
    + apply IH; [assumption|]. intros H. apply Hx. now right.
Qed.

Section Subseq.
Context {A : Type}.

Lemma subseq_nil_l (ys : list A) : subseq [] ys.
Proof. induction ys; constructor; assumption. Qed.

Lemma subseq_refl (xs : list A) : subseq xs xs.
Proof. induction xs; constructor; assumption. Qed.

Lemma subseq_app (a a' b b' : list A) :
  subseq a a' -> subseq b b' -> subseq (a ++ b) (a' ++ b').
Proof.
  intros Ha Hb. induction Ha; simpl.
  - assumption.
  - now constructor.
  - now constructor.
Qed.

Lemma subseq_pad (before after xs ys : list A) :
  subseq xs ys -> subseq xs (before ++ ys ++ after).
Proof.
  intros H.
  pose proof (subseq_app [] before (xs ++ []) (ys ++ after) (subseq_nil_l before)
                (subseq_app xs ys [] after H (subseq_nil_l after))) as H'.
  simpl in H'. now rewrite app_nil_r in H'.
Qed.

Lemma subseq_In (xs ys : list A) (x : A) : subseq xs ys -> In x xs -> In x ys.
Proof.
  intros H. induction H; simpl; intros Hx.
  - contradiction.
  - right. auto.
  - destruct Hx as [Hx|Hx]; [now left|right; auto].
Qed.

End Subseq.

(** First-seen selection: nothing listed is lost or moved, every
    container's first offer ends up listed, and nothing is listed twice. *)
Lemma first_new_cases (listed offers : list string) :
  first_new listed offers = listed \/
  exists u, In u offers /\ in_list u listed = false /\
            first_new listed offers = listed ++ [u].
Proof.
  unfold first_new.
  destruct (find (fun u => negb (in_list u listed)) offers) as [u|] eqn:E;
    [|now left].
  apply find_some in E as [Hin Hu]. right. exists u.
  repeat split; [exact Hin|now apply negb_true_iff in Hu].
Qed.

Lemma first_new_head (listed rest : list string) (u : string) :
  In u (first_new listed (u :: rest)).
Proof.
  unfold first_new. cbn [find].
  destruct (in_list u listed) eqn:E; cbn [negb].
  - apply in_list_spec in E.
    destruct (find _ rest); [apply in_or_app; now left|exact E].
  - apply in_or_app. right. now left.
Qed.

Lemma fold_first_new_extends (offers : list (list string)) :
  forall listed, exists later, fold_left first_new offers listed = listed ++ later.
Proof.
  induction offers as [|o os IH]; intros listed; cbn [fold_left].
  - exists []. now rewrite app_nil_r.
  - destruct (IH (first_new listed o)) as [later ->].
    destruct (first_new_cases listed o) as [->|(u & _ & _ & ->)];
      [now exists later|].
    exists ([u] ++ later). now rewrite app_assoc.
Qed.

Lemma fold_first_new_first_offer (offers : list (list string)) :
  forall listed o u rest,
    In o offers -> o = u :: rest -> In u (fold_left first_new offers listed).
Proof.
  induction offers as [|o' os IH]; intros listed o u rest Hin Ho; [contradiction|].
  cbn [fold_left]. destruct Hin as [->|Hin].
  - subst o. destruct (fold_first_new_extends os (first_new listed (u :: rest)))
      as [later ->].
    apply in_or_app. left. apply first_new_head.
  - exact (IH _ o u rest Hin Ho).
Qed.

Lemma fold_first_new_NoDup (offers : list (list string)) :
  forall listed, NoDup listed -> NoDup (fold_left first_new offers listed).
Proof.
  induction offers as [|o os IH]; intros listed Hn; cbn [fold_left]; [exact Hn|].
  apply IH. destruct (first_new_cases listed o) as [->|(u & _ & Hu & ->)];
    [exact Hn|].
  apply NoDup_snoc; [exact Hn|]. intros H. apply in_list_spec in H. congruence.
Qed.

Lemma fold_first_new_In (offers : list (list string)) (u : string) :
  forall listed,
    In u (fold_left first_new offers listed) ->
    In u listed \/ exists o, In o offers /\ In u o.
Proof.
  induction offers as [|o os IH]; intros listed H; cbn [fold_left] in H;
    [now left|].
  apply IH in H as [H|(o' & Ho' & Hu)].
  - destruct (first_new_cases listed o) as [E|(v & Hv & _ & E)]; rewrite E in H.
    + now left.
    + apply in_app_or in H as [H|[<-|[]]]; [now left|].
      right. exists o. split; [now left|exact Hv].
  - right. exists o'. split; [now right|exact Hu].
Qed.

Lemma first_seen_urls_after (pre post : list (list string)) (o : list string) :
  exists later,
    first_seen_urls (pre ++ o :: post)
    = first_new (first_seen_urls pre) o ++ later.
Proof.
  unfold first_seen_urls. rewrite fold_left_app. cbn [fold_left].
  apply fold_first_new_extends.
Qed.

Lemma first_seen_urls_new (pre post : list (list string)) (u : string) :
  (forall o, In o pre -> ~ In u o) ->
  exists later,
    first_seen_urls (pre ++ [u] :: post) = first_seen_urls pre ++ u :: later.
Proof.
  intros Hnew. destruct (first_seen_urls_after pre post [u]) as [later ->].
  exists later. unfold first_new. cbn [find].
  destruct (in_list u (first_seen_urls pre)) eqn:E; cbn [negb].
  - exfalso. apply in_list_spec in E.
    apply fold_first_new_In in E as [[]|(o & Ho & Hu)].
    exact (Hnew o Ho Hu).
  - now rewrite <- app_assoc.
Qed.

Section Discovery.
Variable urljoin : string -> string -> string.
Variable search_url : string.

Lemma adds_nothing (before candidates : list string) :
  adds before before candidates.
Proof.
  exists []. rewrite app_nil_r. repeat split; [apply subseq_nil_l|auto].
Qed.

Lemma adds_one (before rest : list string) (u : string) :
  in_list u before = false -> adds before (before ++ [u]) (u :: rest).
Proof.
  intros Hu. exists [u]. repeat split.
  - apply subseq_keep. apply subseq_nil_l.
  - intros Hn. apply NoDup_snoc; [assumption|].
    intros H. apply in_list_spec in H. congruence.
Qed.

Lemma adds_later (before after candidates skipped : list string) :
  adds before after candidates -> adds before after (skipped ++ candidates).
Proof.
  intros (picked & -> & Hs & Hn). exists picked. repeat split; [|assumption].
  change picked with ([] ++ picked).
  apply subseq_app; [apply subseq_nil_l|assumption].
Qed.

Lemma adds_then (a b c xs ys : list string) :
  adds a b xs -> adds b c ys -> adds a c (xs ++ ys).
Proof.
  intros (p1 & -> & Hs1 & Hn1) (p2 & -> & Hs2 & Hn2).
  exists (p1 ++ p2). rewrite app_assoc. repeat split.
  - now apply subseq_app.
  - auto.
Qed.

Lemma scan_links_adds (link_elements : list WebElement) (listing_urls : list string) :
  adds listing_urls (CL.scan_links urljoin search_url link_elements listing_urls)
    (flat_map (detail_url urljoin search_url) link_elements).
Proof.
  induction link_elements as [|link rest IH];
    cbn [CL.scan_links flat_map]; [apply adds_nothing|].
  unfold detail_url at 1.
  destruct (get_attribute link "href") as [[|href]|]; [exact IH| |apply adds_nothing].
  destruct (nonempty href && contains "/d/" href); [|exact IH].
  destruct (in_list (urljoin search_url href) listing_urls) eqn:Ein.
  - now apply adds_later.
  - now apply adds_one.
Qed.

Lemma visit_result_node_adds (listing_urls : list string) (node : WebElement) :
  adds listing_urls (CL.visit_result_node urljoin search_url listing_urls node)
    (node_urls urljoin search_url node).
Proof.
  unfold CL.visit_result_node, node_urls.
  destruct (find_elements node CSS_SELECTOR "a.cl-app-anchor");
    [apply scan_links_adds|apply adds_nothing].
Qed.

Lemma visit_container_adds (listing_urls : list string) (container : WebElement) :
  adds listing_urls (CL.visit_container urljoin search_url listing_urls container)
    (container_urls urljoin search_url container).
Proof.
  unfold CL.visit_container, container_urls, detail_url.
  destruct (find_element container CSS_SELECTOR "a") as [link|];
    [|apply adds_nothing].
  destruct (get_attribute link "href") as [[|href]|]; try apply adds_nothing.
  destruct (nonempty href && contains "/d/" href); [|apply adds_nothing].
  destruct (in_list (urljoin search_url href) listing_urls) eqn:Ein;
    [apply adds_nothing|now apply adds_one].
Qed.

Lemma fold_adds (visit : list string -> WebElement -> list string)
    (urls_of : WebElement -> list string) :
  (forall acc e, adds acc (visit acc e) (urls_of e)) ->
  forall es acc, adds acc (fold_left visit es acc) (flat_map urls_of es).
Proof.
  intros Hv. induction es as [|e es IH]; intros acc; cbn [fold_left flat_map].
  - apply adds_nothing.
  - eapply adds_then; [apply Hv|apply IH].
Qed.

Lemma first_strategy_adds (driver : Page) :
  match first_strategy urljoin search_url driver with
  | Returns urls =>
      adds [] urls
        (flat_map (node_urls urljoin search_url)
           (found_or_none (CL.ask driver CL.q_result_node)))
  | Raises => True
  end.
Proof.
  unfold first_strategy.
  destruct (CL.ask driver CL.q_result_node) as [nodes|]; [|exact I].
  apply fold_adds. apply visit_result_node_adds.
Qed.

Lemma fallback_strategy_adds (driver : Page) (q : CL.Query) :
  match fallback_strategy urljoin search_url driver q with
  | Returns urls =>
      adds [] urls
        (flat_map (container_urls urljoin search_url)
           (found_or_none (CL.ask driver q)))
  | Raises => True
  end.
Proof.
  unfold fallback_strategy.
  destruct (CL.ask driver q) as [containers|]; [|exact I].
  apply fold_adds. apply visit_container_adds.
Qed.

Lemma adds_from_nil (urls candidates : list string) :
  adds [] urls candidates -> NoDup urls /\ subseq urls candidates.
Proof.
  intros (picked & -> & Hs & Hn). simpl. split; [|assumption].
  apply Hn. constructor.
Qed.

Lemma extract_listing_urls_distinct_in_order (driver : Page) :
  NoDup (fst (CL.extract_listing_urls urljoin search_url driver)) /\
  subseq (fst (CL.extract_listing_urls urljoin search_url driver))
    (document_urls urljoin search_url driver).
Proof.
  rewrite extract_listing_urls_by_strategy. unfold document_urls.
  pose proof (first_strategy_adds driver) as H1.
  pose proof (fallback_strategy_adds driver CL.q_search_result) as H2.
  pose proof (fallback_strategy_adds driver CL.q_data_pid) as H3.
  set (c1 := flat_map _ (found_or_none (CL.ask driver CL.q_result_node))) in *.
  set (c2 := flat_map _ (found_or_none (CL.ask driver CL.q_search_result))) in *.
  set (c3 := flat_map _ (found_or_none (CL.ask driver CL.q_data_pid))) in *.
  assert (Hnil : NoDup (@nil string) /\ subseq [] (c1 ++ c2 ++ c3))
    by (split; [constructor|apply subseq_nil_l]).
  destruct (first_strategy urljoin search_url driver) as [[|u1 us1]|];
    cbn [fst]; [|apply adds_from_nil in H1 as [Hn Hs]; split; [exact Hn|]|exact Hnil].
  - destruct (fallback_strategy urljoin search_url driver CL.q_search_result)
      as [[|u2 us2]|]; cbn [fst];
      [|apply adds_from_nil in H2 as [Hn Hs]; split; [exact Hn|]|exact Hnil].
    + destruct (fallback_strategy urljoin search_url driver CL.q_data_pid)
        as [urls3|]; cbn [fst]; [|exact Hnil].
      apply adds_from_nil in H3 as [Hn Hs]. split; [exact Hn|].
      rewrite app_assoc. rewrite <- (app_nil_r c3).
      now apply subseq_pad.
    + now apply subseq_pad.
  - change (c1 ++ c2 ++ c3) with ([] ++ c1 ++ c2 ++ c3).
    now apply subseq_pad.
Qed.

(** Each loop body of the discoverer is a first-seen selection step. *)
Lemma scan_links_first_new (link_elements : list WebElement)
    (listing_urls : list string) :
  CL.scan_links urljoin search_url link_elements listing_urls
  = first_new listing_urls (offered urljoin search_url link_elements).
Proof.
  induction link_elements as [|link rest IH]; cbn [CL.scan_links offered];
    [reflexivity|].
  unfold detail_url.
  destruct (get_attribute link "href") as [[|href]|]; [exact IH| |reflexivity].
  destruct (nonempty href && contains "/d/" href); [|exact IH].
  cbn [app]. unfold first_new at 1. cbn [find].
  destruct (in_list (urljoin search_url href) listing_urls); cbn [negb];
    [exact IH|reflexivity].
Qed.

Lemma visit_result_node_first_new (listing_urls : list string) (node : WebElement) :
  CL.visit_result_node urljoin search_url listing_urls node
  = first_new listing_urls (node_offers urljoin search_url node).
Proof.
  unfold CL.visit_result_node, node_offers.
  destruct (find_elements node CSS_SELECTOR "a.cl-app-anchor");
    [apply scan_links_first_new|reflexivity].
Qed.

Lemma visit_container_first_new (listing_urls : list string) (container : WebElement) :
  CL.visit_container urljoin search_url listing_urls container
  = first_new listing_urls (container_urls urljoin search_url container).
Proof.
  unfold CL.visit_container, container_urls, detail_url.
  destruct (find_element container CSS_SELECTOR "a") as [link|]; [|reflexivity].
  destruct (get_attribute link "href") as [[|href]|]; try reflexivity.
  destruct (nonempty href && contains "/d/" href); [|reflexivity].
  unfold first_new. cbn [find].
  now destruct (in_list (urljoin search_url href) listing_urls).
Qed.

Lemma fold_first_new (visit : list string -> WebElement -> list string)
    (offers : WebElement -> list string) :
  (forall acc e, visit acc e = first_new acc (offers e)) ->
  forall es acc, fold_left visit es acc = fold_left first_new (map offers es) acc.
Proof.
  intros Hv. induction es as [|e es IH]; intros acc; cbn [fold_left map];
    [reflexivity|].
  now rewrite Hv, IH.
Qed.

Lemma extract_listing_urls_first_seen (driver : Page) :
  fst (CL.extract_listing_urls urljoin search_url driver)
  = first_seen_discovery urljoin search_url driver.
Proof.
  rewrite extract_listing_urls_by_strategy.
  unfold first_strategy, fallback_strategy, first_seen_discovery, first_seen_urls.
  destruct (CL.ask driver CL.q_result_node) as [nodes|]; [|reflexivity].
  rewrite (fold_first_new _ _ visit_result_node_first_new).
  destruct (fold_left first_new _ []) as [|u us]; [|reflexivity].
  destruct (CL.ask driver CL.q_search_result) as [results|]; [|reflexivity].
  rewrite (fold_first_new _ _ visit_container_first_new).
  destruct (fold_left first_new _ []) as [|u us]; [|reflexivity].
  destruct (CL.ask driver CL.q_data_pid) as [pids|]; [|reflexivity].
  now rewrite (fold_first_new _ _ visit_container_first_new).
Qed.

Lemma extract_listing_urls_same_page (p q : Page) :
  same_page p q ->
  CL.extract_listing_urls urljoin search_url p
  = CL.extract_listing_urls urljoin search_url q.
Proof.
  intros H. unfold CL.extract_listing_urls, CL.ask. now rewrite !H.
Qed.

End Discovery.

Lemma first_seen_distinct (links : list (WebElement * value)) :
  forall seen,
    NoDup (map snd (first_seen seen links)) /\
    (forall u, In u (map snd (first_seen seen links)) -> ~ In u seen).
Proof.
  induction links as [|[link url] rest IH]; intros seen; cbn [first_seen].
  - split; [constructor|intros u []].
  - destruct (existsb (value_eqb url) seen) eqn:Es; [apply IH|].
    destruct (IH (url :: seen)) as [Hn Hd]. cbn [map snd]. split.
    + constructor; [|exact Hn]. intros H. apply (Hd url H). now left.
    + intros u [<-|H].
      * intros Hin. apply seen_spec in Hin. congruence.
      * intros Hin. apply (Hd u H). now right.
Qed.

Lemma first_seen_covers (links : list (WebElement * value)) :
  forall seen u,
    In u (map snd links) ->
    In u seen \/ In u (map snd (first_seen seen links)).
Proof.
  induction links as [|[link url] rest IH]; intros seen u; cbn [first_seen map snd].
  - intros [].
  - intros [<-|H].
    + destruct (existsb (value_eqb url) seen) eqn:Es.
      * left. now apply seen_spec.
      * right. now left.
    + destruct (existsb (value_eqb url) seen) eqn:Es; [now apply IH|].
      destruct (IH (url :: seen) u H) as [[<-|Hs]|Hr].
      * right. now left.
      * now left.
      * right. now right.
Qed.

Lemma first_seen_keeps_first (pre post : list (WebElement * value))
    (link : WebElement) (u : value) :
  forall seen,
    ~ In u seen -> ~ In u (map snd pre) ->
    In (link, u) (first_seen seen (pre ++ (link, u) :: post)).
Proof.
  induction pre as [|[l0 u0] pre IH]; intros seen Hs Hp; cbn [app first_seen].
  - destruct (existsb (value_eqb u) seen) eqn:Es.
    + apply seen_spec in Es. contradiction.
    + now left.
  - cbn [map snd] in Hp.
    assert (Hne : u0 <> u) by (intros ->; apply Hp; now left).
    assert (Hp' : ~ In u (map snd pre)) by (intros H; apply Hp; now right).
    destruct (existsb (value_eqb u0) seen); [now apply IH|].
    right. apply IH; [|assumption].
    intros [H|H]; [contradiction|contradiction].
Qed.

Lemma readable_app (pre post : list WebElement) :
  readable (pre ++ post) = readable pre ++ readable post.
Proof.
  induction pre as [|l pre IH]; cbn [app readable]; [reflexivity|].
  destruct (get_attribute l "href"); [|exact IH].
  cbn [app]. now rewrite IH.
Qed.

Lemma readable_In (links : list WebElement) (link : WebElement) (u : value) :
  In (link, u) (readable links) <->
  In link links /\ get_attribute link "href" = Returns u.
Proof.
  induction links as [|l rest IH]; cbn [readable].
  - split; [intros []|intros [[] _]].
  - destruct (get_attribute l "href") as [u0|] eqn:E; cbn [In]; rewrite ?IH; split.
    + intros [H|[H1 H2]]; [injection H as -> ->; now split; [left|]|].
      split; [now right|assumption].
    + intros [[->|H] Hu]; [left; congruence|right; now split].
    + intros [H1 H2]. split; [now right|assumption].
    + intros [[->|H] Hu]; [congruence|now split].
Qed.

Lemma once_when_distinct (records : list dict) (u : value) :
  NoDup (map url_of records) ->
  In u (map url_of records) ->
  List.length (filter (fun d => value_eqb (url_of d) u) records) = 1.
Proof.
  induction records as [|d rest IH]; cbn [map filter]; intros Hn Hin.
  - contradiction.
  - inversion Hn as [|? ? Hd Hrest]; subst.
    destruct (value_eqb (url_of d) u) eqn:E.
    + apply value_eqb_eq in E. subst u. cbn [List.length]. f_equal.
      assert (Hnone : forall l, ~ In (url_of d) (map url_of l) ->
                filter (fun d0 => value_eqb (url_of d0) (url_of d)) l = []).
      { induction l as [|x l IHl]; cbn [map filter]; intros H; [reflexivity|].
        destruct (value_eqb (url_of x) (url_of d)) eqn:Ex.
        - apply value_eqb_eq in Ex. exfalso. apply H. now left.
        - apply IHl. intros H'. apply H. now right. }
      now rewrite Hnone.
    + destruct Hin as [Hin|Hin].
      * apply value_eqb_eq in Hin. congruence.
      * now apply IH.
Qed.

Lemma extract_all_listings_first_seen (page : Page) (links : list WebElement) :
  page CSS_SELECTOR FB.item_links = Returns links ->
  FB.extract_all_listings (Some page)
  = map listing_of (first_seen [] (readable links)).
Proof.
  intros H. unfold FB.extract_all_listings. rewrite H.
  apply walk_links_first_seen.
Qed.

Lemma urls_of_listings (lus : list (WebElement * value)) :
  map url_of (map listing_of lus) = map snd lus.
Proof.
  rewrite map_map. apply map_ext. intros lu. apply url_of_listing.
Qed.

(** C8. The discoverer's list has no URL twice and keeps the order in which
    the page offers them: it is the first-seen selection over what the
    containers offer, in which every container's first offer is listed, the
    URLs taken from earlier containers stay where they are, and a URL offered
    for the first time is put right behind them.  It is the same list on any
    page that answers every query alike.  The bulk pass emits records with
    pairwise different URLs: for every URL some link carries there is exactly
    one record, and it is the one built from the first link that carries
    it. *)
Theorem url_deduplication :
  (forall (urljoin : string -> string -> string) (search_url : string)
          (driver : Page),
      NoDup (fst (CL.extract_listing_urls urljoin search_url driver)) /\
      subseq (fst (CL.extract_listing_urls urljoin search_url driver))
        (document_urls urljoin search_url driver) /\
      fst (CL.extract_listing_urls urljoin search_url driver)
      = first_seen_discovery urljoin search_url driver) /\
  (forall offers : list (list string),
      NoDup (first_seen_urls offers) /\
      (forall o u rest,
          In o offers -> o = u :: rest -> In u (first_seen_urls offers)) /\
      (forall pre o post,
          offers = pre ++ o :: post ->
          exists later,
            first_seen_urls offers = first_new (first_seen_urls pre) o ++ later) /\
      (forall pre u post,
          offers = pre ++ [u] :: post ->
          (forall o, In o pre -> ~ In u o) ->
          exists later,
            first_seen_urls offers = first_seen_urls pre ++ u :: later)) /\
  (forall (urljoin : string -> string -> string) (search_url : string)
          (p q : Page),
      same_page p q ->
      CL.extract_listing_urls urljoin search_url p
      = CL.extract_listing_urls urljoin search_url q) /\
  (forall (page : Page) (links : list WebElement),
      page CSS_SELECTOR FB.item_links = Returns links ->
      NoDup (map url_of (FB.extract_all_listings (Some page))) /\
      (forall link u,
          In link links ->
          get_attribute link "href" = Returns u ->
          List.length
            (filter (fun d => value_eqb (url_of d) u)
               (FB.extract_all_listings (Some page))) = 1) /\
      (forall pre link post u,
          links = pre ++ link :: post ->
          get_attribute link "href" = Returns u ->
          (forall l, In l pre -> get_attribute l "href" <> Returns u) ->
          In (FB.build_listing link u) (FB.extract_all_listings (Some page)))).
Proof.
  split; [|split; [|split]].
  - intros. destruct (extract_listing_urls_distinct_in_order urljoin search_url driver)
      as [Hn Hs].
    split; [exact Hn|]. split; [exact Hs|].
    apply extract_listing_urls_first_seen.
  - intros offers. split; [|split; [|split]].
    + apply fold_first_new_NoDup. constructor.
    + intros o u rest. apply fold_first_new_first_offer.
    + intros pre o post ->. apply first_seen_urls_after.
    + intros pre u post ->. apply first_seen_urls_new.
  - intros. now apply extract_listing_urls_same_page.
  - intros page links Hp.
    rewrite (extract_all_listings_first_seen page links Hp).
    assert (Hn : NoDup (map url_of (map listing_of (first_seen [] (readable links))))).
    { rewrite urls_of_listings. apply first_seen_distinct. }
    split; [exact Hn|split].
    + intros link u Hin Hu. apply once_when_distinct; [exact Hn|].
      rewrite urls_of_listings.
      destruct (first_seen_covers (readable links) [] u) as [[]|H]; [|exact H].
      apply in_map_iff. exists (link, u). split; [reflexivity|].
      now apply readable_In.
    + intros pre link post u -> Hu Hpre.
      apply in_map_iff. exists (link, u). split; [reflexivity|].
      rewrite readable_app. cbn [readable]. rewrite Hu.
      apply first_seen_keeps_first; [intros []|].
      intros H. apply in_map_iff in H as ([l0 u0] & Heq & Hin).
      cbn [snd] in Heq. subst u0. apply readable_In in Hin as [Hin Hu0].
      exact (Hpre l0 Hin Hu0).
Qed.

(** ** The price of a bulk record *)

Lemma extract_all_listings_built (driver : option Page) (d : dict) :
  In d (FB.extract_all_listings driver) ->
  exists link u,
    get_attribute link "href" = Returns u /\ d = FB.build_listing link u.
Proof.
  unfold FB.extract_all_listings.
  destruct driver as [page|]; [|intros []].
  destruct (page CSS_SELECTOR FB.item_links) as [links|]; [|intros []].
  rewrite walk_links_first_seen. cbn [app]. intros H.
  apply in_map_iff in H as ([link u] & <- & Hin).
  exists link, u. split; [|reflexivity].
  assert (Hsub : forall ps seen x, In x (first_seen seen ps) -> In x ps).
  { induction ps as [|[l0 u0] ps IH]; intros seen x; cbn [first_seen].
    - intros [].
    - destruct (existsb (value_eqb u0) seen).
      + intros Hx. right. eapply IH. exact Hx.
      + intros [Hx|Hx]; [now left|right; eapply IH; exact Hx]. }
  apply Hsub in Hin. now apply readable_In in Hin.
Qed.

Lemma startswith_dollar (s : string) :
  startswith s "$" = true -> exists rest, s = String "$"%char rest.
Proof.
  unfold startswith. destruct s as [|c r]; cbn [String.prefix]; [discriminate|].
  destruct (ascii_dec "$"%char c) as [<-|]; [|discriminate].
  intros _. now exists r.
Qed.

(** C10. In every record of the bulk pass whose price is not the sentinel
    [N/A], the price is a string that starts with [$], has a digit among
    its characters (in the sense of [str.isdigit]), and is more than 1 and
    fewer than 30 characters long (in the sense of [len]). *)
Theorem facebook_price_well_formed (driver : option Page) (d : dict) :
  In d (FB.extract_all_listings driver) ->
  item d "price" <> PyStr "N/A" ->
  exists rest,
    item d "price" = PyStr (String "$"%char rest) /\
    any_digit (String "$"%char rest) = true /\
    1 < len (String "$"%char rest) < 30.
Proof.
  intros Hin Hp.
  apply extract_all_listings_built in Hin as (link & u & _ & ->).
  destruct (build_listing_shape link u) as (t & p & m & lo & E & [->|Hl]).
  - rewrite E in Hp. now contradiction Hp.
  - rewrite E. change (item (fb_record u t p m lo) "price") with (PyStr p).
    unfold FB.looks_like_price in Hl.
    apply andb_true_iff in Hl as [H1 H2].
    apply andb_true_iff in H2 as [Hs Hd].
    apply andb_true_iff in H1 as [H1 Hgt].
    apply andb_true_iff in H1 as [_ Hlt].
    apply Nat.ltb_lt in Hgt, Hlt.
    destruct (startswith_dollar p Hs) as [rest ->].
    exists rest. repeat split; assumption.
Qed.

(** ** Session replay and the login fallback *)

(** Whatever the user does in visible mode, the login step is announced
    once, at the head of the block, and no headless replay follows. *)
Lemma visible_mode_log (w : FB.World) (marketplace_url : string) :
  exists rest,
    snd (FB.visible_mode w marketplace_url) = FB.LoginRequired :: rest /\
    occurrences is_login_required rest = 0 /\
    occurrences is_headless_replay rest = 0 /\
    occurrences is_replay rest <= 1 /\
    occurrences is_quit rest = 0.
Proof.
  unfold FB.visible_mode, FB.open_for_login.
  destruct (FB.login_clicked w);
    [destruct (FB.chrome w FB.Visible);
     [destruct (FB.reachable w FB.facebook_home)| |]|];
    cbn [fst snd];
    try (destruct (FB.fb_driver_ready w));
    try (destruct (FB.continue_clicked w));
    try (destruct (FB.fb_driver_instance w));
    try (destruct (FB.reachable w marketplace_url));
    cbn [fst snd app]; eexists; (split; [reflexivity|]);
    cbv [occurrences filter is_login_required is_headless_replay is_replay
         is_quit List.length]; repeat split; lia.
Qed.

(** C9. When a stored session is replayed in the headless browser and the
    page then shows no listing, the run quits that browser, enters the
    interactive-login step, and does so once: the login step occurs exactly
    once in the run, the headless replay exactly once, the browser is quit
    exactly once (before the login step), and cookies are loaded at most
    once more, in the visible browser. *)
Theorem stale_session_falls_back_once
    (w : FB.World) (marketplace_url : string) (max_scroll_attempts : nat)
    (cookies : list string) :
  FB.session_file w = Some (Returns cookies) ->
  FB.chrome w FB.Headless = FB.Started ->
  FB.reachable w FB.facebook_home = true ->
  FB.reachable w marketplace_url = true ->
  FB.get_listing_count (Some (FB.feed w 0)) = 0 ->
  let log := snd (FB.scrape_facebook_marketplace w marketplace_url
                    max_scroll_attempts) in
  (exists rest,
      log = [FB.StartChrome FB.Headless; FB.LoadSession FB.Headless;
             FB.Get marketplace_url; FB.CountListings; FB.QuitDriver;
             FB.LoginRequired] ++ rest) /\
  occurrences is_login_required log = 1 /\
  occurrences is_headless_replay log = 1 /\
  occurrences is_quit log = 1 /\
  occurrences is_replay log <= 2.
Proof.
  intros Hfile Hchrome Hhome Hurl Hcount log. subst log.
  unfold FB.scrape_facebook_marketplace, FB.headless_attempt, FB.load_session.
  rewrite Hfile, Hchrome, Hhome, Hurl, Hcount. cbn [Nat.ltb Nat.leb].
  destruct (visible_mode_log w marketplace_url)
    as (rest & Hlog & Hlogin & Hreplay & Hany & Hquit).
  destruct (FB.visible_mode w marketplace_url) as [[[driver|]|] l];
    cbn [snd] in *; subst l;
    (split; [exists rest; reflexivity|]);
    unfold occurrences in *; cbn [app filter is_login_required
      is_headless_replay is_replay is_quit List.length];
    rewrite ?Hlogin, ?Hreplay, ?Hquit; repeat split; lia.
Qed.

(** ** Field presence *)

Lemma visit_all_built (browse : string -> outcome Page) (now : nat -> string)
    (listing_urls : list string) :
  forall i all_listings d,
    In d (CL.visit_all browse now listing_urls i all_listings) ->
    In d all_listings \/
    exists listing_url index driver,
      browse listing_url = Returns driver /\
      d = built_record now listing_url index driver.
Proof.
  induction listing_urls as [|url rest IH]; intros i all_listings d;
    cbn [CL.visit_all]; [now left|].
  intros H. apply IH in H as [H|H]; [|now right].
  pose proof (visit_cases browse now all_listings i url) as Hv.
  destruct (browse url) as [driver|] eqn:Hb.
  - rewrite (extract_listing_details_built browse now url i driver Hb) in Hv.
    rewrite Hv in H.
    destruct (truthy (item (built_record now url i driver) "title")
              || truthy (item (built_record now url i driver) "price")
              || truthy (item (built_record now url i driver) "vin"));
      [|now left].
    apply in_app_iff in H as [H|[<-|[]]]; [now left|].
    right. now exists url, i, driver.
  - rewrite (extract_listing_details_raises browse now url i Hb) in Hv.
    rewrite Hv in H. now left.
Qed.

Lemma scrape_craigslist_built
    (urljoin : string -> string -> string) (browse : string -> outcome Page)
    (now : nat -> string) (chrome_starts : bool)
    (search_url : string) (max_listings : option nat) (d : dict) :
  In d (CL.scrape_craigslist urljoin browse now chrome_starts search_url
          max_listings) ->
  exists listing_url index driver,
    browse listing_url = Returns driver /\
    d = built_record now listing_url index driver.
Proof.
  unfold CL.scrape_craigslist.
  destruct chrome_starts; cbn [negb]; [|intros []].
  destruct (browse search_url) as [driver|]; [|intros []].
  destruct (fst (CL.extract_listing_urls urljoin search_url driver))
    as [|u us]; [intros []|].
  intros H. apply visit_all_built in H as [[]|H]. exact H.
Qed.

Lemma scrape_facebook_marketplace_built (w : FB.World) (marketplace_url : string)
    (max_scroll_attempts : nat) (d : dict) :
  In d (fst (FB.scrape_facebook_marketplace w marketplace_url max_scroll_attempts)) ->
  exists link u,
    get_attribute link "href" = Returns u /\ d = FB.build_listing link u.
Proof.
  assert (Hs : forall driver observed,
             In d (FB.scroll_and_extract w driver observed max_scroll_attempts) ->
             exists link u,
               get_attribute link "href" = Returns u /\ d = FB.build_listing link u).
  { intros driver observed. unfold FB.scroll_and_extract.
    destruct driver as [m|]; [|intros []].
    destruct (FB.wait_and_scroll _ max_scroll_attempts) as [final_count p].
    apply extract_all_listings_built. }
  unfold FB.scrape_facebook_marketplace.
  destruct (FB.headless_attempt w marketplace_url) as [[[[ok driver] observed]|] l];
    cbn [fst]; [|intros []].
  destruct ok; cbn [fst]; [apply Hs|].
  destruct (FB.visible_mode w marketplace_url) as [[[driver'|]|] l'];
    cbn [fst]; try (intros []). apply Hs.
Qed.

Lemma built_record_strings (now : nat -> string) (listing_url : string)
    (index : nat) (driver : Page) (k : string) :
  In k listing_fields ->
  exists s, dict_get (built_record now listing_url index driver) k = Some (PyStr s).
Proof.
  unfold listing_fields. cbn [In]. intros H.
  repeat (destruct H as [<-|H]; [eexists; reflexivity|]).
  contradiction.
Qed.

Lemma safe_find_element_text_missing (driver : Page) (selector : string) :
  driver CSS_SELECTOR selector = Returns [] \/
  driver CSS_SELECTOR selector = Raises ->
  CL.safe_find_element_text driver selector "css" = EmptyString.
Proof.
  rewrite safe_find_element_text_eq. unfold page_find_element, first_of.
  change (locator "css") with CSS_SELECTOR.
  intros [H|H]; now rewrite H.
Qed.

(** The bulk record field by field: no step touches a field another step
    wrote. *)
Lemma pick_price_field (price_elements : list WebElement)
    (u : value) (t p m lo : string) :
  FB.pick_price price_elements (fb_record u t p m lo)
  = fb_record u t
      (match found (first_accepted FB.looks_like_price price_elements) with
       | Some x => x
       | None => p
       end) m lo.
Proof.
  induction price_elements as [|e es IH]; cbn [FB.pick_price first_accepted];
    [reflexivity|].
  destruct (text e) as [s|]; [|reflexivity].
  destruct (FB.looks_like_price (strip s)); [reflexivity|exact IH].
Qed.

Lemma pick_location_field (text_elements : list WebElement)
    (u : value) (t p m lo : string) :
  FB.pick_location text_elements (fb_record u t p m lo)
  = match first_accepted is_location_text text_elements with
    | Raises => Raises
    | Returns None => Returns (fb_record u t p m lo)
    | Returns (Some x) =>
        if mentions_miles x then Returns (fb_record u t p x lo)
        else Returns (fb_record u t p m x)
    end.
Proof.
  induction text_elements as [|e es IH]; cbn [FB.pick_location first_accepted];
    [reflexivity|].
  destruct (text e) as [s|]; [|reflexivity].
  fold (is_location_text (strip s)). fold (mentions_miles (strip s)).
  destruct (is_location_text (strip s)); [|exact IH].
  now destruct (mentions_miles (strip s)).
Qed.

Lemma pick_mileage_field (mileage_elements : list WebElement)
    (u : value) (t p m lo : string) :
  FB.pick_mileage mileage_elements (fb_record u t p m lo)
  = fb_record u t p
      (match found (first_accepted is_mileage_text mileage_elements) with
       | Some x => x
       | None => m
       end) lo.
Proof.
  induction mileage_elements as [|e es IH]; cbn [FB.pick_mileage first_accepted];
    [reflexivity|].
  destruct (text e) as [s|]; [|reflexivity].
  fold (is_mileage_text (strip s)).
  destruct (is_mileage_text (strip s)); [reflexivity|exact IH].
Qed.

Lemma first_accepted_accepts (accept : string -> bool) (elements : list WebElement)
    (x : string) :
  first_accepted accept elements = Returns (Some x) -> accept x = true.
Proof.
  induction elements as [|e es IH]; cbn [first_accepted]; [discriminate|].
  destruct (text e) as [s|]; [|discriminate].
  destruct (accept (strip s)) eqn:E; [|exact IH].
  intros H. now injection H as <-.
Qed.

Lemma location_text_not_sentinel (x : string) :
  is_location_text x = true -> (x =? "N/A") = false.
Proof.
  intros H. destruct (x =? "N/A") eqn:E; [|reflexivity].
  apply String.eqb_eq in E. subst x. discriminate H.
Qed.

Lemma build_listing_fields (link : WebElement) (u : value) :
  FB.build_listing link u
  = fb_record u (or_not_available (title_of link)) (or_not_available (price_of link))
      (or_not_available (mileage_of link)) (or_not_available (location_of link)).
Proof.
  unfold FB.build_listing.
  change (FB.unknown_listing u) with (fb_record u "N/A" "N/A" "N/A" "N/A").
  assert (Hp : FB.set_price link (fb_record u "N/A" "N/A" "N/A" "N/A")
               = fb_record u "N/A" (or_not_available (price_of link)) "N/A" "N/A").
  { unfold FB.set_price, price_of.
    destruct (FB.find_price_elements link) as [es|]; [|reflexivity].
    rewrite pick_price_field.
    now destruct (found (first_accepted FB.looks_like_price es)). }
  rewrite Hp. clear Hp. set (p := or_not_available (price_of link)).
  assert (Ht : FB.set_image_title link (fb_record u "N/A" p "N/A" "N/A")
               = fb_record u (or_not_available (title_of link)) p "N/A" "N/A").
  { unfold FB.set_image_title, title_of.
    destruct (find_elements link TAG_NAME "img") as [[|img imgs]|];
      try reflexivity.
    destruct (get_attribute img "alt") as [[|alt]|]; try reflexivity.
    now destruct (nonempty alt). }
  rewrite Ht. clear Ht. set (t := or_not_available (title_of link)).
  unfold FB.set_location_and_mileage, mileage_of, location_of, mileage_search.
  destruct (find_elements link XPATH FB.location_xpath) as [es|]; [|reflexivity].
  rewrite pick_location_field.
  destruct (first_accepted is_location_text es) as [[x|]|] eqn:Ex; [| |reflexivity].
  - apply first_accepted_accepts in Ex.
    destruct (mentions_miles x).
    + change (value_eqb (item (fb_record u t p x "N/A") "mileage") FB.not_available)
        with (x =? "N/A").
      now rewrite (location_text_not_sentinel x Ex).
    + change (value_eqb (item (fb_record u t p "N/A" x) "mileage") FB.not_available)
        with true. cbn iota.
      destruct (find_elements link XPATH FB.mileage_xpath) as [ms|]; [|reflexivity].
      rewrite pick_mileage_field.
      now destruct (found (first_accepted is_mileage_text ms)).
  - change (value_eqb (item (fb_record u t p "N/A" "N/A") "mileage") FB.not_available)
      with true. cbn iota.
    destruct (find_elements link XPATH FB.mileage_xpath) as [ms|]; [|reflexivity].
    rewrite pick_mileage_field.
    now destruct (found (first_accepted is_mileage_text ms)).
Qed.

(** C1, amended.  Every record of the enumerate-then-visit pipeline has the
    nineteen keys of the schema, in the schema's order, each with a string
    (never [None]); a one-selector field whose element is missing, the year,
    make and model of a title that does not parse, a location with no part
    found, a map link and a posting date not found are the empty string.
    Every record of the bulk pipeline has the five keys url, title, price,
    mileage and location, the last four with a string: field by field, what
    the card gives for it, and [N/A] when the card gives nothing (no first
    image with a non-empty [alt]; no text that passes the price test; no
    text that passes the location or the mileage test).  A title taken from
    an [alt] of white space only is the empty string. *)
Theorem records_have_their_pipeline_fields :
  (forall (urljoin : string -> string -> string)
          (browse : string -> outcome Page) (now : nat -> string)
          (chrome_starts : bool) (search_url : string)
          (max_listings : option nat) (d : dict),
      In d (CL.scrape_craigslist urljoin browse now chrome_starts search_url
              max_listings) ->
      keys d = listing_fields /\
      (forall k, In k listing_fields -> exists s, dict_get d k = Some (PyStr s)) /\
      exists listing_url index driver,
        browse listing_url = Returns driver /\
        d = built_record now listing_url index driver /\
        (forall k sel,
            In (k, sel) CL.simple_fields ->
            driver CSS_SELECTOR sel = Returns [] \/
            driver CSS_SELECTOR sel = Raises ->
            dict_get d k = Some (PyStr EmptyString)) /\
        (Re.title_match (CL.find_title driver) = None ->
         dict_get d "year" = Some (PyStr EmptyString) /\
         dict_get d "make" = Some (PyStr EmptyString) /\
         dict_get d "model" = Some (PyStr EmptyString)) /\
        (CL.find_location_parts driver = [] ->
         dict_get d "location" = Some (PyStr EmptyString)) /\
        (driver CSS_SELECTOR ".mapaddress a" = Returns [] \/
         driver CSS_SELECTOR ".mapaddress a" = Raises ->
         dict_get d "google_maps_link" = Some (PyStr EmptyString)) /\
        (CL.find_date_posted driver = EmptyString ->
         dict_get d "date_posted" = Some (PyStr EmptyString))) /\
  (forall (w : FB.World) (marketplace_url : string) (n : nat) (d : dict),
      In d (fst (FB.scrape_facebook_marketplace w marketplace_url n)) ->
      keys d = facebook_fields /\
      (forall k, In k ["title"; "price"; "mileage"; "location"] ->
                 exists s, dict_get d k = Some (PyStr s)) /\
      exists link u,
        get_attribute link "href" = Returns u /\
        dict_get d "url" = Some u /\
        d = FB.build_listing link u /\
        dict_get d "title" = Some (PyStr (or_not_available (title_of link))) /\
        dict_get d "price" = Some (PyStr (or_not_available (price_of link))) /\
        dict_get d "mileage" = Some (PyStr (or_not_available (mileage_of link))) /\
        dict_get d "location" = Some (PyStr (or_not_available (location_of link))) /\
        (forall img imgs alt,
            find_elements link TAG_NAME "img" = Returns (img :: imgs) ->
            get_attribute img "alt" = Returns (PyStr alt) ->
            nonempty alt = true -> strip alt = EmptyString ->
            dict_get d "title" = Some (PyStr EmptyString)) /\
        ((forall by_ sel, find_elements link by_ sel = Returns []) ->
         d = fb_record u "N/A" "N/A" "N/A" "N/A")).
Proof.
  split.
  - intros urljoin browse now chrome_starts search_url max_listings d Hin.
    apply scrape_craigslist_built in Hin
      as (listing_url & index & driver & Hb & ->).
    split; [reflexivity|].
    split; [intros k; apply built_record_strings|].
    exists listing_url, index, driver.
    split; [exact Hb|]. split; [reflexivity|].
    split; [|split; [|split; [|split]]].
    + intros k sel Hks Hmiss. unfold CL.simple_fields in Hks. cbn [In] in Hks.
      repeat (destruct Hks as [Hks|Hks];
              [injection Hks as <- <-;
               cbn [built_record dict_get String.eqb Ascii.eqb Bool.eqb];
               now rewrite (safe_find_element_text_missing driver _ Hmiss)|]).
      contradiction.
    + intros Hm. unfold built_record, parsed_title. rewrite Hm.
      destruct (nonempty (CL.find_title driver)); repeat split.
    + intros Hl. unfold built_record, shown_location. now rewrite Hl.
    + intros Hmiss. unfold built_record.
      rewrite safe_find_element_attribute_eq.
      unfold page_find_element, first_of.
      change (locator "css") with CSS_SELECTOR.
      destruct Hmiss as [Hmiss|Hmiss]; now rewrite Hmiss.
    + intros Hd. unfold built_record. now rewrite Hd.
  - intros w marketplace_url n d Hin.
    apply scrape_facebook_marketplace_built in Hin as (link & u & Hu & ->).
    destruct (build_listing_shape link u) as (t & p & m & lo & E & _).
    split; [now rewrite E|].
    split.
    + intros k Hk. rewrite E. cbn [In] in Hk.
      repeat (destruct Hk as [<-|Hk]; [eexists; reflexivity|]).
      contradiction.
    + exists link, u. split; [exact Hu|]. split; [now rewrite E|].
      split; [reflexivity|].
      rewrite build_listing_fields.
      split; [reflexivity|]. split; [reflexivity|].
      split; [reflexivity|]. split; [reflexivity|].
      split.
      { intros img imgs alt Himg Halt Hne Hblank.
        unfold title_of. rewrite Himg, Halt, Hne, Hblank. reflexivity. }
      rewrite <- build_listing_fields.
      intros Hnone.
      unfold FB.build_listing, FB.set_location_and_mileage, FB.set_image_title,
        FB.set_price, FB.find_price_elements.
      rewrite !Hnone. reflexivity.
Qed.

(** * Further properties of the code *)

(** ** When the scroll loop stops early *)

(** X1. The scroll loop is left through [break] exactly when, within the
    allowed number of polls, three consecutive polls each repeat the count
    before them (the first poll being compared with 0); it is then left at
    the first such window, with as many polls made as the window's end. *)
Theorem early_stop_iff_three_repeats (count : nat -> nat) (scroll_attempts : nat) :
  let p := snd (FB.wait_and_scroll count scroll_attempts) in
  (FB.stalled p = true <->
   exists m, m <= scroll_attempts /\ three_repeats count m) /\
  (FB.stalled p = true ->
   three_repeats count (FB.polls p) /\
   forall m, m < FB.polls p -> ~ three_repeats count m).
Proof.
  cbn zeta. unfold FB.wait_and_scroll. cbn [snd].
  destruct (scroll_loop_stall count scroll_attempts FB.scroll_start
              (scroll_start_consistent count)) as [H1 H2].
  cbn [FB.polls FB.scroll_start] in H1, H2.
  split; [split|].
  - intros H. destruct (H1 H) as (Hw & Hb & _).
    eexists. split; [|exact Hw]. lia.
  - intros (m & Hm & Hw).
    destruct (FB.stalled (FB.scroll_loop count scroll_attempts FB.scroll_start))
      eqn:E; [reflexivity|].
    exfalso. apply (H2 eq_refl m); [lia|exact Hw].
  - intros H. destruct (H1 H) as (Hw & _ & Hmin). now split.
Qed.

(** X2. A feed whose count changes at every poll is scrolled the full
    number of attempts: the loop is not left early and sends one scroll
    command per attempt. *)
Theorem changing_feed_uses_every_attempt (count : nat -> nat) (scroll_attempts : nat) :
  (forall k, k < scroll_attempts -> count k <> seen_before count k) ->
  let p := snd (FB.wait_and_scroll count scroll_attempts) in
  FB.stalled p = false /\
  FB.attempts p = scroll_attempts /\
  FB.scrolls p = scroll_attempts.
Proof.
  intros Hch. cbn zeta. unfold FB.wait_and_scroll. cbn [snd].
  destruct (scroll_loop_stall count scroll_attempts FB.scroll_start
              (scroll_start_consistent count)) as [H1 _].
  pose proof (scroll_loop_outcome count scroll_attempts FB.scroll_start
                eq_refl (Nat.lt_0_succ 2) eq_refl eq_refl) as Ho.
  cbn zeta in Ho. cbn [FB.attempts FB.polls FB.scroll_start] in Ho, H1.
  destruct Ho as (_ & _ & [(Hs & _)|(Hs & _ & Ha & Hsc)]).
  - exfalso. destruct (H1 Hs) as ((H3 & Hw) & Hb & _).
    apply (Hch (FB.polls (FB.scroll_loop count scroll_attempts FB.scroll_start) - 1));
      [lia|]. apply Hw. lia.
  - repeat split; [assumption|lia|lia].
Qed.

(** X3. On a feed whose count never changes the loop stops by itself as
    soon as the attempts allow: after 3 scrolls when the count is not 0
    (the first poll differs from the initial 0), after 2 when it is 0; with
    fewer attempts every attempt scrolls.  The constant is returned. *)
Theorem constant_feed_scrolls (c scroll_attempts : nat) :
  let '(final_count, p) := FB.wait_and_scroll (fun _ => c) scroll_attempts in
  final_count = c /\
  FB.scrolls p = Nat.min scroll_attempts (if (c =? 0)%nat then 2 else 3) /\
  (FB.stalled p = true <-> (if (c =? 0)%nat then 3 else 4) <= scroll_attempts).
Proof.
  unfold FB.wait_and_scroll.
  destruct (c =? 0)%nat eqn:Ec.
  - apply Nat.eqb_eq in Ec. subst c.
    destruct scroll_attempts as [|[|[|n]]];
      (split; [reflexivity|]); (split; [reflexivity|]);
      cbn; split; intros H; try discriminate; try reflexivity; lia.
  - destruct scroll_attempts as [|[|[|[|n]]]];
      repeat (rewrite scroll_loop_turn;
              cbn [FB.polls FB.last_count FB.no_change_count FB.attempts
                   FB.scrolls FB.scroll_start];
              rewrite ?Ec, ?Nat.eqb_refl; cbn [Nat.leb]);
      cbn [FB.scroll_loop FB.scrolls FB.stalled FB.scroll_start Nat.min];
      (split; [reflexivity|]); (split; [reflexivity|]);
      split; intros H; try discriminate; try reflexivity; lia.
Qed.

(** ** Counting and extracting the listings of a feed *)

Lemma fold_max_largest (answer : string -> outcome (list WebElement))
    (selectors : list string) :
  forall acc,
    let r := fold_left
               (fun max_count selector =>
                  match answer selector with
                  | Raises => max_count
                  | Returns elements => Nat.max max_count (List.length elements)
                  end) selectors acc in
    acc <= r /\
    (forall sel els, In sel selectors -> answer sel = Returns els ->
                     List.length els <= r) /\
    (r = acc \/
     exists sel els, In sel selectors /\ answer sel = Returns els /\
                     List.length els = r).
Proof.
  induction selectors as [|s rest IH]; intros acc; cbn [fold_left]; cbn zeta.
  - split; [lia|]. split; [intros sel els []|now left].
  - destruct (answer s) as [els0|] eqn:Es.
    + destruct (IH (Nat.max acc (List.length els0))) as (H1 & H2 & H3).
      cbn zeta in H1, H2, H3. split; [lia|]. split.
      * intros sel els [<-|Hin] Hsel.
        -- rewrite Es in Hsel. injection Hsel as <-. lia.
        -- now apply (H2 sel els).
      * destruct H3 as [H3|(sel & els & Hin & Hsel & Hlen)].
        -- destruct (Nat.max_spec acc (List.length els0)) as [[_ Hm]|[_ Hm]].
           ++ right. exists s, els0. split; [now left|]. split; [exact Es|]. lia.
           ++ left. lia.
        -- right. exists sel, els. split; [now right|]. now split.
    + destruct (IH acc) as (H1 & H2 & H3). cbn zeta in H1, H2, H3.
      split; [exact H1|]. split.
      * intros sel els [<-|Hin] Hsel; [congruence|now apply (H2 sel els)].
      * destruct H3 as [H3|(sel & els & Hin & Hsel & Hlen)]; [now left|].
        right. exists sel, els. split; [now right|]. now split.
Qed.

Lemma listing_count_is_largest_answer_aux (page : Page) :
  (forall links,
      page CSS_SELECTOR FB.item_links = Returns links ->
      List.length links <= FB.get_listing_count (Some page) /\
      (forall sel els,
          In sel FB.container_selectors ->
          page CSS_SELECTOR sel = Returns els ->
          List.length els <= FB.get_listing_count (Some page)) /\
      (exists sel els,
          In sel FB.container_selectors /\
          page CSS_SELECTOR sel = Returns els /\
          List.length els = FB.get_listing_count (Some page))) /\
  (page CSS_SELECTOR FB.item_links = Raises ->
   FB.get_listing_count (Some page) = 0).
Proof.
  split.
  - intros links Hl. unfold FB.get_listing_count. rewrite Hl.
    destruct (fold_max_largest (page CSS_SELECTOR) FB.container_selectors 0)
      as (_ & H2 & H3). cbn zeta in H2, H3.
    assert (Hfirst : In FB.item_links FB.container_selectors) by now left.
    split; [exact (H2 _ _ Hfirst Hl)|]. split; [exact H2|].
    destruct H3 as [H3|H3]; [|exact H3].
    exists FB.item_links, links. split; [exact Hfirst|]. split; [exact Hl|].
    pose proof (H2 _ _ Hfirst Hl) as Hle. lia.
  - intros Hr. unfold FB.get_listing_count. now rewrite Hr.
Qed.

(** X4. The listing count is the largest answer among the four container
    selectors: no selector that answers finds more elements, one of them
    finds exactly that many, and in particular the count is at least the
    number of item links.  It is 0 without a browser and whenever the first
    item-link query raises, whatever the other selectors would find. *)
Theorem listing_count_is_largest_answer (page : Page) :
  (forall links,
      page CSS_SELECTOR FB.item_links = Returns links ->
      List.length links <= FB.get_listing_count (Some page) /\
      (forall sel els,
          In sel FB.container_selectors ->
          page CSS_SELECTOR sel = Returns els ->
          List.length els <= FB.get_listing_count (Some page)) /\
      (exists sel els,
          In sel FB.container_selectors /\
          page CSS_SELECTOR sel = Returns els /\
          List.length els = FB.get_listing_count (Some page))) /\
  (page CSS_SELECTOR FB.item_links = Raises ->
   FB.get_listing_count (Some page) = 0) /\
  FB.get_listing_count None = 0.
Proof.
  destruct (listing_count_is_largest_answer_aux page) as [H1 H2].
  split; [exact H1|]. split; [exact H2|reflexivity].
Qed.

Lemma first_seen_length (links : list (WebElement * value)) :
  forall seen, List.length (first_seen seen links) <= List.length links.
Proof.
  induction links as [|[l u] rest IH]; intros seen; cbn [first_seen List.length].
  - lia.
  - destruct (existsb (value_eqb u) seen).
    + specialize (IH seen). lia.
    + cbn [List.length]. specialize (IH (u :: seen)). lia.
Qed.

Lemma readable_length (links : list WebElement) :
  List.length (readable links) <= List.length links.
Proof.
  induction links as [|l rest IH]; cbn [readable List.length]; [lia|].
  destruct (get_attribute l "href"); cbn [List.length]; lia.
Qed.

(** X5. The bulk pass never yields more records than the listing count of
    the same page; so a page that fails the readiness probe (count 0)
    yields no record. *)
Theorem records_bounded_by_listing_count (driver : option Page) :
  List.length (FB.extract_all_listings driver) <= FB.get_listing_count driver /\
  (FB.get_listing_count driver = 0 -> FB.extract_all_listings driver = []).
Proof.
  assert (H : List.length (FB.extract_all_listings driver)
              <= FB.get_listing_count driver).
  { destruct driver as [page|]; [|cbn; lia].
    destruct (page CSS_SELECTOR FB.item_links) as [links|] eqn:El.
    - rewrite (extract_all_listings_first_seen page links El), length_map.
      pose proof (first_seen_length (readable links) []) as H1.
      pose proof (readable_length links) as H2.
      pose proof (proj1 (proj1 (listing_count_is_largest_answer_aux page) links El)) as H3.
      lia.
    - unfold FB.extract_all_listings. rewrite El. cbn. lia. }
  split; [exact H|].
  intros H0. rewrite H0 in H.
  destruct (FB.extract_all_listings driver); [reflexivity|cbn in H; lia].
Qed.

(** ** The fields of a bulk record *)





Lemma prefix_contains (needle hay : string) :
  String.prefix needle hay = true -> contains needle hay = true.
Proof. destruct hay; cbn [contains]; intros ->; reflexivity. Qed.

(** A text that contains a needle contains the needle without its first
    character. *)
Lemma contains_tail (a : ascii) (needle hay : string) :
  contains (String a needle) hay = true -> contains needle hay = true.
Proof.
  induction hay as [|c h IH]; cbn [contains String.prefix].
  - discriminate.
  - intros H. apply orb_true_iff in H as [H|H]; apply orb_true_iff; right.
    + destruct (ascii_dec a c); [|discriminate]. now apply prefix_contains.
    + auto.
Qed.

Lemma pick_location_props (text_elements : list WebElement)
    (u : value) (t p m lo : string) :
  match FB.pick_location text_elements (fb_record u t p m lo) with
  | Returns d =>
      d = fb_record u t p m lo \/
      (exists m', d = fb_record u t p m' lo /\
                  contains "mile" (lower m') = true /\
                  len m' < 50) \/
      (exists lo', d = fb_record u t p m lo' /\
                   contains ", " lo' = true /\
                   len lo' < 50 /\
                   contains "mile" (lower lo') = false)
  | Raises => True
  end.
Proof.
  induction text_elements as [|e es IH]; cbn [FB.pick_location].
  - now left.
  - destruct (text e) as [s|]; [|exact I].
    destruct (contains ", " (strip s)) eqn:Ec; cbn [andb]; [|exact IH].
    destruct (len (strip s) <? 50)%nat eqn:El; [|exact IH].
    apply Nat.ltb_lt in El.
    destruct (contains "mile" (lower (strip s))) eqn:Em; cbn [orb].
    + right. left. now exists (strip s).
    + destruct (contains "k mile" (lower (strip s))) eqn:Ek.
      * do 2 apply contains_tail in Ek. congruence.
      * right. right. now exists (strip s).
Qed.

Lemma pick_mileage_props (mileage_elements : list WebElement)
    (u : value) (t p m lo : string) :
  FB.pick_mileage mileage_elements (fb_record u t p m lo) = fb_record u t p m lo \/
  exists m', FB.pick_mileage mileage_elements (fb_record u t p m lo)
             = fb_record u t p m' lo /\
             contains "mile" (lower m') = true /\
             len m' < 30.
Proof.
  induction mileage_elements as [|e es IH]; cbn [FB.pick_mileage].
  - now left.
  - destruct (text e) as [s|]; [|now left].
    destruct (contains "mile" (lower (strip s))) eqn:Em; cbn [andb]; [|exact IH].
    destruct (len (strip s) <? 30)%nat eqn:El; [|exact IH].
    apply Nat.ltb_lt in El. right. now exists (strip s).
Qed.

(** What the location-and-mileage block can leave in a record that came
    in with both fields unknown. *)
Lemma set_location_and_mileage_props (link : WebElement)
    (u : value) (t p : string) :
  exists m lo,
    FB.set_location_and_mileage link (fb_record u t p "N/A" "N/A")
    = fb_record u t p m lo /\
    (m = "N/A" \/ (contains "mile" (lower m) = true /\ len m < 50)) /\
    (lo = "N/A" \/
     (contains ", " lo = true /\ len lo < 50 /\
      contains "mile" (lower lo) = false)).
Proof.
  unfold FB.set_location_and_mileage.
  destruct (find_elements link XPATH FB.location_xpath) as [es|];
    [|exists "N/A", "N/A"; auto].
  pose proof (pick_location_props es u t p "N/A" "N/A") as H.
  destruct (FB.pick_location es (fb_record u t p "N/A" "N/A")) as [d|];
    [|exists "N/A", "N/A"; auto].
  destruct H as [->|[(m1 & -> & Hm1 & Hl1)|(lo1 & -> & Hc & Hl & Hn)]].
  - change (value_eqb (item (fb_record u t p "N/A" "N/A") "mileage")
              FB.not_available) with true. cbn iota.
    destruct (find_elements link XPATH FB.mileage_xpath) as [ms|];
      [|exists "N/A", "N/A"; auto].
    destruct (pick_mileage_props ms u t p "N/A" "N/A")
      as [->|(m2 & -> & Hm2 & Hl2)].
    + exists "N/A", "N/A". auto.
    + exists m2, "N/A". split; [reflexivity|]. split; [right; split; [assumption|lia]|auto].
  - exists m1, "N/A".
    assert (Hrest :
      (if value_eqb (item (fb_record u t p m1 "N/A") "mileage") FB.not_available
       then match find_elements link XPATH FB.mileage_xpath with
            | Returns mileage_elements =>
                FB.pick_mileage mileage_elements (fb_record u t p m1 "N/A")
            | Raises => fb_record u t p m1 "N/A"
            end
       else fb_record u t p m1 "N/A") = fb_record u t p m1 "N/A").
    { destruct (value_eqb (item (fb_record u t p m1 "N/A") "mileage")
                  FB.not_available) eqn:E; [|reflexivity].
      change (item (fb_record u t p m1 "N/A") "mileage") with (PyStr m1) in E.
      apply value_eqb_eq in E. injection E as ->. discriminate Hm1. }
    rewrite Hrest. split; [reflexivity|]. split; [right; now split|now left].
  - change (value_eqb (item (fb_record u t p "N/A" lo1) "mileage")
              FB.not_available) with true. cbn iota.
    destruct (find_elements link XPATH FB.mileage_xpath) as [ms|].
    + destruct (pick_mileage_props ms u t p "N/A" lo1)
        as [->|(m2 & -> & Hm2 & Hl2)].
      * exists "N/A", lo1. split; [reflexivity|]. split; [now left|right; auto].
      * exists m2, lo1. split; [reflexivity|].
        split; [right; split; [assumption|lia]|right; auto].
    + exists "N/A", lo1. split; [reflexivity|]. split; [now left|right; auto].
Qed.

(** X7. In every record of the bulk pass the mileage is [N/A] or a text
    shorter than 50 characters that mentions miles, and the location is
    [N/A] or a text shorter than 50 characters with a comma and a space and
    no mention of miles; so a record never shows the same text as both. *)
Theorem mileage_and_location_well_formed (driver : option Page) (d : dict) :
  In d (FB.extract_all_listings driver) ->
  exists m lo,
    item d "mileage" = PyStr m /\
    item d "location" = PyStr lo /\
    (m <> "N/A" ->
     contains "mile" (lower m) = true /\ len m < 50) /\
    (lo <> "N/A" ->
     contains ", " lo = true /\ len lo < 50 /\
     contains "mile" (lower lo) = false) /\
    (m <> "N/A" -> lo <> "N/A" -> m <> lo).
Proof.
  intros Hin.
  apply extract_all_listings_built in Hin as (link & u & _ & ->).
  unfold FB.build_listing.
  change (FB.unknown_listing u) with (fb_record u "N/A" "N/A" "N/A" "N/A").
  destruct (set_price_shape link u "N/A" "N/A" "N/A" "N/A") as (p & -> & _).
  destruct (set_image_title_shape link u "N/A" p "N/A" "N/A") as (t & ->).
  destruct (set_location_and_mileage_props link u t p) as (m & lo & -> & Hm & Hlo).
  exists m, lo. split; [reflexivity|]. split; [reflexivity|].
  split; [|split].
  - intros Hne. destruct Hm as [->|Hm]; [contradiction|exact Hm].
  - intros Hne. destruct Hlo as [->|Hlo]; [contradiction|exact Hlo].
  - intros Hm' Hlo' ->.
    destruct Hm as [->|[Hm _]]; [contradiction|].
    destruct Hlo as [->|(_ & _ & Hlo)]; [contradiction|]. congruence.
Qed.

(** ** More on the listing URL discoverer *)

Section DiscoveryMore.
Variable urljoin : string -> string -> string.
Variable search_url : string.

Lemma detail_url_In (link : WebElement) (u : string) :
  In u (detail_url urljoin search_url link) ->
  exists href,
    get_attribute link "href" = Returns (PyStr href) /\
    contains "/d/" href = true /\
    u = urljoin search_url href.
Proof.
  unfold detail_url.
  destruct (get_attribute link "href") as [[|href]|]; try (intros []).
  destruct (nonempty href && contains "/d/" href) eqn:E; [|intros []].
  apply andb_true_iff in E as [_ E].
  intros [<-|[]]. now exists href.
Qed.

Lemma document_urls_origin (driver : Page) (u : string) :
  In u (document_urls urljoin search_url driver) ->
  exists containers container link href,
    In container containers /\
    ((CL.ask driver CL.q_result_node = Returns containers /\
      exists links,
        find_elements container CSS_SELECTOR "a.cl-app-anchor" = Returns links /\
        In link links) \/
     ((CL.ask driver CL.q_search_result = Returns containers \/
       CL.ask driver CL.q_data_pid = Returns containers) /\
      find_element container CSS_SELECTOR "a" = Returns link)) /\
    get_attribute link "href" = Returns (PyStr href) /\
    contains "/d/" href = true /\
    u = urljoin search_url href.
Proof.
  unfold document_urls. rewrite !in_app_iff, !in_flat_map.
  intros [(node & Hn & H)|[(c & Hc & H)|(c & Hc & H)]].
  - destruct (CL.ask driver CL.q_result_node) as [nodes|] eqn:Ea; [|destruct Hn].
    cbn [found_or_none] in Hn. unfold node_urls in H.
    destruct (find_elements node CSS_SELECTOR "a.cl-app-anchor") as [links|] eqn:El;
      [|destruct H].
    apply in_flat_map in H as (link & Hl & H).
    apply detail_url_In in H as (href & H1 & H2 & H3).
    exists nodes, node, link, href. split; [exact Hn|].
    split; [left; split; [reflexivity|now exists links]|]. now repeat split.
  - destruct (CL.ask driver CL.q_search_result) as [cs|] eqn:Ea; [|destruct Hc].
    cbn [found_or_none] in Hc. unfold container_urls in H.
    destruct (find_element c CSS_SELECTOR "a") as [link|] eqn:El; [|destruct H].
    apply detail_url_In in H as (href & H1 & H2 & H3).
    exists cs, c, link, href. split; [exact Hc|].
    split; [right; split; [now left|exact El]|]. now repeat split.
  - destruct (CL.ask driver CL.q_data_pid) as [cs|] eqn:Ea; [|destruct Hc].
    cbn [found_or_none] in Hc. unfold container_urls in H.
    destruct (find_element c CSS_SELECTOR "a") as [link|] eqn:El; [|destruct H].
    apply detail_url_In in H as (href & H1 & H2 & H3).
    exists cs, c, link, href. split; [exact Hc|].
    split; [right; split; [now right|exact El]|]. now repeat split.
Qed.

(** X8. Every URL the discoverer returns comes from the page: it was read
    from the [href] of an anchor that the page shows below one of its
    containers (any [a.cl-app-anchor] of a result node, or the first anchor
    of a [.cl-search-result] or [[data-pid]] container), held the
    detail-page marker [/d/] there, and is that [href] resolved against the
    search URL. *)
Theorem discovered_urls_are_detail_links (driver : Page) (u : string) :
  In u (fst (CL.extract_listing_urls urljoin search_url driver)) ->
  exists containers container link href,
    In container containers /\
    ((CL.ask driver CL.q_result_node = Returns containers /\
      exists links,
        find_elements container CSS_SELECTOR "a.cl-app-anchor" = Returns links /\
        In link links) \/
     ((CL.ask driver CL.q_search_result = Returns containers \/
       CL.ask driver CL.q_data_pid = Returns containers) /\
      find_element container CSS_SELECTOR "a" = Returns link)) /\
    get_attribute link "href" = Returns (PyStr href) /\
    contains "/d/" href = true /\
    u = urljoin search_url href.
Proof.
  intros H. apply document_urls_origin.
  eapply subseq_In; [|exact H].
  apply extract_listing_urls_distinct_in_order.
Qed.

Lemma scan_links_at_most_one (links : list WebElement) (acc : list string) :
  List.length (CL.scan_links urljoin search_url links acc) <= S (List.length acc).
Proof.
  induction links as [|link rest IH]; cbn [CL.scan_links]; [lia|].
  destruct (get_attribute link "href") as [[|href]|]; try lia; try exact IH.
  destruct (nonempty href && contains "/d/" href); [|exact IH].
  destruct (in_list (urljoin search_url href) acc); [exact IH|].
  rewrite length_app. cbn. lia.
Qed.

Lemma visit_result_node_at_most_one (acc : list string) (node : WebElement) :
  List.length (CL.visit_result_node urljoin search_url acc node)
  <= S (List.length acc).
Proof.
  unfold CL.visit_result_node.
  destruct (find_elements node CSS_SELECTOR "a.cl-app-anchor");
    [apply scan_links_at_most_one|lia].
Qed.

Lemma visit_container_at_most_one (acc : list string) (c : WebElement) :
  List.length (CL.visit_container urljoin search_url acc c) <= S (List.length acc).
Proof.
  unfold CL.visit_container.
  destruct (find_element c CSS_SELECTOR "a") as [link|]; [|lia].
  destruct (get_attribute link "href") as [[|href]|]; try lia.
  destruct (nonempty href && contains "/d/" href); [|lia].
  destruct (in_list (urljoin search_url href) acc); [lia|].
  rewrite length_app. cbn. lia.
Qed.

Lemma fold_at_most_one_each (visit : list string -> WebElement -> list string) :
  (forall acc e, List.length (visit acc e) <= S (List.length acc)) ->
  forall es acc,
    List.length (fold_left visit es acc) <= List.length acc + List.length es.
Proof.
  intros Hv. induction es as [|e es IH]; intros acc; cbn [fold_left List.length].
  - lia.
  - specialize (IH (visit acc e)). specialize (Hv acc e). lia.
Qed.

(** X9. A container contributes at most one URL: each strategy returns no
    more URLs than the containers its query found, and the discoverer no
    more than the largest of the three container families. *)
Theorem at_most_one_url_per_container (driver : Page) :
  (forall urls, first_strategy urljoin search_url driver = Returns urls ->
     List.length urls
     <= List.length (found_or_none (CL.ask driver CL.q_result_node))) /\
  (forall q urls, fallback_strategy urljoin search_url driver q = Returns urls ->
     List.length urls <= List.length (found_or_none (CL.ask driver q))) /\
  List.length (fst (CL.extract_listing_urls urljoin search_url driver))
  <= Nat.max (List.length (found_or_none (CL.ask driver CL.q_result_node)))
       (Nat.max (List.length (found_or_none (CL.ask driver CL.q_search_result)))
          (List.length (found_or_none (CL.ask driver CL.q_data_pid)))).
Proof.
  assert (H1 : forall urls,
             first_strategy urljoin search_url driver = Returns urls ->
             List.length urls
             <= List.length (found_or_none (CL.ask driver CL.q_result_node))).
  { unfold first_strategy. intros urls.
    destruct (CL.ask driver CL.q_result_node) as [nodes|]; [|discriminate].
    intros H. injection H as <-. cbn [found_or_none].
    apply (fold_at_most_one_each _ visit_result_node_at_most_one nodes []). }
  assert (H2 : forall q urls,
             fallback_strategy urljoin search_url driver q = Returns urls ->
             List.length urls <= List.length (found_or_none (CL.ask driver q))).
  { unfold fallback_strategy. intros q urls.
    destruct (CL.ask driver q) as [cs|]; [|discriminate].
    intros H. injection H as <-. cbn [found_or_none].
    apply (fold_at_most_one_each _ visit_container_at_most_one cs []). }
  split; [exact H1|]. split; [exact H2|].
  rewrite extract_listing_urls_by_strategy.
  destruct (first_strategy urljoin search_url driver) as [[|u1 us1]|] eqn:E1;
    cbn [fst List.length]; try lia.
  - destruct (fallback_strategy urljoin search_url driver CL.q_search_result)
      as [[|u2 us2]|] eqn:E2; cbn [fst List.length]; try lia.
    + destruct (fallback_strategy urljoin search_url driver CL.q_data_pid)
        as [urls3|] eqn:E3; cbn [fst List.length]; try lia.
      specialize (H2 _ _ E3). lia.
    + specialize (H2 _ _ E2). cbn [List.length] in H2. lia.
  - specialize (H1 _ eq_refl). cbn [List.length] in H1. lia.
Qed.

Lemma visit_container_keeps (acc : list string) (c : WebElement) (x : string) :
  In x acc \/ In x (container_urls urljoin search_url c) ->
  In x (CL.visit_container urljoin search_url acc c).
Proof.
  unfold CL.visit_container, container_urls, detail_url.
  destruct (find_element c CSS_SELECTOR "a") as [link|]; [|intros [H|[]]; exact H].
  destruct (get_attribute link "href") as [[|href]|];
    try (intros [H|[]]; exact H).
  destruct (nonempty href && contains "/d/" href); [|intros [H|[]]; exact H].
  destruct (in_list (urljoin search_url href) acc) eqn:Ein.
  - intros [H|[<-|[]]]; [exact H|now apply in_list_spec].
  - intros [H|[<-|[]]]; apply in_app_iff; [now left|right; now left].
Qed.

Lemma fold_visit_container_keeps (cs : list WebElement) :
  forall acc x,
    In x acc \/ In x (flat_map (container_urls urljoin search_url) cs) ->
    In x (fold_left (CL.visit_container urljoin search_url) cs acc).
Proof.
  induction cs as [|c cs IH]; intros acc x; cbn [fold_left flat_map].
  - intros [H|[]]. exact H.
  - rewrite in_app_iff. intros [H|[H|H]]; apply IH.
    + left. apply visit_container_keeps. now left.
    + left. apply visit_container_keeps. now right.
    + now right.
Qed.

Lemma first_anchor_url (c link : WebElement) (href : string) :
  find_element c CSS_SELECTOR "a" = Returns link ->
  get_attribute link "href" = Returns (PyStr href) ->
  nonempty href = true ->
  contains "/d/" href = true ->
  container_urls urljoin search_url c = [urljoin search_url href].
Proof.
  intros Hl Hh Hn Hd. unfold container_urls, detail_url.
  now rewrite Hl, Hh, Hn, Hd.
Qed.

(** X10. The fallback loops read one anchor per container, the first, and
    lose nothing of what they read: when the [.cl-search-result] containers
    are gone through (or, if they yield no URL, the [[data-pid]] elements),
    the detail URL of the first anchor of each of them is in the
    discoverer's result.  Anchors after the first are not looked at. *)
Theorem fallback_keeps_every_detail_url (driver : Page) :
  first_strategy urljoin search_url driver = Returns [] ->
  (forall cs c link href,
      CL.ask driver CL.q_search_result = Returns cs ->
      In c cs ->
      find_element c CSS_SELECTOR "a" = Returns link ->
      get_attribute link "href" = Returns (PyStr href) ->
      nonempty href = true ->
      contains "/d/" href = true ->
      In (urljoin search_url href)
        (fst (CL.extract_listing_urls urljoin search_url driver))) /\
  (fallback_strategy urljoin search_url driver CL.q_search_result = Returns [] ->
   forall cs c link href,
     CL.ask driver CL.q_data_pid = Returns cs ->
     In c cs ->
     find_element c CSS_SELECTOR "a" = Returns link ->
     get_attribute link "href" = Returns (PyStr href) ->
     nonempty href = true ->
     contains "/d/" href = true ->
     In (urljoin search_url href)
       (fst (CL.extract_listing_urls urljoin search_url driver))) /\
  (forall c first_link others acc,
      find_elements c CSS_SELECTOR "a" = Returns (first_link :: others) ->
      CL.visit_container urljoin search_url acc c
      = first_new acc (detail_url urljoin search_url first_link)).
Proof.
  intros E1. rewrite extract_listing_urls_by_strategy, E1. split; [|split].
  - intros cs c link href Ha Hc Hl Hh Hn Hd. unfold fallback_strategy at 1.
    rewrite Ha.
    assert (Hx : In (urljoin search_url href)
                   (flat_map (container_urls urljoin search_url) cs)).
    { apply in_flat_map. exists c. split; [exact Hc|].
      rewrite (first_anchor_url c link href Hl Hh Hn Hd). now left. }
    pose proof (fold_visit_container_keeps cs [] _ (or_intror Hx)) as Hin.
    destruct (fold_left (CL.visit_container urljoin search_url) cs [])
      as [|u us]; [destruct Hin|exact Hin].
  - intros E2 cs c link href Ha Hc Hl Hh Hn Hd. rewrite E2.
    unfold fallback_strategy. rewrite Ha. cbn [fst].
    apply fold_visit_container_keeps. right.
    apply in_flat_map. exists c. split; [exact Hc|].
    rewrite (first_anchor_url c link href Hl Hh Hn Hd). now left.
  - intros c first_link others acc Hf.
    rewrite visit_container_first_new. unfold container_urls, find_element, first_of.
    now rewrite Hf.
Qed.

End DiscoveryMore.

(** ** The enumerate-then-visit run as a whole *)

Lemma subseq_length (A : Type) (xs ys : list A) :
  subseq xs ys -> List.length xs <= List.length ys.
Proof. intros H. induction H; cbn [List.length]; lia. Qed.

Lemma subseq_NoDup (A : Type) (xs ys : list A) :
  subseq xs ys -> NoDup ys -> NoDup xs.
Proof.
  intros H. induction H; intros Hn.
  - constructor.
  - inversion Hn; subst. auto.
  - inversion Hn as [|? ? Hx Hys]; subst. constructor; [|auto].
    intros Hin. apply Hx. eapply subseq_In; eassumption.
Qed.

Lemma subseq_firstn (A : Type) (n : nat) (xs : list A) : subseq (firstn n xs) xs.
Proof.
  revert n. induction xs as [|x xs IH]; intros [|n]; cbn [firstn];
    try apply subseq_nil_l.
  apply subseq_keep. apply IH.
Qed.

Lemma subseq_map (A B : Type) (f : A -> B) (xs ys : list A) :
  subseq xs ys -> subseq (map f xs) (map f ys).
Proof. intros H. induction H; cbn [map]; now constructor. Qed.

Lemma subseq_trans (A : Type) (xs ys zs : list A) :
  subseq xs ys -> subseq ys zs -> subseq xs zs.
Proof.
  intros H1 H2. revert xs H1. induction H2; intros xs0 H1.
  - exact H1.
  - apply subseq_skip. auto.
  - inversion H1; subst.
    + apply subseq_skip. auto.
    + apply subseq_keep. auto.
Qed.

Lemma NoDup_map_PyStr (xs : list string) : NoDup xs -> NoDup (map PyStr xs).
Proof.
  induction 1 as [|x xs Hx Hn IH]; cbn [map]; constructor; [|exact IH].
  intros H. apply in_map_iff in H as (y & Hy & Hin).
  injection Hy as ->. contradiction.
Qed.

Lemma limit_subseq (max_listings : option nat) (urls : list string) :
  subseq (CL.limit max_listings urls) urls.
Proof.
  unfold CL.limit. destruct max_listings as [m|]; [|apply subseq_refl].
  destruct (negb (m =? 0)%nat && (m <? List.length urls)%nat);
    [apply subseq_firstn|apply subseq_refl].
Qed.

Lemma limit_nil (max_listings : option nat) : CL.limit max_listings [] = [].
Proof.
  unfold CL.limit. destruct max_listings as [m|]; [|reflexivity].
  destruct m; reflexivity.
Qed.

Section Run.
Variable urljoin : string -> string -> string.
Variable browse : string -> outcome Page.
Variable now : nat -> string.

(** One turn appends nothing, or the record built for the URL visited. *)
Lemma visit_appends (all_listings : list dict) (i : nat) (url : string) :
  CL.visit browse now all_listings i url = all_listings \/
  exists driver,
    browse url = Returns driver /\
    CL.worth_keeping (Some (built_record now url i driver)) = true /\
    CL.visit browse now all_listings i url
    = all_listings ++ [built_record now url i driver].
Proof.
  unfold CL.visit.
  destruct (browse url) as [driver|] eqn:Hb.
  - rewrite (extract_listing_details_built browse now url i driver Hb).
    destruct (CL.worth_keeping (Some (built_record now url i driver))) eqn:Ew;
      [right; now exists driver|now left].
  - rewrite (extract_listing_details_raises browse now url i Hb). now left.
Qed.

Lemma visit_all_kept (urls : list string) :
  forall i all_listings,
    exists kept,
      CL.visit_all browse now urls i all_listings = all_listings ++ kept /\
      subseq (map url_of kept) (map PyStr urls).
Proof.
  induction urls as [|url rest IH]; intros i all_listings; cbn [CL.visit_all map].
  - exists []. rewrite app_nil_r. split; [reflexivity|constructor].
  - destruct (visit_appends all_listings i url) as [->|(driver & _ & _ & ->)].
    + destruct (IH (S i) all_listings) as (kept & -> & Hs).
      exists kept. split; [reflexivity|now apply subseq_skip].
    + destruct (IH (S i) (all_listings ++ [built_record now url i driver]))
        as (kept & -> & Hs).
      exists (built_record now url i driver :: kept).
      rewrite <- app_assoc. split; [reflexivity|].
      cbn [map]. change (url_of (built_record now url i driver)) with (PyStr url).
      now apply subseq_keep.
Qed.

Lemma discovered_NoDup (search_url : string) :
  NoDup (discovered urljoin browse search_url).
Proof.
  unfold discovered. destruct (browse search_url) as [page|]; [|constructor].
  apply extract_listing_urls_distinct_in_order.
Qed.

Lemma scrape_craigslist_urls (chrome_starts : bool) (search_url : string)
    (max_listings : option nat) :
  subseq (map url_of (CL.scrape_craigslist urljoin browse now chrome_starts
                        search_url max_listings))
    (map PyStr (CL.limit max_listings (discovered urljoin browse search_url))).
Proof.
  unfold CL.scrape_craigslist, discovered.
  destruct chrome_starts; cbn [negb]; [|apply subseq_nil_l].
  destruct (browse search_url) as [page|]; [|apply subseq_nil_l].
  destruct (fst (CL.extract_listing_urls urljoin search_url page))
    as [|u us]; [apply subseq_nil_l|].
  destruct (visit_all_kept (CL.limit max_listings (u :: us)) 0 [])
    as (kept & -> & Hs). exact Hs.
Qed.

(** X11. The records of a Craigslist run have pairwise different URLs and
    follow the order in which the discoverer listed them; there are never
    more records than discovered URLs. *)
Theorem record_urls_distinct_in_discovery_order (chrome_starts : bool)
    (search_url : string) (max_listings : option nat) :
  NoDup (map url_of (CL.scrape_craigslist urljoin browse now chrome_starts
                       search_url max_listings)) /\
  subseq (map url_of (CL.scrape_craigslist urljoin browse now chrome_starts
                        search_url max_listings))
    (map PyStr (discovered urljoin browse search_url)) /\
  List.length (CL.scrape_craigslist urljoin browse now chrome_starts
                 search_url max_listings)
  <= List.length (discovered urljoin browse search_url).
Proof.
  pose proof (scrape_craigslist_urls chrome_starts search_url max_listings) as Hs.
  assert (Hall : subseq
            (map url_of (CL.scrape_craigslist urljoin browse now chrome_starts
                           search_url max_listings))
            (map PyStr (discovered urljoin browse search_url))).
  { eapply subseq_trans; [exact Hs|]. apply subseq_map, limit_subseq. }
  split; [|split; [exact Hall|]].
  - eapply subseq_NoDup; [exact Hall|].
    apply NoDup_map_PyStr, discovered_NoDup.
  - apply subseq_length in Hall. now rewrite !length_map in Hall.
Qed.

(** X12. A positive [max_listings] bounds the number of records of a run;
    0 is read as no limit at all, like [None]. *)
Theorem max_listings_bounds_the_run (chrome_starts : bool) (search_url : string) :
  (forall m, 0 < m ->
     List.length (CL.scrape_craigslist urljoin browse now chrome_starts
                    search_url (Some m)) <= m) /\
  CL.scrape_craigslist urljoin browse now chrome_starts search_url (Some 0)
  = CL.scrape_craigslist urljoin browse now chrome_starts search_url None.
Proof.
  split; [|reflexivity].
  intros m Hm.
  pose proof (scrape_craigslist_urls chrome_starts search_url (Some m)) as Hs.
  apply subseq_length in Hs. rewrite !length_map in Hs.
  assert (Hl : List.length (CL.limit (Some m) (discovered urljoin browse search_url))
               <= m).
  { unfold CL.limit.
    destruct (m <? List.length (discovered urljoin browse search_url))%nat eqn:E.
    - destruct (m =? 0)%nat eqn:E0; cbn [negb andb].
      + apply Nat.eqb_eq in E0. lia.
      + rewrite length_firstn. lia.
    - apply Nat.ltb_ge in E. rewrite andb_false_r. exact E. }
  lia.
Qed.

Lemma visit_all_In_iff (urls : list string) :
  forall i all_listings d,
    In d (CL.visit_all browse now urls i all_listings) <->
    In d all_listings \/
    exists k url driver,
      nth_error urls k = Some url /\
      browse url = Returns driver /\
      d = built_record now url (i + k) driver /\
      CL.worth_keeping (Some d) = true.
Proof.
  induction urls as [|url rest IH]; intros i all_listings d; cbn [CL.visit_all].
  - split; [now left|].
    intros [H|(k & u & dr & Hk & _)]; [exact H|].
    destruct k; discriminate Hk.
  - rewrite IH. split.
    + intros [H|(k & u & dr & Hk & Hb & Hd & Hw)].
      * destruct (visit_appends all_listings i url)
          as [E|(driver & Hb & Hw & E)]; rewrite E in H; [now left|].
        apply in_app_iff in H as [H|[<-|[]]]; [now left|].
        right. exists 0, url, driver. rewrite Nat.add_0_r. now repeat split.
      * right. exists (S k), u, dr.
        replace (i + S k) with (S i + k) by lia. now repeat split.
    + intros [H|(k & u & dr & Hk & Hb & Hd & Hw)].
      * left. destruct (visit_appends all_listings i url)
          as [E|(driver & _ & _ & E)]; rewrite E; [exact H|].
        apply in_app_iff. now left.
      * destruct k as [|k].
        -- cbn [nth_error] in Hk. injection Hk as ->.
           rewrite Nat.add_0_r in Hd. subst d. left.
           unfold CL.visit.
           rewrite (extract_listing_details_built browse now u i dr Hb), Hw.
           apply in_app_iff. right. now left.
        -- right. exists k, u, dr.
           replace (S i + k) with (i + S k) by lia. now repeat split.
Qed.

(** X13. What a Craigslist run returns, exactly: a record is in the
    output if and only if Chrome started, the search page opened, and the
    record is the one built at some position of the (limited) URL list whose
    page opened and which passed the title-price-vin test.  A detail page
    that cannot be opened, or a record that fails the test, removes only its
    own URL from the output. *)
Theorem scrape_craigslist_output (chrome_starts : bool) (search_url : string)
    (max_listings : option nat) (d : dict) :
  In d (CL.scrape_craigslist urljoin browse now chrome_starts search_url
          max_listings) <->
  chrome_starts = true /\
  exists k url driver,
    nth_error (CL.limit max_listings (discovered urljoin browse search_url)) k
    = Some url /\
    browse url = Returns driver /\
    d = built_record now url k driver /\
    CL.worth_keeping (Some d) = true.
Proof.
  unfold CL.scrape_craigslist, discovered.
  destruct chrome_starts; cbn [negb].
  - destruct (browse search_url) as [page|].
    + destruct (fst (CL.extract_listing_urls urljoin search_url page))
        as [|u us] eqn:Eu.
      * split; [intros []|].
        intros (_ & k & url & dr & Hk & _).
        rewrite limit_nil in Hk. destruct k; discriminate Hk.
      * rewrite visit_all_In_iff. cbn [plus]. split.
        -- intros [[]|H]. split; [reflexivity|exact H].
        -- intros [_ H]. right. exact H.
    + split; [intros []|].
      intros (_ & k & url & dr & Hk & _).
      rewrite limit_nil in Hk. destruct k; discriminate Hk.
  - split; [intros []|intros [H _]; discriminate H].
Qed.

End Run.

(** ** More on the detail record builder *)

Lemma first_nonempty_of_four (a b c d : string) (pre post : list string) (t : string) :
  [a; b; c; d] = pre ++ t :: post ->
  (forall x, In x pre -> x = EmptyString) ->
  t <> EmptyString ->
  (let r := a in
   let r := if nonempty r then r else b in
   let r := if nonempty r then r else c in
   let r := if nonempty r then r else d in r) = t.
Proof.
  intros E Hpre Ht. cbn zeta.
  assert (Hn : nonempty t = true) by (destruct t; [contradiction|reflexivity]).
  destruct pre as [|x1 [|x2 [|x3 [|x4 pre]]]]; cbn [app] in E.
  - injection E as -> _.
    repeat first [rewrite Hn | progress cbn [nonempty]]. reflexivity.
  - injection E as -> -> _.
    rewrite (Hpre x1) by now left.
    repeat first [rewrite Hn | progress cbn [nonempty]]. reflexivity.
  - injection E as -> -> -> _.
    rewrite (Hpre x1) by now left. rewrite (Hpre x2) by (right; now left).
    repeat first [rewrite Hn | progress cbn [nonempty]]. reflexivity.
  - injection E as -> -> -> -> _.
    rewrite (Hpre x1) by now left. rewrite (Hpre x2) by (right; now left).
    rewrite (Hpre x3) by (right; right; now left).
    cbn [nonempty]. reflexivity.
  - exfalso. apply (f_equal (@List.length string)) in E.
    cbn [List.length] in E. rewrite length_app in E. cbn [List.length] in E. lia.
Qed.

Lemma all_empty_of_four (a b c d : string) :
  (let r := a in
   let r := if nonempty r then r else b in
   let r := if nonempty r then r else c in
   let r := if nonempty r then r else d in r) = EmptyString <->
  forall x, In x [a; b; c; d] -> x = EmptyString.
Proof.
  cbn zeta. split.
  - destruct a; cbn [nonempty]; [|discriminate].
    destruct b; cbn [nonempty]; [|discriminate].
    destruct c; cbn [nonempty]; [|discriminate].
    intros -> x [<-|[<-|[<-|[<-|[]]]]]; reflexivity.
  - intros H.
    rewrite (H a) by now left. cbn [nonempty].
    rewrite (H b) by (right; now left). cbn [nonempty].
    rewrite (H c) by (right; right; now left). cbn [nonempty].
    apply H. right; right; right; now left.
Qed.

(** X14. Strategy ordering in the two fallback chains of the builder: the
    title (and likewise the posting date) is the first non-empty answer
    among its four lookups, in their order, whatever the later lookups
    would answer; it is empty exactly when all four are. *)
Theorem first_nonempty_lookup_wins (driver : Page) :
  (forall pre t post,
      title_lookups driver = pre ++ t :: post ->
      (forall x, In x pre -> x = EmptyString) ->
      t <> EmptyString ->
      CL.find_title driver = t) /\
  (CL.find_title driver = EmptyString <->
   forall x, In x (title_lookups driver) -> x = EmptyString) /\
  (forall pre t post,
      date_lookups driver = pre ++ t :: post ->
      (forall x, In x pre -> x = EmptyString) ->
      t <> EmptyString ->
      CL.find_date_posted driver = t) /\
  (CL.find_date_posted driver = EmptyString <->
   forall x, In x (date_lookups driver) -> x = EmptyString).
Proof.
  unfold CL.find_title, CL.find_date_posted, title_lookups, date_lookups.
  split; [|split; [|split]].
  - intros pre t post. apply first_nonempty_of_four.
  - apply all_empty_of_four.
  - intros pre t post. apply first_nonempty_of_four.
  - apply all_empty_of_four.
Qed.

(** X15. Year, make and model of a record are either all empty or come
    from a title that parsed: then the year is exactly four characters, each
    a decimal digit, the make is a non-empty run of the letters A-Z and a-z,
    and the title starts with the year. *)
Theorem parsed_fields_well_formed
    (browse : string -> outcome Page) (now : nat -> string)
    (listing_url : string) (index : nat) (d : dict) :
  CL.extract_listing_details browse now listing_url index = Some d ->
  exists y mk mo,
    item d "year" = PyStr y /\
    item d "make" = PyStr mk /\
    item d "model" = PyStr mo /\
    ((y = EmptyString /\ mk = EmptyString /\ mo = EmptyString) \/
     (len y = 4 /\ all_chars char_isdecimal y = true /\
      0 < len mk /\ all_chars Re.letter mk = true /\
      exists rest, item d "title" = PyStr (y ++ rest)%string)).
Proof.
  intros H.
  destruct (browse listing_url) as [driver|] eqn:Hb.
  - rewrite (extract_listing_details_built browse now listing_url index driver Hb)
      in H. injection H as <-.
    unfold built_record, parsed_title, shown_title.
    destruct (nonempty (CL.find_title driver)) eqn:Et;
      [|eexists _, _, _; repeat split; now left].
    destruct (Re.title_match (CL.find_title driver)) as [[[g1 g2] g3]|] eqn:Em;
      [|eexists _, _, _; repeat split; now left].
    apply title_match_year in Em as (_ & _ & H1 & H2 & H3 & H4 & rest & Ht).
    exists g1, g2, (strip g3). repeat split. right.
    repeat split; try assumption.
    exists rest. cbn [item dict_get String.eqb Ascii.eqb Bool.eqb]. now rewrite Ht at 1.
  - rewrite (extract_listing_details_raises browse now listing_url index Hb) in H.
    discriminate H.
Qed.


(** ** More on the Facebook run *)

Lemma occurrences_app (p : FB.event -> bool) (l l' : list FB.event) :
  occurrences p (l ++ l') = occurrences p l + occurrences p l'.
Proof. unfold occurrences. now rewrite filter_app, length_app. Qed.

(** The headless attempt never asks for a login and never saves a session;
    it quits the browser at most once. *)
Lemma headless_attempt_log (w : FB.World) (marketplace_url : string) :
  occurrences is_login_required (snd (FB.headless_attempt w marketplace_url)) = 0 /\
  occurrences is_save (snd (FB.headless_attempt w marketplace_url)) = 0 /\
  occurrences is_quit (snd (FB.headless_attempt w marketplace_url)) <= 1.
Proof.
  unfold FB.headless_attempt.
  destruct (FB.session_file w); [|cbn; lia].
  destruct (FB.chrome w FB.Headless); try (cbn; lia).
  destruct (FB.load_session w); [|cbn; lia].
  destruct (FB.reachable w marketplace_url); [|cbn; lia].
  destruct (0 <? FB.get_listing_count (Some (FB.feed w 0)))%nat; cbn; lia.
Qed.

Lemma visible_mode_saves (w : FB.World) (marketplace_url : string) :
  occurrences is_save (snd (FB.visible_mode w marketplace_url)) <= 1 /\
  occurrences is_headless_start (snd (FB.visible_mode w marketplace_url)) = 0 /\
  (0 < occurrences is_save (snd (FB.visible_mode w marketplace_url)) ->
   FB.continue_clicked w = true).
Proof.
  unfold FB.visible_mode, FB.open_for_login.
  destruct (FB.login_clicked w);
    [destruct (FB.chrome w FB.Visible);
     [destruct (FB.reachable w FB.facebook_home)| |]|];
    cbn [fst snd];
    try (destruct (FB.fb_driver_ready w));
    try (destruct (FB.continue_clicked w));
    try (destruct (FB.fb_driver_instance w));
    try (destruct (FB.reachable w marketplace_url));
    cbn [fst snd app];
    cbv [occurrences filter is_save is_headless_start List.length];
    repeat split; try lia; try reflexivity; intros H; lia.
Qed.

(** The log of a run is the log of the headless attempt, followed by the
    log of visible mode when the attempt did not succeed. *)
Lemma scrape_facebook_marketplace_log (w : FB.World) (marketplace_url : string)
    (n : nat) :
  snd (FB.scrape_facebook_marketplace w marketplace_url n)
  = snd (FB.headless_attempt w marketplace_url) \/
  snd (FB.scrape_facebook_marketplace w marketplace_url n)
  = snd (FB.headless_attempt w marketplace_url)
    ++ snd (FB.visible_mode w marketplace_url).
Proof.
  unfold FB.scrape_facebook_marketplace.
  destruct (FB.headless_attempt w marketplace_url)
    as [[[[ok driver] observed]|] l]; cbn [snd]; [|now left].
  destruct ok; cbn [snd]; [now left|].
  destruct (FB.visible_mode w marketplace_url) as [[[d|]|] l'];
    cbn [snd]; now right.
Qed.

(** X17. In any run, whatever the browser and the user do, the login step
    is announced at most once, the browser is quit at most once, and the
    session is saved at most once, and only when the user pressed the
    continue button after the login step was announced. *)
Theorem one_login_step_one_save (w : FB.World) (marketplace_url : string) (n : nat) :
  let log := snd (FB.scrape_facebook_marketplace w marketplace_url n) in
  occurrences is_login_required log <= 1 /\
  occurrences is_quit log <= 1 /\
  occurrences is_save log <= 1 /\
  (0 < occurrences is_save log ->
   FB.continue_clicked w = true /\ occurrences is_login_required log = 1).
Proof.
  cbn zeta.
  destruct (headless_attempt_log w marketplace_url) as (Hl & Hs & Hq).
  destruct (visible_mode_log w marketplace_url)
    as (rest & Hv & Hvl & _ & _ & Hvq).
  destruct (visible_mode_saves w marketplace_url) as (Hvs & _ & Hvc).
  assert (Hlv : occurrences is_login_required
                  (snd (FB.visible_mode w marketplace_url)) = 1).
  { rewrite Hv. unfold occurrences in *. cbn [filter is_login_required List.length].
    now rewrite Hvl. }
  assert (Hqv : occurrences is_quit (snd (FB.visible_mode w marketplace_url)) = 0).
  { rewrite Hv. unfold occurrences in *. cbn [filter is_quit]. exact Hvq. }
  destruct (scrape_facebook_marketplace_log w marketplace_url n) as [-> | ->];
    rewrite ?occurrences_app.
  - repeat split; try lia.
  - repeat split; try lia. apply Hvc. lia.
Qed.


(** X19. The login fallback is not reached when opening the marketplace
    itself fails during the headless test: the exception ends the run with
    no record, the login step is not announced, and the headless browser is
    not quit by this call. *)
Theorem failed_navigation_ends_the_run
    (w : FB.World) (marketplace_url : string) (n : nat) (cookies : list string) :
  FB.session_file w = Some (Returns cookies) ->
  FB.chrome w FB.Headless = FB.Started ->
  FB.reachable w FB.facebook_home = true ->
  FB.reachable w marketplace_url = false ->
  FB.scrape_facebook_marketplace w marketplace_url n
  = ([], [FB.StartChrome FB.Headless; FB.LoadSession FB.Headless;
          FB.Get marketplace_url]).
Proof.
  intros Hfile Hchrome Hhome Hurl.
  unfold FB.scrape_facebook_marketplace, FB.headless_attempt, FB.load_session.
  now rewrite Hfile, Hchrome, Hhome, Hurl.
Qed.

(** X20. Without a saved session no headless browser is started: the run
    opens with the login step.  If the user has not pressed the login
    button and no browser is waiting from before, the run ends there with
    no record; the same holds after any failed headless attempt. *)
Theorem no_session_waits_for_login (w : FB.World) (marketplace_url : string) (n : nat) :
  (FB.session_file w = None ->
   exists rest,
     snd (FB.scrape_facebook_marketplace w marketplace_url n)
     = FB.LoginRequired :: rest /\
     occurrences is_headless_start
       (snd (FB.scrape_facebook_marketplace w marketplace_url n)) = 0) /\
  (0 < occurrences is_login_required
         (snd (FB.scrape_facebook_marketplace w marketplace_url n)) ->
   FB.login_clicked w = false ->
   FB.fb_driver_ready w = false ->
   fst (FB.scrape_facebook_marketplace w marketplace_url n) = [] /\
   exists before,
     snd (FB.scrape_facebook_marketplace w marketplace_url n)
     = before ++ [FB.LoginRequired]).
Proof.
  split.
  - intros Hfile.
    destruct (visible_mode_log w marketplace_url) as (rest & Hv & _).
    destruct (visible_mode_saves w marketplace_url) as (_ & Hh & _).
    unfold FB.scrape_facebook_marketplace, FB.headless_attempt.
    rewrite Hfile.
    destruct (FB.visible_mode w marketplace_url) as [[[d|]|] l];
      cbn [snd app] in *; subst l; exists rest; split; try reflexivity; exact Hh.
  - intros Hlogin Hclick Hready.
    destruct (headless_attempt_log w marketplace_url) as (Hl & _ & _).
    assert (Hvis : FB.visible_mode w marketplace_url
                   = (Returns None, [FB.LoginRequired])).
    { unfold FB.visible_mode, FB.open_for_login. now rewrite Hclick, Hready. }
    revert Hlogin. unfold FB.scrape_facebook_marketplace.
    destruct (FB.headless_attempt w marketplace_url)
      as [[[[ok driver] observed]|] l]; cbn [fst snd] in *.
    + destruct ok; cbn [fst snd].
      * intros H. lia.
      * rewrite Hvis. cbn [fst snd]. intros _. split; [reflexivity|now exists l].
    + intros H. lia.
Qed.

(** ** The sheet of a run *)

Lemma add_columns_fresh (ks : list string) :
  forall cols, NoDup (cols ++ ks) -> fold_left GS.add_column ks cols = cols ++ ks.
Proof.
  induction ks as [|k ks IH]; intros cols Hn; cbn [fold_left].
  - now rewrite app_nil_r.
  - assert (Hk : in_list k cols = false).
    { destruct (in_list k cols) eqn:E; [|reflexivity].
      apply in_list_spec in E. apply NoDup_remove_2 in Hn.
      exfalso. apply Hn. apply in_app_iff. now left. }
    unfold GS.add_column at 2. rewrite Hk.
    rewrite IH; rewrite <- app_assoc; [reflexivity|exact Hn].
Qed.

Lemma add_columns_present (ks : list string) :
  forall cols, (forall k, In k ks -> In k cols) ->
               fold_left GS.add_column ks cols = cols.
Proof.
  induction ks as [|k ks IH]; intros cols H; cbn [fold_left]; [reflexivity|].
  unfold GS.add_column at 2.
  assert (Hk : in_list k cols = true) by (apply in_list_spec, H; now left).
  rewrite Hk. apply IH. intros k' Hk'. apply H. now right.
Qed.

Lemma all_columns_uniform (ks : list string) (d : dict) (rest : list dict) :
  NoDup ks ->
  (forall x, In x (d :: rest) -> keys x = ks) ->
  GS.all_columns (d :: rest) = ks.
Proof.
  intros Hn Hk. unfold GS.all_columns. cbn [fold_left].
  rewrite (Hk d) by now left. rewrite (add_columns_fresh ks [] Hn). cbn [app].
  assert (Hrest : forall l, (forall x, In x l -> keys x = ks) ->
            fold_left (fun cols x => fold_left GS.add_column (keys x) cols) l ks = ks).
  { induction l as [|x l IHl]; intros Hl; cbn [fold_left]; [reflexivity|].
    rewrite (Hl x) by now left.
    rewrite add_columns_present by auto.
    apply IHl. intros y Hy. apply Hl. now right. }
  apply Hrest. intros x Hx. apply Hk. now right.
Qed.

Lemma sheet_data_uniform (ks : list string) (listings : list dict) :
  listings <> [] ->
  NoDup ks ->
  (forall x, In x listings -> keys x = ks) ->
  GS.sheet_data (GS.DataFrame listings) = ks :: map (sheet_row ks) listings.
Proof.
  intros Hne Hn Hk. destruct listings as [|d rest]; [contradiction|].
  unfold GS.sheet_data, GS.DataFrame. cbn [GS.columns GS.rows].
  rewrite (all_columns_uniform ks d rest Hn Hk).
  f_equal. rewrite map_map. apply map_ext. intros x.
  unfold sheet_row. now rewrite map_map.
Qed.

Lemma listing_fields_NoDup : NoDup listing_fields.
Proof.
  unfold listing_fields.
  repeat (constructor; [cbn [In]; intuition discriminate|]). constructor.
Qed.

Lemma facebook_fields_NoDup : NoDup facebook_fields.
Proof.
  unfold facebook_fields.
  repeat (constructor; [cbn [In]; intuition discriminate|]). constructor.
Qed.

Lemma publish_uploads (s : GS.Service) (listings : list dict)
    (sheet_name : string) (data : list (list string)) :
  In (GS.Update data) (snd (GS.publish s listings sheet_name)) ->
  data = GS.sheet_data (GS.DataFrame listings).
Proof.
  unfold GS.publish. destruct listings as [|d rest]; [intros []|].
  unfold GS.create_sheet_from_dataframe.
  destruct (List.length (GS.rows (GS.DataFrame (d :: rest))) =? 0)%nat;
    [intros []|].
  destruct (GS.has_client s); cbn [negb]; [|intros []].
  destruct (GS.create_ok s sheet_name); cbn [negb];
    [|intros [H|[]]; discriminate H].
  destruct (GS.clear_ok s); cbn [negb];
    [|intros [H|[H|[]]]; discriminate H].
  assert (Hshare : forall attempts,
            ~ In (GS.Update data) (snd (GS.try_shares s attempts))).
  { induction attempts as [|c cs IH]; cbn [GS.try_shares]; [intros []|].
    destruct (GS.share_ok s c); [intros [H|[]]; discriminate H|].
    destruct (GS.try_shares s cs) as [ok calls]. cbn [snd] in *.
    intros [H|H]; [discriminate H|contradiction]. }
  destruct (GS.update_ok s _); cbn [negb].
  - unfold GS._share_with_anyone.
    specialize (Hshare GS.share_attempts).
    destruct (GS.try_shares s GS.share_attempts) as [ok calls]. cbn [snd] in *.
    intros H. apply in_app_iff in H as [H|H]; [|contradiction].
    destruct H as [H|[H|[H|[H|[]]]]]; try discriminate H.
    now injection H as <-.
  - intros [H|[H|[H|[]]]]; try discriminate H. now injection H as <-.
Qed.

(** X21. The table uploaded for a run has a stable column set: for a
    Craigslist run the header row is the nineteen schema fields, for a
    Facebook run the five fields of the bulk records, and below it there is
    one row per record, in order, showing that record's value in every
    column (a missing value as [N/A]). *)
Theorem sheet_has_the_run_columns :
  (forall (urljoin : string -> string -> string)
          (browse : string -> outcome Page) (now : nat -> string)
          (chrome_starts : bool) (search_url : string)
          (max_listings : option nat) (s : GS.Service) (sheet_name : string)
          (data : list (list string)),
      In (GS.Update data)
        (snd (GS.publish s
                (CL.scrape_craigslist urljoin browse now chrome_starts
                   search_url max_listings) sheet_name)) ->
      data = listing_fields
             :: map (sheet_row listing_fields)
                  (CL.scrape_craigslist urljoin browse now chrome_starts
                     search_url max_listings)) /\
  (forall (w : FB.World) (marketplace_url : string) (n : nat)
          (s : GS.Service) (sheet_name : string) (data : list (list string)),
      In (GS.Update data)
        (snd (GS.publish s
                (fst (FB.scrape_facebook_marketplace w marketplace_url n))
                sheet_name)) ->
      data = facebook_fields
             :: map (sheet_row facebook_fields)
                  (fst (FB.scrape_facebook_marketplace w marketplace_url n))).
Proof.
  split.
  - intros urljoin browse now chrome_starts search_url max_listings s
      sheet_name data Hin.
    assert (Hne : CL.scrape_craigslist urljoin browse now chrome_starts
                    search_url max_listings <> []).
    { intros E. rewrite E in Hin. destruct Hin. }
    apply publish_uploads in Hin. subst data.
    apply sheet_data_uniform; [exact Hne|apply listing_fields_NoDup|].
    intros x Hx. apply scrape_craigslist_built in Hx as (u & i & dr & _ & ->).
    reflexivity.
  - intros w marketplace_url n s sheet_name data Hin.
    assert (Hne : fst (FB.scrape_facebook_marketplace w marketplace_url n) <> []).
    { intros E. rewrite E in Hin. destruct Hin. }
    apply publish_uploads in Hin. subst data.
    apply sheet_data_uniform; [exact Hne|apply facebook_fields_NoDup|].
    intros x Hx. apply scrape_facebook_marketplace_built in Hx as (l & u & _ & ->).
    destruct (build_listing_shape l u) as (t & p & m & lo & -> & _).
    reflexivity.
Qed.

Lemma try_shares_spec (s : GS.Service) (attempts : list GS.ShareCall) :
  (fst (GS.try_shares s attempts) = true <->
   exists c, In c attempts /\ GS.share_ok s c = true) /\
  exists k,
    snd (GS.try_shares s attempts) = map GS.Share (firstn k attempts) /\
    k <= List.length attempts /\
    (forall c, In c (firstn (k - 1) attempts) -> GS.share_ok s c = false) /\
    (fst (GS.try_shares s attempts) = false -> k = List.length attempts).
Proof.
  induction attempts as [|c cs IH]; cbn [GS.try_shares].
  - split.
    + split; [discriminate|intros (c & [] & _)].
    + exists 0. repeat split; auto. intros c [].
  - destruct (GS.share_ok s c) eqn:Ec.
    + split.
      * split; [intros _; exists c; split; [now left|exact Ec]|reflexivity].
      * exists 1. cbn [fst snd firstn map List.length Nat.sub].
        split; [reflexivity|]. split; [lia|].
        split; [intros c' []|discriminate].
    + destruct IH as [IH1 (k & Hk & Hle & Hfail & Hall)].
      destruct (GS.try_shares s cs) as [ok calls]. cbn [fst snd] in *.
      split.
      * rewrite IH1. split.
        -- intros (c' & Hin & Hok). exists c'. split; [now right|exact Hok].
        -- intros (c' & [<-|Hin] & Hok); [congruence|now exists c'].
      * exists (S k). cbn [firstn map List.length]. rewrite Hk.
        split; [reflexivity|]. split; [lia|]. split.
        -- replace (S k - 1) with k by lia. intros c' Hin.
           destruct k as [|k]; [destruct Hin|].
           cbn [firstn] in Hin. destruct Hin as [<-|Hin]; [exact Ec|].
           apply Hfail. now replace (S k - 1) with k by lia.
        -- intros H. f_equal. auto.
Qed.

(** X22. Sharing is reported as successful exactly when one of the three
    share calls (editor, writer, editor with an empty address) succeeded;
    the calls are made in that order, each only after the ones before
    failed, and none after the first success. *)
Theorem sharing_stops_at_first_success (s : GS.Service) :
  (fst (GS._share_with_anyone s) = true <->
   exists c, In c GS.share_attempts /\ GS.share_ok s c = true) /\
  exists k,
    snd (GS._share_with_anyone s) = map GS.Share (firstn k GS.share_attempts) /\
    1 <= k <= 3 /\
    (forall c, In c (firstn (k - 1) GS.share_attempts) -> GS.share_ok s c = false) /\
    (fst (GS._share_with_anyone s) = false -> k = 3).
Proof.
  unfold GS._share_with_anyone.
  destruct (try_shares_spec s GS.share_attempts) as [H1 (k & Hk & Hle & Hf & Ha)].
  split; [exact H1|]. exists k. repeat split; auto.
  destruct k as [|k]; [|lia].
  exfalso. cbn [firstn map] in Hk. unfold GS.share_attempts in Hk.
  cbn [GS.try_shares] in Hk.
  destruct (GS.share_ok s _); [discriminate Hk|].
  destruct (GS.share_ok s _); [discriminate Hk|].
  destruct (GS.share_ok s _); discriminate Hk.
Qed.

(** ** The order of the bulk records *)

Lemma first_seen_subseq (links : list (WebElement * value)) :
  forall seen, subseq (first_seen seen links) links.
Proof.
  induction links as [|[l u] rest IH]; intros seen; cbn [first_seen].
  - constructor.
  - destruct (existsb (value_eqb u) seen);
      [apply subseq_skip|apply subseq_keep]; apply IH.
Qed.

(** X24. The bulk pass keeps document order: the URLs of its records are
    the [href]s it could read, in the order of the links on the page, with
    later repetitions left out. *)
Theorem bulk_records_in_document_order (page : Page) (links : list WebElement) :
  page CSS_SELECTOR FB.item_links = Returns links ->
  map url_of (FB.extract_all_listings (Some page))
  = map snd (first_seen [] (readable links)) /\
  subseq (map url_of (FB.extract_all_listings (Some page)))
    (map snd (readable links)).
Proof.
  intros H. rewrite (extract_all_listings_first_seen page links H).
  rewrite urls_of_listings. split; [reflexivity|].
  apply subseq_map, first_seen_subseq.
Qed.

End Properties.

(** * The properties at concrete inputs

    The pages below are read with the character database
    [Fixture.unicode_sample]. *)

#[local] Existing Instance Fixture.unicode_sample.

Lemma safe_find_first_match_or_empty_witness :
  CL.safe_find_element_text (Fixture.titled_page "  2021 Ford  ")
    "#titletextonly" "id" = "2021 Ford" /\
  CL.safe_find_element_attribute
    (fun _ _ => Returns [Fixture.anchor Fixture.listing_url])
    ".mapaddress a" "href" "css" = Fixture.listing_url /\
  (CL.safe_find_element_text Fixture.empty_page ".price" "css" = EmptyString /\
   CL.safe_find_element_attribute Fixture.empty_page ".price" "href" "css"
     = EmptyString) /\
  CL.safe_find_element_text
    (fun _ _ => Returns [mkWebElement Raises Fixture.no_attribute Fixture.no_children])
    ".price" "css" = EmptyString /\
  CL.safe_find_element_attribute
    (fun _ _ => Returns [Fixture.text_node "x"]) "time" "datetime" "css"
    = EmptyString.
Proof.
  split; [|split; [|split; [|split]]].
  - apply (proj1 (safe_find_first_match_or_empty
             (Fixture.titled_page "  2021 Ford  ") "#titletextonly" "id" "href")
             (Fixture.text_node "  2021 Ford  ") [] "  2021 Ford  ");
      reflexivity.
  - apply (proj1 (proj2 (safe_find_first_match_or_empty
             (fun _ _ => Returns [Fixture.anchor Fixture.listing_url])
             ".mapaddress a" "css" "href"))
             (Fixture.anchor Fixture.listing_url) [] Fixture.listing_url);
      reflexivity.
  - apply (proj1 (proj2 (proj2 (safe_find_first_match_or_empty
             Fixture.empty_page ".price" "css" "href")))).
    left. reflexivity.
  - apply (proj1 (proj2 (proj2 (proj2 (safe_find_first_match_or_empty
             (fun _ _ => Returns [mkWebElement Raises Fixture.no_attribute
                                    Fixture.no_children])
             ".price" "css" "href"))))
             (mkWebElement Raises Fixture.no_attribute Fixture.no_children) []);
      reflexivity.
  - apply (proj2 (proj2 (proj2 (proj2 (safe_find_first_match_or_empty
             (fun _ _ => Returns [Fixture.text_node "x"]) "time" "css" "datetime"))))
             (Fixture.text_node "x") []).
    + reflexivity.
    + left. reflexivity.
Defined.

Lemma title_parsing_examples_witness :
  (exists d,
     CL.extract_listing_details
       (fun _ => Returns (Fixture.titled_page "2021 Ford F-150 XLT"))
       Fixture.clock Fixture.listing_url 0 = Some d /\
     item d "year" = PyStr "2021" /\
     item d "make" = PyStr "Ford" /\
     item d "model" = PyStr "F-150 XLT" /\
     item d "title" = PyStr "2021 Ford F-150 XLT") /\
  (exists d,
     CL.extract_listing_details
       (fun _ => Returns (Fixture.titled_page "Great Deal Truck"))
       Fixture.clock Fixture.listing_url 0 = Some d /\
     item d "year" = PyStr EmptyString /\
     item d "make" = PyStr EmptyString /\
     item d "model" = PyStr EmptyString /\
     item d "title" = PyStr "Great Deal Truck") /\
  (exists d,
     CL.extract_listing_details
       (fun _ => Returns (Fixture.titled_page "20215 Ford F-150"))
       Fixture.clock Fixture.listing_url 0 = Some d /\
     item d "year" = PyStr EmptyString /\
     item d "make" = PyStr EmptyString /\
     item d "model" = PyStr EmptyString /\
     item d "title" = PyStr "20215 Ford F-150").
Proof.
  split; [|split].
  - destruct (title_parsing_examples
                (fun _ => Returns (Fixture.titled_page "2021 Ford F-150 XLT"))
                Fixture.clock Fixture.listing_url 0
                (Fixture.titled_page "2021 Ford F-150 XLT") "2021 Ford F-150 XLT"
                eq_refl eq_refl)
      as (d & Hd & Ht & _ & _ & Hford & _).
    destruct (Hford eq_refl) as (Hy & Hmk & Hmo).
    exists d. repeat split; try assumption. exact (Ht eq_refl).
  - destruct (title_parsing_examples
                (fun _ => Returns (Fixture.titled_page "Great Deal Truck"))
                Fixture.clock Fixture.listing_url 0
                (Fixture.titled_page "Great Deal Truck") "Great Deal Truck"
                eq_refl eq_refl)
      as (d & Hd & Ht & _ & _ & _ & Hdeal).
    destruct (Hdeal eq_refl) as (Hy & Hmk & Hmo).
    exists d. repeat split; try assumption. exact (Ht eq_refl).
  - destruct (title_parsing_examples
                (fun _ => Returns (Fixture.titled_page "20215 Ford F-150"))
                Fixture.clock Fixture.listing_url 0
                (Fixture.titled_page "20215 Ford F-150") "20215 Ford F-150"
                eq_refl eq_refl)
      as (d & Hd & Ht & Hno & _).
    destruct (Hno eq_refl) as (Hy & Hmk & Hmo).
    exists d. repeat split; try assumption. exact (Ht eq_refl).
Defined.

(** C2, refuted as stated: on a page where no title, price or VIN element
    exists, the builder falls back to a title made from the URL's last
    segment, so the record passes the check and is appended. *)
Lemma empty_page_still_yields_record :
  ~ (forall (browse : string -> outcome Page) (now : nat -> string)
       (all_listings : list dict) (i : nat) (url : string) (driver : Page),
       browse url = Returns driver ->
       CL.find_title driver = EmptyString ->
       CL.safe_find_element_text driver ".price" "css" = EmptyString ->
       CL.safe_find_element_text driver ".attr.auto_vin .valu" "css" = EmptyString ->
       CL.visit browse now all_listings i url = all_listings).
Proof.
  intros H.
  specialize (H (fun _ => Returns Fixture.empty_page) (fun _ => "2025-01-01 00:00:00")
                [] 0 Fixture.listing_url Fixture.empty_page
                eq_refl eq_refl eq_refl eq_refl).
  vm_compute in H. discriminate H.
Qed.

Lemma record_kept_iff_signal_witness :
  CL.visit (fun _ => Returns Fixture.empty_page) (fun _ => "2025-01-01 00:00:00")
    [] 0 "https://bend.craigslist.org/cto/d/bend-2021-ford-f150/" = [] /\
  exists d,
    CL.visit (fun _ => Returns Fixture.empty_page) (fun _ => "2025-01-01 00:00:00")
      [] 0 Fixture.listing_url = [] ++ [d] /\
    item d "title" = PyStr (CL.url_title Fixture.listing_url).
Proof.
  split.
  - apply (proj2 (proj2 (record_kept_iff_signal
             (fun _ => Returns Fixture.empty_page) (fun _ => "2025-01-01 00:00:00")
             [] 0 "https://bend.craigslist.org/cto/d/bend-2021-ford-f150/"))
             Fixture.empty_page eq_refl eq_refl eq_refl eq_refl).
    reflexivity.
  - apply (proj2 (proj2 (record_kept_iff_signal
             (fun _ => Returns Fixture.empty_page) (fun _ => "2025-01-01 00:00:00")
             [] 0 Fixture.listing_url))
             Fixture.empty_page eq_refl eq_refl eq_refl eq_refl).
    vm_compute. discriminate.
Defined.

Lemma escalation_short_circuit_witness :
  (fst (CL.extract_listing_urls Fixture.absolute Fixture.listing_url
          Fixture.search_page) = [Fixture.listing_url] /\
   snd (CL.extract_listing_urls Fixture.absolute Fixture.listing_url
          Fixture.search_page) = [CL.q_result_node]) /\
  In CL.q_data_pid
    (snd (CL.extract_listing_urls Fixture.absolute Fixture.listing_url
            Fixture.empty_page)).
Proof.
  split.
  - pose proof (escalation_short_circuit Fixture.absolute Fixture.listing_url
                  Fixture.search_page) as H.
    destruct (CL.extract_listing_urls Fixture.absolute Fixture.listing_url
                Fixture.search_page) as [urls queries].
    destruct H as (_ & _ & H & _).
    exact (H Fixture.listing_url [] eq_refl).
  - pose proof (escalation_short_circuit Fixture.absolute Fixture.listing_url
                  Fixture.empty_page) as H.
    destruct (CL.extract_listing_urls Fixture.absolute Fixture.listing_url
                Fixture.empty_page) as [urls queries].
    destruct H as (_ & H & _).
    apply (proj2 H). split; reflexivity.
Defined.

Lemma url_deduplication_witness :
  fst (CL.extract_listing_urls Fixture.absolute Fixture.search_url
         Fixture.search_page)
  = fst (CL.extract_listing_urls Fixture.absolute Fixture.search_url
           (fun by_ sel => Fixture.search_page by_ sel)) /\
  fst (CL.extract_listing_urls Fixture.absolute Fixture.search_url
         Fixture.search_page) = [Fixture.listing_url] /\
  (exists later,
      first_seen_urls [["a"; "b"]; ["a"; "c"]; ["d"]; ["c"; "d"]]
      = first_seen_urls [["a"; "b"]; ["a"; "c"]] ++ "d" :: later) /\
  List.length
    (filter (fun d => value_eqb (url_of d) (PyStr Fixture.item_url))
       (FB.extract_all_listings (Some Fixture.twin_feed))) = 1 /\
  In (FB.build_listing (Fixture.priced_card Fixture.item_url "$25,000")
        (PyStr Fixture.item_url))
     (FB.extract_all_listings (Some Fixture.twin_feed)).
Proof.
  split; [|split; [|split; [|split]]].
  - apply f_equal.
    apply (proj1 (proj2 (proj2 url_deduplication))
             Fixture.absolute Fixture.search_url
             Fixture.search_page (fun by_ sel => Fixture.search_page by_ sel)).
    intros by_ sel. reflexivity.
  - rewrite (proj2 (proj2 (proj1 url_deduplication
               Fixture.absolute Fixture.search_url Fixture.search_page))).
    reflexivity.
  - apply (proj2 (proj2 (proj2 (proj1 (proj2 url_deduplication)
             [["a"; "b"]; ["a"; "c"]; ["d"]; ["c"; "d"]])))
             [["a"; "b"]; ["a"; "c"]] "d" [["c"; "d"]] eq_refl).
    intros o [<-|[<-|[]]]; cbn [In]; intros H;
      repeat (destruct H as [H|H]; [discriminate H|]); exact H.
  - apply (proj1 (proj2 (proj2 (proj2 (proj2 url_deduplication)) Fixture.twin_feed
             [Fixture.priced_card Fixture.item_url "$25,000";
              Fixture.priced_card Fixture.item_url "$1"] eq_refl))
             (Fixture.priced_card Fixture.item_url "$1")).
    + right. left. reflexivity.
    + reflexivity.
  - apply (proj2 (proj2 (proj2 (proj2 (proj2 url_deduplication)) Fixture.twin_feed
             [Fixture.priced_card Fixture.item_url "$25,000";
              Fixture.priced_card Fixture.item_url "$1"] eq_refl))
             [] (Fixture.priced_card Fixture.item_url "$25,000")
             [Fixture.priced_card Fixture.item_url "$1"]).
    + reflexivity.
    + reflexivity.
    + intros l [].
Defined.

Lemma facebook_price_well_formed_witness :
  (exists rest,
      item (FB.build_listing (Fixture.blank_alt_card Fixture.other_item_url)
              (PyStr Fixture.other_item_url)) "price"
      = PyStr (String "$"%char rest) /\
      any_digit (String "$"%char rest) = true /\
      1 < len (String "$"%char rest) < 30) /\
  item (FB.build_listing (Fixture.blank_alt_card Fixture.other_item_url)
          (PyStr Fixture.other_item_url)) "price" = PyStr "$25,000" /\
  (exists rest,
      item (FB.build_listing (Fixture.priced_card Fixture.item_url Fixture.long_price)
              (PyStr Fixture.item_url)) "price"
      = PyStr (String "$"%char rest) /\
      any_digit (String "$"%char rest) = true /\
      1 < len (String "$"%char rest) < 30) /\
  String.length Fixture.long_price = 31 /\
  len Fixture.long_price = 16.
Proof.
  split; [|split; [|split; [|split]]].
  - apply (facebook_price_well_formed (Some Fixture.mixed_feed)).
    + right. left. reflexivity.
    + vm_compute. discriminate.
  - reflexivity.
  - apply (facebook_price_well_formed
             (Some (fun _ _ =>
                      Returns [Fixture.priced_card Fixture.item_url
                                 Fixture.long_price]))).
    + left. reflexivity.
    + vm_compute. discriminate.
  - reflexivity.
  - reflexivity.
Defined.

Lemma stale_session_falls_back_once_witness :
  (exists rest,
      snd (FB.scrape_facebook_marketplace Fixture.stale_world
             Fixture.marketplace_url 15)
      = [FB.StartChrome FB.Headless; FB.LoadSession FB.Headless;
         FB.Get Fixture.marketplace_url; FB.CountListings; FB.QuitDriver;
         FB.LoginRequired] ++ rest) /\
  occurrences is_login_required
    (snd (FB.scrape_facebook_marketplace Fixture.stale_world
            Fixture.marketplace_url 15)) = 1 /\
  occurrences is_headless_replay
    (snd (FB.scrape_facebook_marketplace Fixture.stale_world
            Fixture.marketplace_url 15)) = 1 /\
  occurrences is_quit
    (snd (FB.scrape_facebook_marketplace Fixture.stale_world
            Fixture.marketplace_url 15)) = 1 /\
  occurrences is_replay
    (snd (FB.scrape_facebook_marketplace Fixture.stale_world
            Fixture.marketplace_url 15)) <= 2.
Proof.
  apply (stale_session_falls_back_once Fixture.stale_world
           Fixture.marketplace_url 15 ["c_user"]); reflexivity.
Defined.

(** C1, refuted as stated: a record of the bulk pipeline has no [year] key
    (nor any of the other keys outside its own five), and its unresolved
    title holds [N/A], not the empty string. *)
Lemma facebook_record_misses_schema_fields :
  ~ (forall (w : FB.World) (marketplace_url : string) (n : nat) (d : dict),
       In d (fst (FB.scrape_facebook_marketplace w marketplace_url n)) ->
       forall k, In k listing_fields -> exists v, dict_get d k = Some v) /\
  exists d,
    In d (fst (FB.scrape_facebook_marketplace Fixture.logged_in_world
                 Fixture.marketplace_url 5)) /\
    dict_get d "year" = None /\
    dict_get d "title" = Some (PyStr "N/A").
Proof.
  assert (Hin : In (fb_record (PyStr Fixture.item_url) "N/A" "$25,000" "N/A" "N/A")
                  (fst (FB.scrape_facebook_marketplace Fixture.logged_in_world
                          Fixture.marketplace_url 5)))
    by (vm_compute; left; reflexivity).
  split.
  - intros H.
    destruct (H _ _ _ _ Hin "year") as [v Hv].
    + unfold listing_fields. cbn [In]. tauto.
    + vm_compute in Hv. discriminate Hv.
  - eexists. split; [exact Hin|]. split; reflexivity.
Qed.

Lemma records_have_their_pipeline_fields_witness :
  (keys (built_record Fixture.clock Fixture.listing_url 0
           (Fixture.titled_page "2021 Ford F-150 XLT")) = listing_fields /\
   forall k, In k listing_fields ->
     exists s,
       dict_get (built_record Fixture.clock Fixture.listing_url 0
                   (Fixture.titled_page "2021 Ford F-150 XLT")) k
       = Some (PyStr s)) /\
  (exists link,
      fb_record (PyStr Fixture.item_url) "N/A" "$12,500" "45K miles" "Bend, OR"
      = FB.build_listing link (PyStr Fixture.item_url) /\
      or_not_available (title_of link) = "N/A" /\
      or_not_available (price_of link) = "$12,500" /\
      or_not_available (mileage_of link) = "45K miles" /\
      or_not_available (location_of link) = "Bend, OR") /\
  (exists link,
      fb_record (PyStr Fixture.other_item_url) EmptyString "$25,000" "N/A" "N/A"
      = FB.build_listing link (PyStr Fixture.other_item_url) /\
      or_not_available (title_of link) = EmptyString /\
      or_not_available (price_of link) = "$25,000" /\
      or_not_available (mileage_of link) = "N/A" /\
      or_not_available (location_of link) = "N/A").
Proof.
  split; [|split].
  - destruct (proj1 records_have_their_pipeline_fields
                Fixture.absolute Fixture.site Fixture.clock true
                Fixture.search_url None
                (built_record Fixture.clock Fixture.listing_url 0
                   (Fixture.titled_page "2021 Ford F-150 XLT")))
      as (Hk & Hs & _).
    + vm_compute. left. reflexivity.
    + split; assumption.
  - destruct (proj2 records_have_their_pipeline_fields
                Fixture.mixed_world Fixture.marketplace_url 5
                (fb_record (PyStr Fixture.item_url) "N/A" "$12,500" "45K miles"
                   "Bend, OR"))
      as (_ & _ & link & u & Hu & Hurl & Hd & Ht & Hp & Hm & Hl & _).
    + vm_compute. left. reflexivity.
    + injection Hurl as <-. injection Ht as Ht. injection Hp as Hp.
      injection Hm as Hm. injection Hl as Hl.
      exists link. repeat split; [exact Hd|now symmetry..].
  - destruct (proj2 records_have_their_pipeline_fields
                Fixture.mixed_world Fixture.marketplace_url 5
                (fb_record (PyStr Fixture.other_item_url) EmptyString "$25,000"
                   "N/A" "N/A"))
      as (_ & _ & link & u & Hu & Hurl & Hd & Ht & Hp & Hm & Hl & _).
    + vm_compute. right. left. reflexivity.
    + injection Hurl as <-. injection Ht as Ht. injection Hp as Hp.
      injection Hm as Hm. injection Hl as Hl.
      exists link. repeat split; [exact Hd|now symmetry..].
Defined.

Lemma changing_feed_uses_every_attempt_witness :
  FB.stalled (snd (FB.wait_and_scroll (fun k => S k) 6)) = false /\
  FB.attempts (snd (FB.wait_and_scroll (fun k => S k) 6)) = 6 /\
  FB.scrolls (snd (FB.wait_and_scroll (fun k => S k) 6)) = 6.
Proof.
  apply (changing_feed_uses_every_attempt (fun k => S k) 6).
  intros k _. destruct k; cbn [seen_before]; lia.
Defined.

Lemma listing_count_is_largest_answer_witness :
  List.length [Fixture.priced_card Fixture.item_url "$25,000";
               Fixture.priced_card Fixture.item_url "$1"]
  <= FB.get_listing_count (Some Fixture.twin_feed) /\
  FB.get_listing_count (Some (fun _ _ => Raises)) = 0.
Proof.
  split.
  - apply (proj1 (proj1 (listing_count_is_largest_answer Fixture.twin_feed)
                    [Fixture.priced_card Fixture.item_url "$25,000";
                     Fixture.priced_card Fixture.item_url "$1"] eq_refl)).
  - apply (proj1 (proj2 (listing_count_is_largest_answer (fun _ _ => Raises)))).
    reflexivity.
Defined.

Lemma records_bounded_by_listing_count_witness :
  FB.extract_all_listings (Some Fixture.empty_page) = [].
Proof.
  apply (proj2 (records_bounded_by_listing_count (Some Fixture.empty_page))).
  reflexivity.
Defined.


Lemma mileage_and_location_well_formed_witness :
  exists m lo,
    item (FB.build_listing (Fixture.detailed_card Fixture.item_url)
            (PyStr Fixture.item_url)) "mileage" = PyStr m /\
    item (FB.build_listing (Fixture.detailed_card Fixture.item_url)
            (PyStr Fixture.item_url)) "location" = PyStr lo /\
    (m <> "N/A" ->
     contains "mile" (lower m) = true /\ len m < 50) /\
    (lo <> "N/A" ->
     contains ", " lo = true /\ len lo < 50 /\
     contains "mile" (lower lo) = false) /\
    (m <> "N/A" -> lo <> "N/A" -> m <> lo).
Proof.
  apply (mileage_and_location_well_formed (Some Fixture.detailed_feed)).
  left. reflexivity.
Defined.

Lemma at_most_one_url_per_container_witness :
  List.length [Fixture.listing_url]
  <= List.length (found_or_none (CL.ask Fixture.search_page CL.q_result_node)).
Proof.
  apply (proj1 (at_most_one_url_per_container Fixture.absolute Fixture.search_url
                  Fixture.search_page)).
  reflexivity.
Defined.

Lemma fallback_keeps_every_detail_url_witness :
  In (Fixture.absolute Fixture.search_url
        "https://bend.craigslist.org/cto/d/other/1.html")
    (fst (CL.extract_listing_urls Fixture.absolute Fixture.search_url
            (fun by_ sel =>
               match by_ with
               | CLASS_NAME => Returns []
               | _ => Fixture.search_page by_ sel
               end))).
Proof.
  apply (proj1 (fallback_keeps_every_detail_url Fixture.absolute Fixture.search_url
                  (fun by_ sel =>
                     match by_ with
                     | CLASS_NAME => Returns []
                     | _ => Fixture.search_page by_ sel
                     end)
                  eq_refl)
           [Fixture.result_node "https://bend.craigslist.org/cto/d/other/1.html"]
           (Fixture.result_node "https://bend.craigslist.org/cto/d/other/1.html")
           (Fixture.anchor "https://bend.craigslist.org/cto/d/other/1.html")
           "https://bend.craigslist.org/cto/d/other/1.html");
    try reflexivity.
  left. reflexivity.
Defined.

Lemma discovered_urls_are_detail_links_witness :
  exists containers container link href,
    In container containers /\
    ((CL.ask Fixture.search_page CL.q_result_node = Returns containers /\
      exists links,
        find_elements container CSS_SELECTOR "a.cl-app-anchor" = Returns links /\
        In link links) \/
     ((CL.ask Fixture.search_page CL.q_search_result = Returns containers \/
       CL.ask Fixture.search_page CL.q_data_pid = Returns containers) /\
      find_element container CSS_SELECTOR "a" = Returns link)) /\
    get_attribute link "href" = Returns (PyStr href) /\
    contains "/d/" href = true /\
    Fixture.listing_url = Fixture.absolute Fixture.search_url href.
Proof.
  apply (discovered_urls_are_detail_links Fixture.absolute Fixture.search_url
           Fixture.search_page Fixture.listing_url).
  left. reflexivity.
Defined.

Lemma first_nonempty_lookup_wins_witness :
  CL.find_title (Fixture.titled_page "2021 Ford F-150 XLT") = "2021 Ford F-150 XLT" /\
  CL.find_date_posted Fixture.empty_page = EmptyString.
Proof.
  split.
  - apply (proj1 (first_nonempty_lookup_wins
             (Fixture.titled_page "2021 Ford F-150 XLT")) [] _
             [EmptyString; EmptyString; EmptyString]).
    + reflexivity.
    + intros x [].
    + discriminate.
  - apply (proj2 (proj2 (proj2 (first_nonempty_lookup_wins Fixture.empty_page)))).
    intros x [<-|[<-|[<-|[<-|[]]]]]; reflexivity.
Defined.

Lemma parsed_fields_well_formed_witness :
  exists y mk mo,
    item (built_record Fixture.clock Fixture.listing_url 0
            (Fixture.titled_page "2021 Ford F-150 XLT")) "year" = PyStr y /\
    item (built_record Fixture.clock Fixture.listing_url 0
            (Fixture.titled_page "2021 Ford F-150 XLT")) "make" = PyStr mk /\
    item (built_record Fixture.clock Fixture.listing_url 0
            (Fixture.titled_page "2021 Ford F-150 XLT")) "model" = PyStr mo /\
    ((y = EmptyString /\ mk = EmptyString /\ mo = EmptyString) \/
     (len y = 4 /\ all_chars char_isdecimal y = true /\
      0 < len mk /\ all_chars Re.letter mk = true /\
      exists rest,
        item (built_record Fixture.clock Fixture.listing_url 0
                (Fixture.titled_page "2021 Ford F-150 XLT")) "title"
        = PyStr (y ++ rest)%string)).
Proof.
  apply (parsed_fields_well_formed Fixture.site Fixture.clock
           Fixture.listing_url 0).
  reflexivity.
Defined.


Lemma failed_navigation_ends_the_run_witness :
  FB.scrape_facebook_marketplace
    (FB.mkWorld (Some (Returns ["c_user"])) (fun _ => FB.Started)
       (fun url => url =? FB.facebook_home) (fun _ => Fixture.twin_feed)
       true true true (Some FB.Visible))
    Fixture.marketplace_url 5
  = ([], [FB.StartChrome FB.Headless; FB.LoadSession FB.Headless;
          FB.Get Fixture.marketplace_url]).
Proof.
  apply (failed_navigation_ends_the_run _ Fixture.marketplace_url 5 ["c_user"]);
    reflexivity.
Defined.

Lemma no_session_waits_for_login_witness :
  fst (FB.scrape_facebook_marketplace
         (FB.mkWorld None (fun _ => FB.Started) (fun _ => true)
            (fun _ => Fixture.twin_feed) false false false None)
         Fixture.marketplace_url 5) = [] /\
  exists before,
    snd (FB.scrape_facebook_marketplace
           (FB.mkWorld None (fun _ => FB.Started) (fun _ => true)
              (fun _ => Fixture.twin_feed) false false false None)
           Fixture.marketplace_url 5)
    = before ++ [FB.LoginRequired].
Proof.
  apply (proj2 (no_session_waits_for_login
                  (FB.mkWorld None (fun _ => FB.Started) (fun _ => true)
                     (fun _ => Fixture.twin_feed) false false false None)
                  Fixture.marketplace_url 5)).
  - vm_compute. lia.
  - reflexivity.
  - reflexivity.
Defined.

Lemma sheet_has_the_run_columns_witness :
  GS.sheet_data
    (GS.DataFrame (CL.scrape_craigslist Fixture.absolute Fixture.site
                     Fixture.clock true Fixture.search_url None))
  = listing_fields
    :: map (sheet_row listing_fields)
         (CL.scrape_craigslist Fixture.absolute Fixture.site Fixture.clock true
            Fixture.search_url None).
Proof.
  apply (proj1 sheet_has_the_run_columns Fixture.absolute Fixture.site
           Fixture.clock true Fixture.search_url None Fixture.good_service
           "Craigslist Truck Listings").
  vm_compute. right. right. left. reflexivity.
Defined.

Lemma sharing_stops_at_first_success_witness :
  fst (GS._share_with_anyone Fixture.good_service) = true.
Proof.
  apply (proj1 (sharing_stops_at_first_success Fixture.good_service)).
  eexists. split; [left; reflexivity|reflexivity].
Defined.

Lemma bulk_records_in_document_order_witness :
  subseq (map url_of (FB.extract_all_listings (Some Fixture.twin_feed)))
    (map snd (readable [Fixture.priced_card Fixture.item_url "$25,000";
                        Fixture.priced_card Fixture.item_url "$1"])).
Proof.
  apply (proj2 (bulk_records_in_document_order Fixture.twin_feed _ eq_refl)).
Defined.
